(** * Room booking backend: the booking transaction engine

  A shallow embedding of the booking core of the room booking service
  ([be_ms/src/api.js], [be_ms/src/mongodb/index.js], [be_ms/src/redis/index.js])
  and the properties its specification states about it.

  Conventions of the embedding.
  - A JavaScript [Date] is the integer number of milliseconds since the
    epoch ([Z]); only valid dates are represented.
  - The server's local time zone is UTC (the container default), so
    [setDate(getDate() + 1)] adds exactly one day of milliseconds and
    [setHours(0,0,0,0)] agrees with [setUTCHours(0,0,0,0)].
  - Redis is a finite map from keys to values with an optional absolute
    expiry; a key whose expiry has passed is absent for every command.
  - MongoDB collections are finite maps keyed by their unique index:
    rooms and bookings by [_id], availability by [(room_id, date)].
  - Every [await] of one request runs at the same clock reading [now];
    a request is one atomic state transformer. *)

From Equations Require Import Equations.
From stdpp Require Import gmap strings list fin_maps sorting.
From Stdlib Require Import ZArith Lia.
Open Scope Z_scope.

(** ** JavaScript string primitives used by the routes and the schemas *)

Module Js.

(** ASCII approximation of [String.prototype.toLowerCase]. *)
Definition lower_ascii (c : Ascii.ascii) : Ascii.ascii :=
  let n := Ascii.nat_of_ascii c in
  if ((65 <=? n) && (n <=? 90))%nat then Ascii.ascii_of_nat (n + 32) else c.

Fixpoint toLowerCase (s : string) : string :=
  match s with
  | EmptyString => EmptyString
  | String c s' => String (lower_ascii c) (toLowerCase s')
  end.

(** ASCII white space: space, tab, line feed, vertical tab, form feed,
    carriage return. *)
Definition is_space (c : Ascii.ascii) : bool :=
  let n := Ascii.nat_of_ascii c in
  ((n =? 32) || ((9 <=? n) && (n <=? 13)))%nat.

Fixpoint trimStart (s : string) : string :=
  match s with
  | EmptyString => EmptyString
  | String c s' => if is_space c then trimStart s' else s
  end.

Definition trim (s : string) : string :=
  String.rev (trimStart (String.rev (trimStart s))).

(** [String(v)] for a value that is a string or null. *)
Definition String_ (v : option string) : string := default "null" v.

(** [v || null] for a value that is a string, null or undefined: the empty
    string is falsy. *)
Definition or_null (v : option string) : option string :=
  match v with
  | Some s => if bool_decide (s = "") then None else Some s
  | None => None
  end.

End Js.

(** ** Redis: [be_ms/src/redis/index.js] *)

Module Redis.

Record entry := Entry { value : string; expire_at : option Z }.

(** An entry is visible while the clock is strictly before its expiry. *)
Definition live (now : Z) (e : entry) : bool :=
  match expire_at e with
  | Some t => now <? t
  | None => true
  end.

(** [GET key]: the value, or [None] for the null reply. *)
Definition GET (now : Z) (key : string) (r : gmap string entry) : option string :=
  match r !! key with
  | Some e => if live now e then Some (value e) else None
  | None => None
  end.

(** [SET key value EX ttl]: unconditional write, expiry in seconds. *)
Definition SET_EX (now : Z) (key val : string) (ttl : Z)
    (r : gmap string entry) : gmap string entry :=
  <[key := Entry val (Some (now + ttl * 1000))]> r.

(** [SET key value PX timeout NX]: write only when the key is absent;
    the reply is [Some tt] for OK and [None] for null. *)
Definition SET_PX_NX (now : Z) (key val : string) (timeout : Z)
    (r : gmap string entry) : option unit * gmap string entry :=
  match GET now key r with
  | Some _ => (None, r)
  | None => (Some tt, <[key := Entry val (Some (now + timeout))]> r)
  end.

Definition DEL (key : string) (r : gmap string entry) : gmap string entry :=
  delete key r.

Definition getIdempotencyKey (now : Z) (key : string)
    (r : gmap string entry) : option string :=
  GET now ("idem:" +:+ key) r.

Definition setIdempotencyKey (now : Z) (key val : string) (ttl : Z)
    (r : gmap string entry) : gmap string entry :=
  SET_EX now ("idem:" +:+ key) val ttl r.

(** [result !== null] *)
Definition acquireLock (now : Z) (lockKey token : string) (timeout : Z)
    (r : gmap string entry) : bool * gmap string entry :=
  let '(result, r') := SET_PX_NX now lockKey token timeout r in
  (bool_decide (result ≠ None), r').

(** [currentToken === token] compares the reply of GET, which is null
    when there is no visible lock, with the caller's string. *)
Definition releaseLock (now : Z) (lockKey token : string)
    (r : gmap string entry) : gmap string entry :=
  let currentToken := GET now lockKey r in
  if bool_decide (currentToken = Some token) then DEL lockKey r else r.

End Redis.

(** ** MongoDB models and utilities: [be_ms/src/mongodb/index.js] *)

Module Mongodb.

Definition MS_PER_DAY : Z := 1000 * 60 * 60 * 24.

(** [normalized.setUTCHours(0, 0, 0, 0)] *)
Definition normalizeDate (date : Z) : Z := date - date `mod` MS_PER_DAY.

(** The [while (current <= end)] loop of [getDateRange]; each turn pushes a
    copy of [current] and moves it one day on. *)
Equations? getDateRange_loop (current e : Z) (dates : list Z) : list Z
  by wf (Z.to_nat ((e - current) `div` MS_PER_DAY + 1)) lt :=
  getDateRange_loop current e dates with decide (current <= e) => {
    | left _ := getDateRange_loop (current + MS_PER_DAY) e (dates ++ [current]);
    | right _ := dates }.
Proof.
  unfold MS_PER_DAY in *.
  replace (e - (current + 1000 * 60 * 60 * 24))
    with ((e - current) + (-1) * (1000 * 60 * 60 * 24)) by lia.
  rewrite Z.div_add by lia.
  assert (0 <= (e - current) `div` (1000 * 60 * 60 * 24))
    by (apply Z.div_pos; lia).
  lia.
Qed.

Definition getDateRange (startDate endDate : Z) : list Z :=
  getDateRange_loop (normalizeDate startDate) (normalizeDate endDate) [].

(** *** Schemas *)

Record Room := {
  name : string;
  description : option string;
  location : string;
  floor : option Z;
  capacity : Z;
  price_cents : Z;
  amenities : list string;
  images : list string;
  is_active : bool;
}.

Record Availability := {
  total_units : Z;
  available_units : Z;
  updated_at : Z;
}.

Inductive Status := pending | confirmed | cancelled | completed.

Record Booking := {
  user_id : string;
  room_id : string;
  start_date : Z;
  end_date : Z;
  quantity : Z;
  total_price_cents : Z;
  status : Status;
  cancellation_reason : option string;
  cancelled_at : option Z;
  notes : option string;
  created_at : Z;
  b_updated_at : Z;
}.

#[global] Instance Availability_eq_dec : EqDecision Availability.
Proof. solve_decision. Defined.
#[global] Instance Status_eq_dec : EqDecision Status.
Proof. solve_decision. Defined.

Record db := {
  rooms : gmap string Room;
  availabilities : gmap (string * Z) Availability;
  bookings : gmap string Booking;
}.

Definition with_availabilities (av : gmap (string * Z) Availability) (m : db) : db :=
  {| rooms := rooms m; availabilities := av; bookings := bookings m |}.

Definition with_bookings (bs : gmap string Booking) (m : db) : db :=
  {| rooms := rooms m; availabilities := availabilities m; bookings := bs |}.

(** What a rejected promise carries: [err.name] and, for the cases the
    routes look at, the message. *)
Inductive Error :=
| ValidationError (message : string)
| CastError
| PlainError (message : string)
| DuplicateKeyError
| DocumentNotFoundError.

(** *** Availability *)

(** The update [{ $inc: { available_units: by } }] on one record; the
    schema's [timestamps] option makes it also set [updated_at]. *)
Definition inc_available_units (now by_ : Z) (a : Availability) : Availability :=
  {| total_units := total_units a;
     available_units := available_units a + by_;
     updated_at := now |}.

(** [Availability.updateOne({ room_id, date, available_units: { $gte: qty } },
    { $inc: { available_units: -qty } })]. The first component is
    [modifiedCount]: 1 when the matched record changed, 0 otherwise. *)
Definition Availability_updateOne_dec (now : Z) (room_id : string) (date qty : Z)
    (c : gmap (string * Z) Availability) : Z * gmap (string * Z) Availability :=
  match c !! (room_id, date) with
  | Some a =>
      if qty <=? available_units a then
        let a' := inc_available_units now (- qty) a in
        (if decide (a' = a) then 0 else 1, <[(room_id, date) := a']> c)
      else (0, c)
  | None => (0, c)
  end.

(** Validators of [AvailabilitySchema] on the fields a new record carries:
    [min: 0] on both counters and the midnight-UTC check on [date]. *)
Definition Availability_valid (date : Z) (a : Availability) : bool :=
  (0 <=? total_units a) && (0 <=? available_units a)
  && (date `mod` MS_PER_DAY =? 0).

(** [Availability.insertMany(records, { ordered: false })]: every valid
    record whose [(room_id, date)] is free is inserted; the others are
    skipped (duplicate-key errors are ignored by the caller). *)
Fixpoint Availability_insertMany (records : list ((string * Z) * Availability))
    (c : gmap (string * Z) Availability) : gmap (string * Z) Availability :=
  match records with
  | [] => c
  | (k, a) :: rest =>
      let c' := match c !! k with
                | Some _ => c
                | None => if Availability_valid k.2 a then <[k := a]> c else c
                end in
      Availability_insertMany rest c'
  end.

(** [initializeAvailability]: the same day loop as [getDateRange], one
    fully available record per day. *)
Definition initializeAvailability (now : Z) (roomId : string) (totalUnits : Z)
    (startDate endDate : Z) (m : db) : db :=
  let currentDate := normalizeDate startDate in
  let finalDate := normalizeDate endDate in
  let availabilityRecords :=
    (λ d, ((roomId, d), {| total_units := totalUnits;
                           available_units := totalUnits;
                           updated_at := now |}))
      <$> getDateRange_loop currentDate finalDate [] in
  with_availabilities (Availability_insertMany availabilityRecords (availabilities m)) m.

(** *** Booking *)

(** Schema validators that can fail for a document of this shape:
    [min]/[max] on [quantity], [min] on [total_price_cents], [maxlength]
    on the two free-text fields. Mongoose prefixes the message with the
    model and path names. *)
Definition Booking_validate (b : Booking) : option string :=
  if quantity b <? 1 then Some "Quantity must be at least 1"
  else if 100 <? quantity b then Some "Quantity cannot exceed 100"
  else if total_price_cents b <? 0 then Some "Price cannot be negative"
  else if bool_decide (500 < Z.of_nat (String.length (default "" (cancellation_reason b))))
    then Some "Cancellation reason cannot exceed 500 characters"
  else if bool_decide (1000 < Z.of_nat (String.length (default "" (notes b))))
    then Some "Notes cannot exceed 1000 characters"
  else None.

(** [BookingSchema.pre('save', ...)] *)
Definition Booking_pre_save (b : Booking) : option Error :=
  if end_date b <=? start_date b
  then Some (PlainError "End date must be after start date")
  else None.

(** The hooks of [save()] in the order Mongoose runs them: built-in
    validation first, then the schema's own [pre('save')]. *)
Definition Booking_save_hooks (b : Booking) : option Error :=
  match Booking_validate b with
  | Some msg => Some (ValidationError msg)
  | None => Booking_pre_save b
  end.

(** [Booking.create([doc], opts)] for a single document whose fresh [_id]
    is [id]: setters ([trim]) and timestamps are applied, the save hooks
    run, and the document is inserted. *)
Definition Booking_create (now : Z) (id : string) (doc : Booking) (m : db) : Error + db :=
  let doc := {| user_id := user_id doc; room_id := room_id doc;
                start_date := start_date doc; end_date := end_date doc;
                quantity := quantity doc;
                total_price_cents := total_price_cents doc;
                status := status doc;
                cancellation_reason := Js.trim <$> cancellation_reason doc;
                cancelled_at := cancelled_at doc;
                notes := Js.trim <$> notes doc;
                created_at := now; b_updated_at := now |} in
  match Booking_save_hooks doc with
  | Some err => inl err
  | None =>
      match bookings m !! id with
      | Some _ => inl DuplicateKeyError
      | None => inr (with_bookings (<[id := doc]> (bookings m)) m)
      end
  end.

Definition Booking_findById (id : string) (m : db) : option Booking :=
  bookings m !! id.

(** [this.save()] on a document loaded from the collection. *)
Definition Booking_save (now : Z) (id : string) (this : Booking) (m : db) : Error + (Booking * db) :=
  match Booking_save_hooks this with
  | Some err => inl err
  | None =>
      match bookings m !! id with
      | None => inl DocumentNotFoundError
      | Some _ =>
          let saved := {| user_id := user_id this; room_id := room_id this;
                          start_date := start_date this; end_date := end_date this;
                          quantity := quantity this;
                          total_price_cents := total_price_cents this;
                          status := status this;
                          cancellation_reason := cancellation_reason this;
                          cancelled_at := cancelled_at this;
                          notes := notes this;
                          created_at := created_at this; b_updated_at := now |} in
          inr (saved, with_bookings (<[id := saved]> (bookings m)) m)
      end
  end.

(** [BookingSchema.methods.cancel]: [this] is the document with [_id = id].
    The method ends after [save()]: the availability collection is not
    among the things it writes. *)
Definition Booking_cancel (now : Z) (id : string) (this : Booking)
    (reason : option string) (m : db) : Error + (Booking * db) :=
  if bool_decide (status this = cancelled) then
    inl (PlainError "Booking is already cancelled")
  else
    let this := {| user_id := user_id this; room_id := room_id this;
                   start_date := start_date this; end_date := end_date this;
                   quantity := quantity this;
                   total_price_cents := total_price_cents this;
                   status := cancelled;
                   cancellation_reason := Js.trim <$> reason;
                   cancelled_at := Some now;
                   notes := notes this;
                   created_at := created_at this;
                   b_updated_at := b_updated_at this |} in
    Booking_save now id this m.

(** [BookingSchema.virtual('nights')]:
    [Math.ceil((end_date - start_date) / MS_PER_DAY)]. *)
Definition nights (b : Booking) : Z :=
  - ((start_date b - end_date b) `div` MS_PER_DAY).

(** [toPublicJSON] without [total_price_dollars] (a formatted decimal
    string) and with references kept as ids. *)
Record PublicBooking := {
  pb_id : string;
  pb_user_id : string;
  pb_room_id : string;
  pb_start_date : Z;
  pb_end_date : Z;
  pb_quantity : Z;
  pb_nights : Z;
  pb_total_price_cents : Z;
  pb_status : Status;
  pb_notes : option string;
  pb_created_at : Z;
}.

Definition toPublicJSON (id : string) (b : Booking) : PublicBooking :=
  {| pb_id := id; pb_user_id := user_id b; pb_room_id := room_id b;
     pb_start_date := start_date b; pb_end_date := end_date b;
     pb_quantity := quantity b; pb_nights := nights b;
     pb_total_price_cents := total_price_cents b;
     pb_status := status b; pb_notes := notes b;
     pb_created_at := created_at b |}.

End Mongodb.

(** ** Routes: [be_ms/src/api.js] *)

Module Api.
Import Mongodb.

(** [config.booking] *)
Record Config := {
  lockTimeout : Z;
  idempotencyTTL : Z;
}.

(** [serverInfo], set once when the connection is opened. *)
Record ServerInfo := {
  transactionsSupported : bool;
}.

(** What one request draws from its environment: the clock, the lock token
    [uuidv4()] and the [_id] generated for a new booking. *)
Record Env := {
  now : Z;
  uuid : string;
  objectId : string;
}.

(** An authenticated booking request that passed the JSON schema:
    [req.user], the [Idempotency-Key] header and [req.body]. The two dates
    are the values of [new Date(start_date)] and [new Date(end_date)]. *)
Record BookingRequest := {
  req_user_id : string;
  req_user_email : option string;
  req_idempotency_key : option string;
  req_room_id : string;
  req_start_date : Z;
  req_end_date : Z;
  req_quantity : option Z;
  req_notes : option string;
  req_contact_email : option string;
}.

Record State := {
  redis : gmap string Redis.entry;
  mongo : Mongodb.db;
}.

(** Response bodies. [insufficient_availability date] stands for
    [{ error: `Insufficient availability for date ${ISO day of date}` }],
    [idempotent id] for [{ id, idempotent: true }]. *)
Inductive Body :=
| error (msg : string)
| insufficient_availability (date : Z)
| idempotent (id : string)
| booking (b : PublicBooking).

Record Response := {
  res_status : Z;
  res_body : Body;
}.

Definition send (code : Z) (b : Body) : Response :=
  {| res_status := code; res_body := b |}.

(** [validateDateRange]; [None] is [next()]. *)
Definition validateDateRange (clock : Z) (req : BookingRequest) : option Response :=
  let start := req_start_date req in
  let end_ := req_end_date req in
  let today := normalizeDate clock in
  if start <? today then
    Some (send 400 (error "Start date cannot be in the past"))
  else if end_ <? start then
    Some (send 400 (error "End date must be after start date"))
  else if 365 * MS_PER_DAY <? end_ - start then
    Some (send 400 (error "Booking period cannot exceed 365 days"))
  else None.

(** [parseInt(quantity || 1, 10)] on an integer or missing [quantity]. *)
Definition parse_quantity (quantity : option Z) : Z :=
  match quantity with
  | Some q => if q =? 0 then 1 else q
  | None => 1
  end.

(** The inline middleware of the booking route that bounds the quantity. *)
Definition validateQuantity (req : BookingRequest) : option Response :=
  let qty := parse_quantity (req_quantity req) in
  if qty <? 1 then Some (send 400 (error "Quantity must be at least 1"))
  else if 100 <? qty then Some (send 400 (error "Quantity cannot exceed 100"))
  else None.

(** The [for (const date of days)] loop: one conditional decrement per day,
    left at the first day whose [modifiedCount] is 0. The first component
    is that day, if any. *)
Fixpoint day_loop (clock : Z) (room_id : string) (qty : Z) (days : list Z)
    (c : gmap (string * Z) Availability) : option Z * gmap (string * Z) Availability :=
  match days with
  | [] => (None, c)
  | date :: rest =>
      let '(modifiedCount, c') := Availability_updateOne_dec clock room_id date qty c in
      if modifiedCount =? 0 then (Some date, c')
      else day_loop clock room_id qty rest c'
  end.

(** [session.abortTransaction()] when there is a session: every write made
    since [startTransaction] is discarded. Without a session nothing is
    undone. *)
Definition abortTransaction (session : bool) (at_start current : db) : db :=
  if session then at_start else current.

(** The [catch] clause's choice of response. No operation of the handler
    raises a [CastError] for a request that passed the schema, whose
    [room_id] has the [objectId] format. *)
Definition catch_response (err : Error) : Response :=
  match err with
  | ValidationError msg => send 400 (error msg)
  | CastError => send 400 (error "Invalid room ID format")
  | _ => send 500 (error "server error")
  end.

(** The object literal handed to [Booking.create]. The schema is strict, so
    the [contact_email] of the literal is not stored. *)
Definition booking_doc (env : Env) (req : BookingRequest)
    (startDate endDate qty totalPrice : Z) : Booking :=
  {| user_id := req_user_id req;
     room_id := req_room_id req;
     start_date := startDate;
     end_date := endDate;
     quantity := qty;
     total_price_cents := totalPrice;
     status := confirmed;
     cancellation_reason := None;
     cancelled_at := None;
     notes := Js.or_null (req_notes req);
     created_at := now env;
     b_updated_at := now env |}.

(** The [try { ... } catch (err) { ... }] part of the booking handler, entered
    with the room lock held. *)
Definition booking_try (cfg : Config) (session : bool) (env : Env)
    (req : BookingRequest) (idemKey : option string) (qty : Z)
    (st : State) : Response * State :=
  let at_start := mongo st in
  let userEmail := Js.or_null (req_user_email req) in
  let contactEmail := Js.or_null (req_contact_email req) in
  if bool_decide (is_Some contactEmail
                  ∧ Js.toLowerCase (Js.String_ contactEmail)
                    ≠ Js.toLowerCase (Js.String_ userEmail)) then
    (send 403 (error "contact_email must match authenticated user email"),
     {| redis := redis st; mongo := abortTransaction session at_start (mongo st) |})
  else
    match rooms (mongo st) !! req_room_id req with
    | Some room =>
        if is_active room then
          let startDate := normalizeDate (req_start_date req) in
          let endDate := normalizeDate (req_end_date req) in
          let days := getDateRange startDate endDate in
          let nights := Z.of_nat (length days) in
          let totalPrice := price_cents room * nights * qty in
          match day_loop (now env) (req_room_id req) qty days (availabilities (mongo st)) with
          | (Some date, av) =>
              (send 409 (insufficient_availability date),
               {| redis := redis st;
                  mongo := abortTransaction session at_start
                             (with_availabilities av (mongo st)) |})
          | (None, av) =>
              let m1 := with_availabilities av (mongo st) in
              match Booking_create (now env) (objectId env)
                      (booking_doc env req startDate endDate qty totalPrice) m1 with
              | inl err =>
                  (catch_response err,
                   {| redis := redis st;
                      mongo := abortTransaction session at_start m1 |})
              | inr m2 =>
                  let r2 := match idemKey with
                            | Some key =>
                                Redis.setIdempotencyKey (now env) key (objectId env)
                                  (idempotencyTTL cfg) (redis st)
                            | None => redis st
                            end in
                  match Booking_findById (objectId env) m2 with
                  | Some populatedBooking =>
                      (send 201 (booking (toPublicJSON (objectId env) populatedBooking)),
                       {| redis := r2; mongo := m2 |})
                  | None =>
                      (send 500 (error "server error"), {| redis := r2; mongo := m2 |})
                  end
              end
          end
        else
          (send 404 (error "Room not found or inactive"),
           {| redis := redis st; mongo := abortTransaction session at_start (mongo st) |})
    | None =>
        (send 404 (error "Room not found or inactive"),
         {| redis := redis st; mongo := abortTransaction session at_start (mongo st) |})
    end.

(** The final handler of [POST /api/v1/booking]: idempotency check, room
    lock, the guarded body, and the [finally] clause that releases the lock. *)
Definition booking_handler (cfg : Config) (si : ServerInfo) (env : Env)
    (req : BookingRequest) (st : State) : Response * State :=
  let qty := parse_quantity (req_quantity req) in
  let idemKey := Js.or_null (req_idempotency_key req) in
  match idemKey ≫= (λ key, Js.or_null (Redis.getIdempotencyKey (now env) key (redis st))) with
  | Some prev => (send 200 (idempotent prev), st)
  | None =>
      let lockKey := "lock:room:" +:+ req_room_id req in
      let token := uuid env in
      let '(lock, r1) := Redis.acquireLock (now env) lockKey token (lockTimeout cfg) (redis st) in
      if lock then
        let session := transactionsSupported si in
        let '(res, st2) := booking_try cfg session env req idemKey qty
                             {| redis := r1; mongo := mongo st |} in
        (res, {| redis := Redis.releaseLock (now env) lockKey token (redis st2);
                 mongo := mongo st2 |})
      else
        (send 423 (error "Resource busy"), {| redis := r1; mongo := mongo st |})
  end.

(** The route with its two custom middlewares in front of the handler. *)
Definition post_booking (cfg : Config) (si : ServerInfo) (env : Env)
    (req : BookingRequest) (st : State) : Response * State :=
  match validateDateRange (now env) req with
  | Some res => (res, st)
  | None =>
      match validateQuantity req with
      | Some res => (res, st)
      | None => booking_handler cfg si env req st
      end
  end.

(** *** Room search: the aggregation pipeline of [GET /api/v1/rooms/search] *)

(** [validateSearchDateRange]; [None] is [next()]. *)
Definition validateSearchDateRange (start end_ : Z) : option Response :=
  if end_ <? start then
    Some (send 400 (error "End date must be after start date"))
  else if 365 * MS_PER_DAY <? end_ - start then
    Some (send 400 (error "Search period cannot exceed 365 days"))
  else None.

(** First [$match]: [date] within the bounds and [available_units > 0]. *)
Definition match_available (startDate endDate : Z)
    (doc : (string * Z) * Availability) : bool :=
  (startDate <=? doc.1.2) && (doc.1.2 <=? endDate) && (0 <? available_units doc.2).

Record Group := {
  _id : string;
  minAvailable : Z;
  totalDays : Z;
}.

(** One [$group] bucket: [$min] of [available_units] and [$sum: 1] over the
    documents of [room]. A bucket exists only for a room with a document. *)
Definition group_of (docs : list ((string * Z) * Availability)) (room : string) : option Group :=
  match filter (λ doc, doc.1.1 = room) docs with
  | [] => None
  | doc :: rest =>
      Some {| _id := room;
              minAvailable := foldr Z.min (available_units doc.2)
                                ((λ d, available_units d.2) <$> rest);
              totalDays := Z.of_nat (length (doc :: rest)) |}
  end.

(** [$group] by [room_id]. *)
Definition group_by_room (docs : list ((string * Z) * Availability)) : list Group :=
  omap (group_of docs) (remove_dups ((λ doc, doc.1.1) <$> docs)).

Record SearchResult := {
  sr_id : string;
  sr_name : string;
  sr_description : option string;
  sr_location : string;
  sr_floor : option Z;
  sr_capacity : Z;
  sr_price_cents : Z;
  sr_amenities : list string;
  sr_images : list string;
  sr_available_units : Z;
  sr_free_units : Z;
  sr_available_days : Z;
}.

(** [$lookup] in [rooms], [$unwind], [$match] on [room.is_active] and
    [$project], for one bucket. *)
Definition lookup_project (m : db) (g : Group) : option SearchResult :=
  match rooms m !! _id g with
  | Some room =>
      if is_active room then
        Some {| sr_id := _id g;
                sr_name := name room;
                sr_description := description room;
                sr_location := location room;
                sr_floor := floor room;
                sr_capacity := capacity room;
                sr_price_cents := price_cents room;
                sr_amenities := amenities room;
                sr_images := images room;
                sr_available_units := minAvailable g;
                sr_free_units := minAvailable g;
                sr_available_days := totalDays g |}
      else None
  | None => None
  end.

(** [$sort: { location: 1, name: 1 }] *)
Definition by_location_name (a b : SearchResult) : Prop :=
  String.leb (sr_location a) (sr_location b) = true
  ∧ (sr_location a = sr_location b → String.leb (sr_name a) (sr_name b) = true).

#[global] Instance by_location_name_dec a b : Decision (by_location_name a b).
Proof. unfold by_location_name. apply _. Defined.

Definition search_rooms (start end_ : Z) (m : db) : list SearchResult :=
  let startDate := normalizeDate start in
  let endDate := normalizeDate end_ in
  let matched := filter (λ doc, match_available startDate endDate doc = true)
                   (map_to_list (availabilities m)) in
  let groups := group_by_room matched in
  let positive := filter (λ g, 0 < minAvailable g) groups in
  merge_sort by_location_name (omap (lookup_project m) positive).

(** ** The operations that act on the stores *)

Inductive Op :=
| OpBooking (cfg : Config) (si : ServerInfo) (env : Env) (req : BookingRequest)
| OpCancel (clock : Z) (id : string) (this : Booking) (reason : option string)
| OpInitializeAvailability (clock : Z) (roomId : string) (totalUnits startDate endDate : Z)
| OpSearch (start end_ : Z).

Definition step (op : Op) (st : State) : State :=
  match op with
  | OpBooking cfg si env req => (post_booking cfg si env req st).2
  | OpCancel clock id this reason =>
      match Booking_cancel clock id this reason (mongo st) with
      | inr (_, m) => {| redis := redis st; mongo := m |}
      | inl _ => st
      end
  | OpInitializeAvailability clock roomId totalUnits startDate endDate =>
      {| redis := redis st;
         mongo := initializeAvailability clock roomId totalUnits startDate endDate (mongo st) |}
  | OpSearch _ _ => st
  end.

Definition run (ops : list Op) (st : State) : State :=
  foldl (λ s op, step op s) st ops.

End Api.

(** ** Vocabulary of the properties *)

Module Props.
Import Mongodb Api.

(** [n] consecutive days starting at [current]. *)
Definition days_from (current n : Z) : list Z :=
  (λ i, current + i * MS_PER_DAY) <$> seqZ 0 n.

(** The record of [(room, date)] exists and holds at least [qty] units. *)
Definition sufficient (qty : Z) (c : gmap (string * Z) Availability)
    (room : string) (date : Z) : Prop :=
  ∃ a, c !! (room, date) = Some a ∧ qty <= available_units a.

#[global] Instance sufficient_dec qty c room date : Decision (sufficient qty c room date).
Proof.
  unfold sufficient. destruct (c !! (room, date)) as [a|].
  - destruct (decide (qty <= available_units a)).
    + left. eauto.
    + right. intros (a' & [= <-] & ?). done.
  - right. intros (a' & [=] & ?).
Defined.

(** The ledger invariant: every availability record has
    [0 <= available_units <= total_units]. *)
Definition units_ok (c : gmap (string * Z) Availability) : Prop :=
  map_Forall (λ _ a, 0 <= available_units a <= total_units a) c.

Definition ledger_invariant (m : db) : Prop := units_ok (availabilities m).

(** The request gets past the idempotency check, the room lock and the
    contact check, and finds [room] active. *)
Definition reaches_day_loop (env : Env) (req : BookingRequest) (st : State)
    (room : Room) : Prop :=
  Js.or_null (req_idempotency_key req)
    ≫= (λ key, Js.or_null (Redis.getIdempotencyKey (now env) key (redis st))) = None
  ∧ Redis.GET (now env) ("lock:room:" +:+ req_room_id req) (redis st) = None
  ∧ ¬ (is_Some (Js.or_null (req_contact_email req))
       ∧ Js.toLowerCase (Js.String_ (Js.or_null (req_contact_email req)))
         ≠ Js.toLowerCase (Js.String_ (Js.or_null (req_user_email req))))
  ∧ rooms (mongo st) !! req_room_id req = Some room
  ∧ is_active room = true.

(** The days the booking handler works on, and the quantity it uses. *)
Definition days_of (req : BookingRequest) : list Z :=
  getDateRange (normalizeDate (req_start_date req)) (normalizeDate (req_end_date req)).

Definition qty_of (req : BookingRequest) : Z := parse_quantity (req_quantity req).

(** A bucket of the search: a record of [room] inside the bounds with at
    least one unit left. *)
Definition free_day (startDate endDate : Z) (room : string)
    (doc : (string * Z) * Availability) : Prop :=
  doc.1.1 = room ∧ startDate <= doc.1.2 <= endDate ∧ 0 < available_units doc.2.

#[global] Instance free_day_dec startDate endDate room doc :
  Decision (free_day startDate endDate room doc).
Proof. unfold free_day. apply _. Defined.

(** *** The day-set and the price as the specification words them *)

(** Following the specification: the nights from [start_date] through
    [end_date] minus one day; the checkout day is not part of them. *)
Definition checkout_excluded_days (start end_ : Z) : list Z :=
  days_from (normalizeDate start)
    ((normalizeDate end_ - normalizeDate start) `div` MS_PER_DAY).

(** Following the specification: a confirmed booking has decremented
    exactly the nights before checkout and is priced per such night. *)
Definition stated_day_set_and_price (cfg : Config) (si : ServerInfo) (env : Env)
    (req : BookingRequest) (st : State) : Prop :=
  let res := (post_booking cfg si env req st).1 in
  let st' := (post_booking cfg si env req st).2 in
  res_status res = 201 →
  let nights := checkout_excluded_days (req_start_date req) (req_end_date req) in
  (∀ d, availabilities (mongo st') !! (req_room_id req, d)
          ≠ availabilities (mongo st) !! (req_room_id req, d)
        ↔ d ∈ nights)
  ∧ (∀ b room, bookings (mongo st') !! objectId env = Some b →
       rooms (mongo st) !! req_room_id req = Some room →
       total_price_cents b = price_cents room * Z.of_nat (length nights) * qty_of req).

(** Following the specification: whenever an attempt is answered with
    insufficient availability, every record holds its pre-attempt
    [available_units] and no booking has been added. *)
Definition stated_rollback (cfg : Config) (si : ServerInfo) (env : Env)
    (req : BookingRequest) (st : State) : Prop :=
  let res := (post_booking cfg si env req st).1 in
  let st' := (post_booking cfg si env req st).2 in
  res_status res = 409 →
  (∀ k a, availabilities (mongo st) !! k = Some a →
     ∃ a', availabilities (mongo st') !! k = Some a'
           ∧ available_units a' = available_units a)
  ∧ bookings (mongo st') = bookings (mongo st).

(** Following the specification: the value reported for a returned room is
    the minimum of [available_units] across every day of the range, so it
    is at most the units of each of the room's days in the range. *)
Definition stated_search_minimum (start end_ : Z) (m : db) : Prop :=
  ∀ r, r ∈ search_rooms start end_ m →
    ∀ d a, availabilities m !! (sr_id r, d) = Some a →
      normalizeDate start <= d <= normalizeDate end_ →
      sr_available_units r <= available_units a.

(** Following the specification: cancelling a confirmed booking adds its
    quantity back on every day its creation decremented. *)
Definition stated_cancel_restores (clock : Z) (id : string) (this : Booking)
    (reason : option string) (m : db) : Prop :=
  ∀ b m', Booking_cancel clock id this reason m = inr (b, m') →
    ∀ d a, d ∈ getDateRange (start_date this) (end_date this) →
      availabilities m !! (room_id this, d) = Some a →
      ∃ a', availabilities m' !! (room_id this, d) = Some a'
            ∧ available_units a' = available_units a + quantity this.

End Props.

(** ** A concrete deployment used for examples *)

Module Scenario.
Import Mongodb Api.

(** Midnight UTC of 2025-11-30, 2025-12-01, 2025-12-02 and 2025-12-03. *)
Definition d_2025_11_30 : Z := 1764460800000.
Definition d_2025_12_01 : Z := 1764547200000.
Definition d_2025_12_02 : Z := 1764633600000.
Definition d_2025_12_03 : Z := 1764720000000.

Definition cfg : Config := {| lockTimeout := 10000; idempotencyTTL := 86400 |}.
Definition standalone : ServerInfo := {| transactionsSupported := false |}.
Definition replica_set : ServerInfo := {| transactionsSupported := true |}.

Definition room_a : Room :=
  {| name := "Room A"; description := None; location := "HQ"; floor := Some 1;
     capacity := 8; price_cents := 1000; amenities := []; images := [];
     is_active := true |}.

Definition units (total available : Z) : Availability :=
  {| total_units := total; available_units := available; updated_at := 0 |}.

(** One room with five free units on each of the three days. *)
Definition world : State :=
  {| redis := ∅;
     mongo := {| rooms := {[ "64b000000000000000000001" := room_a ]};
                 availabilities :=
                   {[ ("64b000000000000000000001", d_2025_12_01) := units 5 5;
                      ("64b000000000000000000001", d_2025_12_02) := units 5 5;
                      ("64b000000000000000000001", d_2025_12_03) := units 5 5 ]};
                 bookings := ∅ |} |}.

(** The same room sold out on 2025-12-02. *)
Definition world_sold_out : State :=
  {| redis := ∅;
     mongo := {| rooms := {[ "64b000000000000000000001" := room_a ]};
                 availabilities :=
                   {[ ("64b000000000000000000001", d_2025_12_01) := units 5 5;
                      ("64b000000000000000000001", d_2025_12_02) := units 5 0;
                      ("64b000000000000000000001", d_2025_12_03) := units 5 5 ]};
                 bookings := ∅ |} |}.

Definition env : Env :=
  {| now := d_2025_11_30 + 3600000; uuid := "token-1"; objectId := "64b0000000000000000000b1" |}.

Definition request (start end_ : Z) : BookingRequest :=
  {| req_user_id := "64b0000000000000000000a1"; req_user_email := Some "ann@example.com";
     req_idempotency_key := Some "key-1";
     req_room_id := "64b000000000000000000001"; req_start_date := start; req_end_date := end_;
     req_quantity := Some 1; req_notes := None;
     req_contact_email := None |}.

(** What the search reports for the room in [world_sold_out]. *)
Definition room_a_found : SearchResult :=
  {| sr_id := "64b000000000000000000001"; sr_name := "Room A";
     sr_description := None; sr_location := "HQ"; sr_floor := Some 1;
     sr_capacity := 8; sr_price_cents := 1000; sr_amenities := [];
     sr_images := []; sr_available_units := 5; sr_free_units := 5;
     sr_available_days := 2 |}.

(** A day of operations on [world]: more availability, a booking, its
    cancellation, a search and a second booking. *)
Definition operations : list Op :=
  [ OpInitializeAvailability d_2025_11_30 "64b000000000000000000001" 5
      d_2025_12_01 (d_2025_12_03 + 2 * MS_PER_DAY);
    OpBooking cfg standalone env (request d_2025_12_01 d_2025_12_03);
    OpCancel (d_2025_11_30 + 7200000) "64b0000000000000000000b1"
      {| user_id := "64b0000000000000000000a1";
         room_id := "64b000000000000000000001";
         start_date := d_2025_12_01; end_date := d_2025_12_03;
         quantity := 1; total_price_cents := 3000; status := confirmed;
         cancellation_reason := None; cancelled_at := None; notes := None;
         created_at := now env; b_updated_at := now env |}
      (Some "changed plans");
    OpSearch d_2025_12_01 d_2025_12_03;
    OpBooking cfg replica_set
      {| now := d_2025_11_30 + 10800000; uuid := "token-2";
         objectId := "64b0000000000000000000b2" |}
      (request d_2025_12_02 d_2025_12_03) ].

(** The stores after the three-day booking of [request] on [world], and
    the booking document it created. *)
Definition booked : State :=
  (post_booking cfg standalone env (request d_2025_12_01 d_2025_12_03) world).2.

Definition created_booking : Booking :=
  {| user_id := "64b0000000000000000000a1";
     room_id := "64b000000000000000000001";
     start_date := d_2025_12_01; end_date := d_2025_12_03;
     quantity := 1; total_price_cents := 3000; status := confirmed;
     cancellation_reason := None; cancelled_at := None; notes := None;
     created_at := now env; b_updated_at := now env |}.

End Scenario.

(** ** The remaining Redis helpers: [be_ms/src/redis/index.js] *)

Module RedisUtil.
Import Redis.

(** [SET key value] without expiry. *)
Definition SET (key val : string) (r : gmap string entry) : gmap string entry :=
  <[key := Entry val None]> r.

Definition get (now : Z) (key : string) (r : gmap string entry) : option string :=
  GET now key r.

(** [set(key, value, ttl)]: [ttl] is a number or undefined. A falsy [ttl]
    (undefined or 0) stores the value without expiry. *)
Definition set (now : Z) (key val : string) (ttl : option Z)
    (r : gmap string entry) : gmap string entry :=
  match ttl with
  | Some t => if t =? 0 then SET key val r else SET_EX now key val t r
  | None => SET key val r
  end.

Definition del (key : string) (r : gmap string entry) : gmap string entry :=
  DEL key r.

End RedisUtil.

(** ** Model statics and queries: [be_ms/src/mongodb/index.js] *)

Module Queries.
Import Mongodb.

(** [.sort({ date: 1 })] *)
Definition by_date (a b : (string * Z) * Availability) : Prop := a.1.2 <= b.1.2.

#[global] Instance by_date_dec a b : Decision (by_date a b).
Proof. unfold by_date. apply _. Defined.

(** [AvailabilitySchema.statics.findByRoomAndDateRange] *)
Definition Availability_findByRoomAndDateRange (roomId : string) (startDate endDate : Z)
    (m : db) : list ((string * Z) * Availability) :=
  merge_sort by_date
    (filter (λ doc, doc.1.1 = roomId ∧ startDate <= doc.1.2 <= endDate)
       (map_to_list (availabilities m))).

(** The three shapes of the object [checkAvailability] resolves to. *)
Inductive AvailabilityCheck :=
| available_true
| no_availability_data
| insufficient_availability_on (unavailable_dates : list Z).

(** [AvailabilitySchema.statics.checkAvailability] *)
Definition Availability_checkAvailability (roomId : string) (startDate endDate quantity : Z)
    (m : db) : AvailabilityCheck :=
  let availabilityRecords := Availability_findByRoomAndDateRange roomId startDate endDate m in
  if (length availabilityRecords =? 0)%nat then no_availability_data
  else
    let unavailableDates :=
      filter (λ record, available_units record.2 < quantity) availabilityRecords in
    if (0 <? length unavailableDates)%nat then
      insufficient_availability_on ((λ r, r.1.2) <$> unavailableDates)
    else available_true.

(** The strings of the [status] enum. *)
Definition Status_name (s : Status) : string :=
  match s with
  | pending => "pending"
  | confirmed => "confirmed"
  | cancelled => "cancelled"
  | completed => "completed"
  end.

(** [status: { $in: ['pending', 'confirmed'] }] *)
Definition active_status (s : Status) : Prop := s = pending ∨ s = confirmed.

#[global] Instance active_status_dec s : Decision (active_status s).
Proof. unfold active_status. apply _. Defined.

(** [.sort({ start_date: 1 })] *)
Definition by_start_date (a b : string * Booking) : Prop :=
  start_date a.2 <= start_date b.2.

#[global] Instance by_start_date_dec a b : Decision (by_start_date a b).
Proof. unfold by_start_date. apply _. Defined.

(** [BookingSchema.statics.findActiveByUser] (without [populate]) *)
Definition Booking_findActiveByUser (userId : string) (m : db) : list (string * Booking) :=
  merge_sort by_start_date
    (filter (λ doc, user_id doc.2 = userId ∧ active_status (status doc.2))
       (map_to_list (bookings m))).

(** The [$or] of three clauses that [findByDateRange] and the bookings
    route put on a booking's dates. *)
Definition date_range_clauses (startDate endDate : Z) (b : Booking) : Prop :=
  (startDate <= start_date b ∧ start_date b <= endDate)
  ∨ (startDate <= end_date b ∧ end_date b <= endDate)
  ∨ (start_date b <= startDate ∧ endDate <= end_date b).

#[global] Instance date_range_clauses_dec s e b : Decision (date_range_clauses s e b).
Proof. unfold date_range_clauses. apply _. Defined.

(** [if (status) query.status = status]: a string that is empty or absent
    adds no condition; any other string must equal the stored status. *)
Definition status_condition (status_ : option string) (b : Booking) : Prop :=
  match Js.or_null status_ with
  | Some s => Status_name (status b) = s
  | None => True
  end.

#[global] Instance status_condition_dec st b : Decision (status_condition st b).
Proof. unfold status_condition. destruct (Js.or_null st); apply _. Defined.

(** [BookingSchema.statics.findByDateRange] (without [populate]) *)
Definition Booking_findByDateRange (startDate endDate : Z) (status_ : option string)
    (m : db) : list (string * Booking) :=
  merge_sort by_start_date
    (filter (λ doc, date_range_clauses startDate endDate doc.2
                    ∧ status_condition status_ doc.2)
       (map_to_list (bookings m))).

(** The query of [checkOverlap]; a missing or empty [excludeBookingId] adds
    no condition on [_id]. *)
Definition overlap_query (roomId : string) (startDate endDate : Z)
    (excludeBookingId : option string) (doc : string * Booking) : Prop :=
  room_id doc.2 = roomId
  ∧ active_status (status doc.2)
  ∧ (start_date doc.2 < endDate ∧ startDate < end_date doc.2)
  ∧ match Js.or_null excludeBookingId with
    | Some x => doc.1 ≠ x
    | None => True
    end.

#[global] Instance overlap_query_dec r s e x doc : Decision (overlap_query r s e x doc).
Proof. unfold overlap_query. destruct (Js.or_null x); apply _. Defined.

(** [BookingSchema.statics.checkOverlap]: [overlapping.length > 0] *)
Definition Booking_checkOverlap (roomId : string) (startDate endDate : Z)
    (excludeBookingId : option string) (m : db) : bool :=
  let overlapping := filter (overlap_query roomId startDate endDate excludeBookingId)
                       (map_to_list (bookings m)) in
  (0 <? length overlapping)%nat.

End Queries.

(** ** The read routes of bookings: [be_ms/src/api.js] *)

Module BookingRoutes.
Import Mongodb Api Queries.

(** The filter [GET /api/v1/bookings] builds from the caller and the query
    string. The two dates are the values of [new Date(...)] of the
    parameters that are present and not empty. *)
Definition bookings_query (userId : string) (status_ : option string)
    (start_date_ end_date_ : option Z) (b : Booking) : Prop :=
  user_id b = userId
  ∧ status_condition status_ b
  ∧ match start_date_, end_date_ with
    | Some s, Some e => date_range_clauses (normalizeDate s) (normalizeDate e) b
    | Some s, None => normalizeDate s <= start_date b
    | None, Some e => end_date b <= normalizeDate e
    | None, None => True
    end.

#[global] Instance bookings_query_dec u st s e b : Decision (bookings_query u st s e b).
Proof. unfold bookings_query. destruct s, e; apply _. Defined.

(** [.sort({ start_date: -1, created_at: -1 })] *)
Definition by_start_date_desc (a b : string * Booking) : Prop :=
  start_date b.2 < start_date a.2
  ∨ (start_date b.2 = start_date a.2 ∧ created_at b.2 <= created_at a.2).

#[global] Instance by_start_date_desc_dec a b : Decision (by_start_date_desc a b).
Proof. unfold by_start_date_desc. apply _. Defined.

(** The [bookings] array of the 200 answer of [GET /api/v1/bookings].
    [populate] is not modelled: as in [toPublicJSON], the references
    [user_id] and [room_id] stay ids, where the route puts six fields of
    the room under [room_id]. *)
Definition get_bookings (userId : string) (status_ : option string)
    (start_date_ end_date_ : option Z) (m : db) : list PublicBooking :=
  (λ doc, toPublicJSON doc.1 doc.2)
    <$> merge_sort by_start_date_desc
          (filter (λ doc, bookings_query userId status_ start_date_ end_date_ doc.2)
             (map_to_list (bookings m))).

(** [GET /api/v1/bookings/:id]. [castable] tells whether Mongoose can cast
    the path parameter to an ObjectId; when it cannot, the query rejects
    with a CastError. [populate] is not modelled here either: the route
    puts eight fields of the room under [room_id] and the user's email
    and name under [user_id]. *)
Definition get_booking_by_id (castable : bool) (userId bookingId : string)
    (m : db) : Response :=
  if castable then
    match bookings m !! bookingId with
    | Some b =>
        if bool_decide (user_id b = userId)
        then send 200 (booking (toPublicJSON bookingId b))
        else send 404 (error "Booking not found")
    | None => send 404 (error "Booking not found")
    end
  else send 400 (error "Invalid booking ID format").

End BookingRoutes.

(** ** Maintenance: [be_ms/src/mongodb/dbUtils.js] *)

Module DbUtils.
Import Mongodb.

(** The three counts [verifyConsistency] takes. *)
Definition invalidAvailability (m : db) : nat :=
  length (filter (λ doc, total_units doc.2 < available_units doc.2)
            (map_to_list (availabilities m))).

Definition invalidBookings (m : db) : nat :=
  length (filter (λ doc, end_date doc.2 <= start_date doc.2)
            (map_to_list (bookings m))).

Definition negativeAvailability (m : db) : nat :=
  length (filter (λ doc, available_units doc.2 < 0)
            (map_to_list (availabilities m))).

(** [verifyConsistency]: the number of failed checks it reports,
    [issues]. *)
Definition verifyConsistency (m : db) : Z :=
  let issues := 0 in
  let issues := if (0 <? invalidAvailability m)%nat then issues + 1 else issues in
  let issues := if (0 <? invalidBookings m)%nat then issues + 1 else issues in
  let issues := if (0 <? negativeAvailability m)%nat then issues + 1 else issues in
  issues.

(** The cutoff of [cleanup]: thirty days before the clock, at midnight. *)
Definition thirtyDaysAgo (now : Z) : Z := normalizeDate (now - 30 * MS_PER_DAY).

(** [cleanup(dryRun)]: the only write is the [deleteMany] of availability
    records dated before the cutoff, in live mode. *)
Definition cleanup (dryRun : bool) (now : Z) (m : db) : db :=
  let oldAvailability :=
    length (filter (λ doc, doc.1.2 < thirtyDaysAgo now) (map_to_list (availabilities m))) in
  if negb dryRun && (0 <? oldAvailability)%nat then
    with_availabilities
      (filter (λ doc, ¬ doc.1.2 < thirtyDaysAgo now) (availabilities m)) m
  else m.

(** [ensureAvailability(days)]: one unit per day for every active room, from
    today to [days] days ahead. *)
Definition ensureAvailability (days : Z) (now : Z) (m : db) : db :=
  let activeRooms := filter (λ r, is_active r.2 = true) (map_to_list (rooms m)) in
  let startDate := normalizeDate now in
  let endDate := startDate + days * MS_PER_DAY in
  foldl (λ acc room, initializeAvailability now room.1 1 startDate endDate acc)
    m activeRooms.

End DbUtils.

(** ** Further vocabulary *)

Module Props2.
Import Mongodb Api Props.

(** Every availability record is dated at midnight UTC, as the schema's
    validator on [date] requires of inserted records. *)
Definition dates_normalized (c : gmap (string * Z) Availability) : Prop :=
  map_Forall (λ k _, k.2 `mod` MS_PER_DAY = 0) c.

(** What the save hooks let into the bookings collection. *)
Definition booking_ok (b : Booking) : Prop :=
  start_date b < end_date b ∧ 1 <= quantity b <= 100 ∧ 0 <= total_price_cents b.

Definition bookings_ok (m : db) : Prop :=
  map_Forall (λ _ b, booking_ok b) (bookings m).

(** [c'] has the records of [c], each with the same [total_units] and no
    more [available_units] than before. *)
Definition only_decremented (c c' : gmap (string * Z) Availability) : Prop :=
  ∀ k, match c !! k with
       | Some a => ∃ a', c' !! k = Some a'
                         ∧ total_units a' = total_units a
                         ∧ available_units a' <= available_units a
       | None => c' !! k = None
       end.

(** Two public bodies agree on the booking's own fields. The references
    [user_id] and [room_id], which every route populates with its own
    selection of fields, are left out of the comparison. *)
Definition same_own_fields (a b : PublicBooking) : Prop :=
  pb_id a = pb_id b
  ∧ pb_start_date a = pb_start_date b
  ∧ pb_end_date a = pb_end_date b
  ∧ pb_quantity a = pb_quantity b
  ∧ pb_nights a = pb_nights b
  ∧ pb_total_price_cents a = pb_total_price_cents b
  ∧ pb_status a = pb_status b
  ∧ pb_notes a = pb_notes b
  ∧ pb_created_at a = pb_created_at b.

(** The key of the room lock a booking request takes. *)
Definition lock_key (req : BookingRequest) : string :=
  "lock:room:" +:+ req_room_id req.

End Props2.

(** * Properties *)

(** ** The day range *)

Section DateRange.
Import Mongodb Api Props.

Lemma MS_PER_DAY_pos : 0 < MS_PER_DAY.
Proof. reflexivity. Qed.

Lemma normalizeDate_multiple d : normalizeDate d = MS_PER_DAY * (d `div` MS_PER_DAY).
Proof.
  unfold normalizeDate. pose proof (Z.div_mod d MS_PER_DAY) as H.
  pose proof MS_PER_DAY_pos. lia.
Qed.

Lemma normalizeDate_idem d : normalizeDate (normalizeDate d) = normalizeDate d.
Proof.
  rewrite (normalizeDate_multiple d). unfold normalizeDate.
  rewrite Z.mul_comm, Z.mod_mul; [lia | pose proof MS_PER_DAY_pos; lia].
Qed.

Lemma getDateRange_loop_closed current e dates :
  getDateRange_loop current e dates
  = dates ++ days_from current ((e - current) `div` MS_PER_DAY + 1).
Proof.
  funelim (getDateRange_loop current e dates).
  - rewrite H. clear H Heqcall Heq.
    pose proof MS_PER_DAY_pos.
    replace (e - (current + MS_PER_DAY)) with ((e - current) + (-1) * MS_PER_DAY) by lia.
    rewrite Z.div_add by lia.
    assert (0 <= (e - current) `div` MS_PER_DAY) by (apply Z.div_pos; lia).
    unfold days_from.
    rewrite (seqZ_cons 0 ((e - current) `div` MS_PER_DAY + 1)) by lia.
    rewrite fmap_cons, <- app_assoc. simpl. f_equal.
    replace (current + 0 * MS_PER_DAY) with current by lia. f_equal.
    replace (Z.succ 0) with (0 + 1) by lia.
    replace (Z.pred ((e - current) `div` MS_PER_DAY + 1)) with ((e - current) `div` MS_PER_DAY + -1 + 1) by lia.
    replace (0 + 1) with (1 + 0) by lia. rewrite <- (fmap_add_seqZ 1 0).
    rewrite <- list_fmap_compose. apply list_fmap_ext. intros ? x ?. simpl. lia.
  - clear Heqcall Heq. pose proof MS_PER_DAY_pos.
    assert ((e - current) `div` MS_PER_DAY < 0) by (apply Z.div_lt_upper_bound; lia).
    unfold days_from. rewrite seqZ_nil by lia. simpl. by rewrite app_nil_r.
Qed.

Lemma getDateRange_closed startDate endDate :
  getDateRange startDate endDate
  = days_from (normalizeDate startDate)
      ((normalizeDate endDate - normalizeDate startDate) `div` MS_PER_DAY + 1).
Proof. unfold getDateRange. by rewrite getDateRange_loop_closed. Qed.

Lemma elem_of_days_from d current n :
  d ∈ days_from current n ↔ ∃ i, 0 <= i < n ∧ d = current + i * MS_PER_DAY.
Proof.
  unfold days_from. rewrite list_elem_of_fmap. split.
  - intros (i & -> & Hi%elem_of_seqZ). exists i. split; [lia|done].
  - intros (i & Hi & ->). exists i. split; [done|]. apply elem_of_seqZ. lia.
Qed.

Lemma NoDup_days_from current n : NoDup (days_from current n).
Proof.
  unfold days_from. apply NoDup_fmap_2; [|apply NoDup_seqZ].
  intros i j Hij. pose proof MS_PER_DAY_pos. nia.
Qed.

Lemma length_days_from current n : 0 <= n → Z.of_nat (length (days_from current n)) = n.
Proof. intros Hn. unfold days_from. rewrite length_fmap, length_seqZ. lia. Qed.

Lemma NoDup_getDateRange startDate endDate : NoDup (getDateRange startDate endDate).
Proof. rewrite getDateRange_closed. apply NoDup_days_from. Qed.

(** The range is every midnight from the start day through the end day,
    both included. *)
Lemma elem_of_getDateRange d startDate endDate :
  d ∈ getDateRange startDate endDate
  ↔ normalizeDate startDate <= d <= normalizeDate endDate ∧ d `mod` MS_PER_DAY = 0.
Proof.
  rewrite getDateRange_closed, elem_of_days_from.
  rewrite !normalizeDate_multiple.
  set (qs := startDate `div` MS_PER_DAY). set (qe := endDate `div` MS_PER_DAY).
  pose proof MS_PER_DAY_pos as Hpos.
  replace (MS_PER_DAY * qe - MS_PER_DAY * qs) with ((qe - qs) * MS_PER_DAY) by lia.
  rewrite Z.div_mul by lia. split.
  - intros (i & Hi & ->). split; [nia|].
    replace (MS_PER_DAY * qs + i * MS_PER_DAY) with ((qs + i) * MS_PER_DAY) by lia.
    apply Z.mod_mul. lia.
  - intros [Hd Hmod]. apply Z.mod_divide in Hmod as [q ->]; [|lia].
    exists (q - qs). split; [nia|lia].
Qed.

Lemma days_of_elem req d :
  d ∈ days_of req
  ↔ normalizeDate (req_start_date req) <= d <= normalizeDate (req_end_date req)
    ∧ d `mod` MS_PER_DAY = 0.
Proof. unfold days_of. by rewrite elem_of_getDateRange, !normalizeDate_idem. Qed.

Lemma days_of_same_day req :
  req_end_date req = req_start_date req →
  days_of req = [normalizeDate (req_start_date req)].
Proof.
  intros He. unfold days_of. rewrite getDateRange_closed, He, !normalizeDate_idem.
  rewrite Z.sub_diag. unfold days_from.
  replace (seqZ 0 (0 `div` MS_PER_DAY + 1)) with [0] by (vm_compute; reflexivity).
  rewrite list_fmap_singleton. f_equal. lia.
Qed.

End DateRange.

(** ** The day loop *)

Section DayLoop.
Import Mongodb Api Props.
Context (clock : Z) (room : string) (qty : Z).

Lemma updateOne_dec_count_lookup (date : Z) (c1 c2 : gmap (string * Z) Availability) :
  c1 !! (room, date) = c2 !! (room, date) →
  (Availability_updateOne_dec clock room date qty c1).1
  = (Availability_updateOne_dec clock room date qty c2).1.
Proof.
  intros H. unfold Availability_updateOne_dec. rewrite H.
  destruct (c2 !! (room, date)) as [a|]; [|done].
  destruct (qty <=? available_units a); done.
Qed.

Lemma updateOne_dec_modified (date : Z) (c c' : gmap (string * Z) Availability) n :
  Availability_updateOne_dec clock room date qty c = (n, c') →
  n ≠ 0 →
  ∃ a, c !! (room, date) = Some a ∧ qty <= available_units a
       ∧ c' = <[(room, date) := inc_available_units clock (- qty) a]> c.
Proof.
  unfold Availability_updateOne_dec.
  destruct (c !! (room, date)) as [a|] eqn:Ha; [|intros [= <- <-]; done].
  destruct (qty <=? available_units a) eqn:Hq; [|intros [= <- <-]; done].
  intros [= <- <-] _. exists a. split_and!; [done | lia | done].
Qed.

Lemma updateOne_dec_unmodified (date : Z) (c c' : gmap (string * Z) Availability) :
  Availability_updateOne_dec clock room date qty c = (0, c') → c' = c.
Proof.
  unfold Availability_updateOne_dec.
  destruct (c !! (room, date)) as [a|] eqn:Ha; [|by intros [= <-]].
  destruct (qty <=? available_units a); [|by intros [= <-]].
  case_decide as Heq; [|done]. intros [= <-]. rewrite Heq. by apply insert_id.
Qed.

Lemma day_loop_spec (days : list Z) :
  ∀ (c c' : gmap (string * Z) Availability) (o : option Z),
  NoDup days →
  day_loop clock room qty days c = (o, c') →
  ∃ done rest, days = done ++ rest
    ∧ match o with
      | None => rest = []
      | Some d => ∃ rest', rest = d :: rest'
                    ∧ (Availability_updateOne_dec clock room d qty c).1 = 0
      end
    ∧ (∀ d, d ∈ done → ∃ a, c !! (room, d) = Some a ∧ qty <= available_units a
          ∧ c' !! (room, d) = Some (inc_available_units clock (- qty) a))
    ∧ (∀ k, (∀ d, d ∈ done → k ≠ (room, d)) → c' !! k = c !! k).
Proof.
  induction days as [|d ds IH]; intros c c' o Hnd; simpl.
  - intros [= <- <-]. exists [], []. split_and!; [done..| |done].
    intros d Hd. by apply elem_of_nil in Hd.
  - destruct (Availability_updateOne_dec clock room d qty c) as [n c1] eqn:Hupd.
    apply NoDup_cons in Hnd as [Hd Hnd].
    destruct (n =? 0) eqn:Hn.
    + apply Z.eqb_eq in Hn as ->. intros [= <- <-].
      apply updateOne_dec_unmodified in Hupd as Hc. subst c1.
      exists [], (d :: ds). split_and!; [done | | | done].
      * exists ds. by rewrite Hupd.
      * intros d' Hd'. by apply elem_of_nil in Hd'.
    + apply Z.eqb_neq in Hn. intros Hloop.
      destruct (updateOne_dec_modified _ _ _ _ Hupd Hn) as (a & Ha & Hq & ->).
      destruct (IH _ _ _ Hnd Hloop) as (done & rest & -> & Ho & Hdone & Hframe).
      apply not_elem_of_app in Hd as [Hd1 Hd2].
      exists (d :: done), rest. split_and!; [done | | |].
      * destruct o as [df|]; [|done].
        destruct Ho as (rest' & -> & Hcount). exists rest'. split; [done|].
        rewrite <- Hcount. apply updateOne_dec_count_lookup.
        rewrite lookup_insert_ne; [done|].
        intros [= ->]. apply Hd2. left.
      * intros d' [->|Hd']%elem_of_cons.
        -- exists a. split_and!; [done..|].
           rewrite Hframe; [by rewrite lookup_insert_eq|].
           intros d' Hd' [= ->]. done.
        -- destruct (Hdone d' Hd') as (a' & Ha' & Hq' & Hc').
           rewrite lookup_insert_ne in Ha' by (intros [= ->]; done).
           eauto.
      * intros k Hk. rewrite Hframe.
        -- rewrite lookup_insert_ne; [done|]. intros <-. eapply Hk; [left|done].
        -- intros d' Hd'. apply Hk. by right.
Qed.

End DayLoop.

(** ** How the booking route can end *)

Section Handler.
Import Mongodb Api Props.

Lemma updateOne_dec_count_zero (clock : Z) (room : string) (date qty : Z)
    (c : gmap (string * Z) Availability) :
  1 <= qty →
  (Availability_updateOne_dec clock room date qty c).1 = 0
  ↔ ¬ sufficient qty c room date.
Proof.
  intros Hq. unfold Availability_updateOne_dec, sufficient.
  destruct (c !! (room, date)) as [a|] eqn:Ha; simpl.
  - destruct (qty <=? available_units a) eqn:Hle; simpl.
    + case_decide as Heq.
      * apply (f_equal available_units) in Heq. simpl in Heq. lia.
      * split; [done|]. intros []. exists a. split; [done|lia].
    + split; [|done]. intros _ (a' & [= <-] & ?). lia.
  - split; [|done]. intros _ (a' & [=] & _).
Qed.

Lemma catch_response_status err :
  res_status (catch_response err) = 400 ∨ res_status (catch_response err) = 500.
Proof. destruct err; simpl; auto. Qed.

(** The fresh document is found again right after its insertion. *)
Lemma Booking_create_findById clock id doc m m' :
  Booking_create clock id doc m = inr m' →
  ∃ b, Booking_findById id m' = Some b
       ∧ bookings m' = <[id := b]> (bookings m)
       ∧ bookings m !! id = None
       ∧ availabilities m' = availabilities m ∧ rooms m' = rooms m
       ∧ total_price_cents b = total_price_cents doc
       ∧ quantity b = quantity doc
       ∧ start_date b = start_date doc ∧ end_date b = end_date doc
       ∧ status b = status doc
       ∧ Booking_save_hooks b = None.
Proof.
  unfold Booking_create.
  match goal with |- context [Booking_save_hooks ?d] => set (b := d) end.
  destruct (Booking_save_hooks b) eqn:Hh; [done|].
  destruct (bookings m !! id) eqn:Hid; [done|].
  intros [= <-]. exists b. unfold Booking_findById. simpl.
  rewrite lookup_insert_eq. split_and!; done.
Qed.

(** The three ways the handler can end. *)
Lemma booking_handler_inv cfg si env req st res st' :
  booking_handler cfg si env req st = (res, st') →
  (∃ prev, res = send 200 (idempotent prev) ∧ st' = st)
  ∨ (res = send 423 (error "Resource busy") ∧ mongo st' = mongo st)
  ∨ (∃ r1 st2,
       booking_try cfg (transactionsSupported si) env req
         (Js.or_null (req_idempotency_key req)) (qty_of req)
         {| redis := r1; mongo := mongo st |} = (res, st2)
       ∧ mongo st' = mongo st2).
Proof.
  unfold booking_handler.
  destruct (_ ≫= _) as [prev|]; [intros [= <- <-]; eauto|].
  destruct (Redis.acquireLock _ _ _ _ _) as [[] r1].
  - destruct (booking_try _ _ _ _ _ _ _) as [res2 st2] eqn:Htry.
    intros [= <- <-]. right. right. eauto.
  - intros [= <- <-]. right. left. done.
Qed.

Lemma post_booking_inv cfg si env req st res st' :
  post_booking cfg si env req st = (res, st') →
  (res_status res = 400 ∧ st' = st)
  ∨ (validateDateRange (now env) req = None
     ∧ 1 <= qty_of req <= 100
     ∧ booking_handler cfg si env req st = (res, st')).
Proof.
  unfold post_booking.
  destruct (validateDateRange (now env) req) as [r|] eqn:Hv.
  { intros [= <- <-]. left. split; [|done]. unfold validateDateRange in Hv.
    repeat case_match; simplify_eq; done. }
  unfold validateQuantity, qty_of.
  destruct (parse_quantity (req_quantity req) <? 1) eqn:H1; [intros [= <- <-]; by left|].
  destruct (100 <? parse_quantity (req_quantity req)) eqn:H2; [intros [= <- <-]; by left|].
  intros H. right. split_and!; [done|lia|lia|done].
Qed.

(** What the guarded body did when it answers 201. *)
Lemma booking_try_created cfg session env req idemKey qty st res st' :
  booking_try cfg session env req idemKey qty st = (res, st') →
  res_status res = 201 →
  ∃ room av b,
    rooms (mongo st) !! req_room_id req = Some room
    ∧ is_active room = true
    ∧ day_loop (now env) (req_room_id req) qty (days_of req)
        (availabilities (mongo st)) = (None, av)
    ∧ availabilities (mongo st') = av
    ∧ rooms (mongo st') = rooms (mongo st)
    ∧ bookings (mongo st') = <[objectId env := b]> (bookings (mongo st))
    ∧ bookings (mongo st) !! objectId env = None
    ∧ total_price_cents b = price_cents room * Z.of_nat (length (days_of req)) * qty
    ∧ quantity b = qty
    ∧ start_date b = normalizeDate (req_start_date req)
    ∧ end_date b = normalizeDate (req_end_date req)
    ∧ status b = confirmed
    ∧ Booking_save_hooks b = None
    ∧ res = send 201 (booking (toPublicJSON (objectId env) b)).
Proof.
  unfold booking_try. case_bool_decide; [intros [= <- <-]; done|].
  destruct (rooms (mongo st) !! req_room_id req) as [room|] eqn:Hroom;
    [|intros [= <- <-]; done].
  destruct (is_active room) eqn:Hact; [|intros [= <- <-]; done].
  fold (days_of req).
  destruct (day_loop _ _ _ _ _) as [[date|] av] eqn:Hloop; [intros [= <- <-]; done|].
  destruct (Booking_create _ _ _ _) as [err|m2] eqn:Hcreate.
  { intros [= <- <-] Hst. destruct (catch_response_status err); simpl in *; lia. }
  destruct (Booking_create_findById _ _ _ _ _ Hcreate)
    as (b & Hfind & Hbs & Hfresh & Hav & Hrooms & Hprice & Hq & Hs & He & Hstat & Hhooks).
  rewrite Hfind. intros [= <- <-] _. simpl in *.
  exists room, av, b. split_and!; done.
Qed.

(** What the guarded body did when it answers 409. *)
Lemma booking_try_insufficient cfg session env req idemKey qty st res st' :
  booking_try cfg session env req idemKey qty st = (res, st') →
  res_status res = 409 →
  ∃ room av date,
    rooms (mongo st) !! req_room_id req = Some room
    ∧ day_loop (now env) (req_room_id req) qty (days_of req)
        (availabilities (mongo st)) = (Some date, av)
    ∧ mongo st' = abortTransaction session (mongo st) (with_availabilities av (mongo st))
    ∧ res = send 409 (insufficient_availability date).
Proof.
  unfold booking_try. case_bool_decide; [intros [= <- <-]; done|].
  destruct (rooms (mongo st) !! req_room_id req) as [room|] eqn:Hroom;
    [|intros [= <- <-]; done].
  destruct (is_active room) eqn:Hact; [|intros [= <- <-]; done].
  fold (days_of req).
  destruct (day_loop _ _ _ _ _) as [[date|] av] eqn:Hloop.
  { intros [= <- <-] _. exists room, av, date. done. }
  destruct (Booking_create _ _ _ _) as [err|m2] eqn:Hcreate.
  { intros [= <- <-] Hst. destruct (catch_response_status err); simpl in *; lia. }
  destruct (Booking_findById _ _); intros [= <- <-]; done.
Qed.

(** What a booking answered 201 did to the stores. *)
Lemma post_booking_created cfg si env req st res st' :
  post_booking cfg si env req st = (res, st') →
  res_status res = 201 →
  ∃ room b,
    rooms (mongo st) !! req_room_id req = Some room
    ∧ 1 <= qty_of req
    ∧ (∀ d, d ∈ days_of req →
         ∃ a, availabilities (mongo st) !! (req_room_id req, d) = Some a
              ∧ qty_of req <= available_units a
              ∧ availabilities (mongo st') !! (req_room_id req, d)
                = Some {| total_units := total_units a;
                          available_units := available_units a - qty_of req;
                          updated_at := now env |})
    ∧ (∀ k, (∀ d, d ∈ days_of req → k ≠ (req_room_id req, d)) →
         availabilities (mongo st') !! k = availabilities (mongo st) !! k)
    ∧ bookings (mongo st') !! objectId env = Some b
    ∧ total_price_cents b
      = price_cents room * Z.of_nat (length (days_of req)) * qty_of req.
Proof.
  intros Hpost Hst.
  destruct (post_booking_inv _ _ _ _ _ _ _ Hpost) as [[H400 _]|(_ & Hqty & Hh)]; [lia|].
  destruct (booking_handler_inv _ _ _ _ _ _ _ Hh)
    as [(prev & -> & _)|[[-> _]|(r1 & st2 & Htry & Hm)]]; [done..|].
  destruct (booking_try_created _ _ _ _ _ _ _ _ _ Htry Hst)
    as (room & av & b & Hroom & _ & Hloop & Hav & _ & Hbs & _ & Hprice & _).
  simpl in *.
  destruct (day_loop_spec _ _ _ _ _ _ _ (NoDup_getDateRange _ _) Hloop)
    as (done & rest & Hdays & -> & Hdone & Hframe).
  rewrite app_nil_r in Hdays. fold (days_of req) in Hdays. subst done.
  exists room, b. rewrite Hm, Hav, Hbs. split_and!.
  - done.
  - lia.
  - intros d Hd. destruct (Hdone d Hd) as (a & Ha & Hqa & Ha').
    exists a. split_and!; [done..|]. rewrite Ha'. done.
  - done.
  - by rewrite lookup_insert_eq.
  - done.
Qed.

End Handler.

(** ** Day-set and price of a booking *)

Section DaySetAndPrice.
Import Mongodb Api Props.

(** C1 (amended). A booking answered 201 has decremented, by its quantity,
    exactly the availability records of its room for every day from
    [start_date] through [end_date], both included, and the stored total
    price is the room's price times the number of those days times the
    quantity. For 2025-12-01 to 2025-12-03 the days are 2025-12-01,
    2025-12-02 and 2025-12-03 and the price is three times the daily price
    times the quantity. *)
Theorem booking_decrements_inclusive_range cfg si env req st res st' :
  post_booking cfg si env req st = (res, st') →
  res_status res = 201 →
  ∃ room b,
    rooms (mongo st) !! req_room_id req = Some room
    ∧ 1 <= qty_of req
    ∧ (∀ d, d ∈ days_of req
         ↔ normalizeDate (req_start_date req) <= d <= normalizeDate (req_end_date req)
           ∧ d `mod` MS_PER_DAY = 0)
    ∧ (∀ d, d ∈ days_of req →
         ∃ a, availabilities (mongo st) !! (req_room_id req, d) = Some a
              ∧ qty_of req <= available_units a
              ∧ availabilities (mongo st') !! (req_room_id req, d)
                = Some {| total_units := total_units a;
                          available_units := available_units a - qty_of req;
                          updated_at := now env |})
    ∧ (∀ k, (∀ d, d ∈ days_of req → k ≠ (req_room_id req, d)) →
         availabilities (mongo st') !! k = availabilities (mongo st) !! k)
    ∧ bookings (mongo st') !! objectId env = Some b
    ∧ total_price_cents b
      = price_cents room * Z.of_nat (length (days_of req)) * qty_of req
    ∧ (req_start_date req = Scenario.d_2025_12_01 →
       req_end_date req = Scenario.d_2025_12_03 →
       days_of req = [Scenario.d_2025_12_01; Scenario.d_2025_12_02; Scenario.d_2025_12_03]
       ∧ total_price_cents b = price_cents room * 3 * qty_of req).
Proof.
  intros Hpost Hst.
  destruct (post_booking_created _ _ _ _ _ _ _ Hpost Hst)
    as (room & b & Hroom & Hqty & Hdec & Hframe & Hb & Hprice).
  exists room, b. split_and!; [done|done|apply days_of_elem|done..|].
  intros Hs He. assert (days_of req
    = [Scenario.d_2025_12_01; Scenario.d_2025_12_02; Scenario.d_2025_12_03]) as Hd.
  { unfold days_of. rewrite Hs, He. vm_compute. reflexivity. }
  split; [done|]. rewrite Hprice, Hd. done.
Qed.

(** The three-day booking of the example deployment is such a booking. *)
Lemma booking_decrements_inclusive_range_witness :
  ∃ room b,
    rooms (mongo Scenario.world) !! "64b000000000000000000001" = Some room
    ∧ bookings (mongo Scenario.booked) !! "64b0000000000000000000b1" = Some b
    ∧ total_price_cents b = price_cents room * 3 * 1.
Proof.
  destruct (booking_decrements_inclusive_range Scenario.cfg Scenario.standalone
              Scenario.env (Scenario.request Scenario.d_2025_12_01 Scenario.d_2025_12_03)
              Scenario.world
              (post_booking Scenario.cfg Scenario.standalone Scenario.env
                 (Scenario.request Scenario.d_2025_12_01 Scenario.d_2025_12_03)
                 Scenario.world).1
              Scenario.booked)
    as (room & b & Hroom & _ & _ & _ & _ & Hb & _ & Hex).
  - apply surjective_pairing.
  - vm_compute. reflexivity.
  - exists room, b. split_and!; [exact Hroom | exact Hb |].
    exact (proj2 (Hex eq_refl eq_refl)).
Defined.

(** C1 as stated fails: the three-day booking of the example deployment
    also decrements the checkout day 2025-12-03. *)
Lemma checkout_day_is_decremented :
  ¬ stated_day_set_and_price Scenario.cfg Scenario.standalone Scenario.env
      (Scenario.request Scenario.d_2025_12_01 Scenario.d_2025_12_03) Scenario.world.
Proof.
  unfold stated_day_set_and_price. intros H.
  destruct H as [Hdays _]; [vm_compute; reflexivity|].
  apply (bool_decide_eq_false_1
           (Scenario.d_2025_12_03
            ∈ checkout_excluded_days Scenario.d_2025_12_01 Scenario.d_2025_12_03)).
  - vm_compute. reflexivity.
  - apply Hdays. vm_compute. discriminate.
Qed.

End DaySetAndPrice.

(** ** A failed attempt *)

Section Rollback.
Import Mongodb Api Props.

(** Where the day loop stops: at the first day that lacks the units, with
    every day before it decremented and nothing else touched. *)
Lemma day_loop_fails_at (clock : Z) (room : string) (qty : Z) (days : list Z)
    (c : gmap (string * Z) Availability) (k : nat) (date : Z) :
  NoDup days →
  1 <= qty →
  days !! k = Some date →
  (∀ (j : nat) d, (j < k)%nat → days !! j = Some d → sufficient qty c room d) →
  ¬ sufficient qty c room date →
  ∃ av, day_loop clock room qty days c = (Some date, av)
    ∧ (∀ (j : nat) d, (j < k)%nat → days !! j = Some d →
         ∃ a, c !! (room, d) = Some a
              ∧ av !! (room, d) = Some (inc_available_units clock (- qty) a))
    ∧ (∀ key, (∀ (j : nat) d, (j < k)%nat → days !! j = Some d → key ≠ (room, d)) →
         av !! key = c !! key).
Proof.
  intros Hnd Hq Hk Hbefore Hfail.
  destruct (day_loop clock room qty days c) as [o av] eqn:Hloop.
  destruct (day_loop_spec _ _ _ _ _ _ _ Hnd Hloop) as (done & rest & Hdays & Ho & Hdone & Hframe).
  assert (∀ d, d ∈ done → sufficient qty c room d) as Hdone_ok.
  { intros d Hd. destruct (Hdone d Hd) as (a & Ha & Hqa & _). by exists a. }
  assert (o = Some date ∧ length done = k) as [-> Hlen].
  { destruct o as [d|].
    - destruct Ho as (rest' & -> & Hzero).
      apply updateOne_dec_count_zero in Hzero; [|done].
      assert (days !! length done = Some d) as Hd
        by (rewrite Hdays; by apply list_lookup_middle).
      destruct (lt_eq_lt_dec (length done) k) as [[Hlt|Heq]|Hgt].
      + exfalso. apply Hzero. by apply (Hbefore (length done)).
      + split; [|done]. rewrite <- Heq in Hk. congruence.
      + exfalso. apply Hfail, Hdone_ok.
        rewrite Hdays, lookup_app_l in Hk by done. by eapply list_elem_of_lookup_2.
    - subst rest. rewrite app_nil_r in Hdays. subst done.
      exfalso. apply Hfail, Hdone_ok. by eapply list_elem_of_lookup_2. }
  destruct Ho as (rest' & -> & _).
  exists av. split_and!; [done| |].
  - intros j d Hj Hd. rewrite Hdays, lookup_app_l in Hd by lia.
    apply list_elem_of_lookup_2 in Hd. destruct (Hdone d Hd) as (a & Ha & _ & Ha'). eauto.
  - intros key Hkey. apply Hframe. intros d [j Hj]%list_elem_of_lookup_1.
    pose proof (lookup_lt_Some _ _ _ Hj) as Hjlt.
    apply (Hkey j); [lia|]. by rewrite Hdays, lookup_app_l.
Qed.

(** C2 (amended). An attempt that gets to the day loop and whose k-th day is
    the first to lack the requested units (days 1..k-1 have them) is
    answered with the insufficient-availability error for that day; day k
    is left untouched and no booking record is created. If the server
    supports transactions the whole database, and so every record of days
    1..k-1, is back in its pre-attempt state; without transaction support
    the decrements of days 1..k-1, and only those, are kept. *)
Theorem failed_attempt_rollback cfg si env req st res st' room (k : nat) (date : Z) :
  post_booking cfg si env req st = (res, st') →
  validateDateRange (now env) req = None →
  1 <= qty_of req <= 100 →
  reaches_day_loop env req st room →
  days_of req !! k = Some date →
  (∀ (j : nat) d, (j < k)%nat → days_of req !! j = Some d →
     sufficient (qty_of req) (availabilities (mongo st)) (req_room_id req) d) →
  ¬ sufficient (qty_of req) (availabilities (mongo st)) (req_room_id req) date →
  res = send 409 (insufficient_availability date)
  ∧ availabilities (mongo st') !! (req_room_id req, date)
    = availabilities (mongo st) !! (req_room_id req, date)
  ∧ bookings (mongo st') = bookings (mongo st)
  ∧ (transactionsSupported si = true → mongo st' = mongo st)
  ∧ (transactionsSupported si = false →
       (∀ (j : nat) d, (j < k)%nat → days_of req !! j = Some d →
          ∃ a, availabilities (mongo st) !! (req_room_id req, d) = Some a
               ∧ availabilities (mongo st') !! (req_room_id req, d)
                 = Some {| total_units := total_units a;
                           available_units := available_units a - qty_of req;
                           updated_at := now env |})
       ∧ (∀ key, (∀ (j : nat) d, (j < k)%nat → days_of req !! j = Some d →
                    key ≠ (req_room_id req, d)) →
            availabilities (mongo st') !! key = availabilities (mongo st) !! key)).
Proof.
  intros Hpost Hvalid Hqty (Hidem & Hlock & Hcontact & Hroom & Hact) Hk Hbefore Hfail.
  pose proof (NoDup_getDateRange (normalizeDate (req_start_date req))
                (normalizeDate (req_end_date req))) as Hnd.
  fold (days_of req) in Hnd.
  destruct (day_loop_fails_at (now env) (req_room_id req) (qty_of req) (days_of req)
              (availabilities (mongo st)) k date Hnd ltac:(lia) Hk Hbefore Hfail)
    as (av & Hloop & Hkept & Hframe).
  assert (post_booking cfg si env req st
          = (send 409 (insufficient_availability date),
             {| redis := Redis.releaseLock (now env) ("lock:room:" +:+ req_room_id req)
                           (uuid env)
                           (Redis.acquireLock (now env) ("lock:room:" +:+ req_room_id req)
                              (uuid env) (lockTimeout cfg) (redis st)).2;
                mongo := abortTransaction (transactionsSupported si) (mongo st)
                           (with_availabilities av (mongo st)) |})) as Hrun.
  { unfold post_booking. rewrite Hvalid. unfold validateQuantity. fold (qty_of req).
    rewrite (proj2 (Z.ltb_ge _ _)) by lia.
    rewrite (proj2 (Z.ltb_ge 100 _)) by lia.
    unfold booking_handler. rewrite Hidem.
    unfold Redis.acquireLock, Redis.SET_PX_NX. rewrite Hlock. simpl.
    unfold booking_try. simpl. rewrite bool_decide_eq_false_2 by done.
    rewrite Hroom, Hact. fold (days_of req). fold (qty_of req).
    rewrite Hloop. done. }
  rewrite Hrun in Hpost. injection Hpost as <- <-. simpl.
  split_and!.
  - done.
  - unfold abortTransaction. destruct (transactionsSupported si); [done|]. simpl.
    apply Hframe. intros j d Hj Hd [= ->].
    pose proof (NoDup_lookup _ _ _ _ Hnd Hd Hk). lia.
  - unfold abortTransaction. by destruct (transactionsSupported si).
  - intros ->. done.
  - intros ->. simpl. split; [|done].
    intros j d Hj Hd. destruct (Hkept j d Hj Hd) as (a & Ha & Ha'). exists a. done.
Qed.

(** The attempt that fails on 2025-12-02 in the example deployment is
    answered 409 for that day. With a replica set it leaves the database
    as it found it; on a standalone server it leaves 2025-12-01
    decremented. *)
Lemma failed_attempt_rollback_witness :
  ((post_booking Scenario.cfg Scenario.replica_set Scenario.env
      (Scenario.request Scenario.d_2025_12_01 Scenario.d_2025_12_03)
      Scenario.world_sold_out).1
   = send 409 (insufficient_availability Scenario.d_2025_12_02)
   ∧ mongo (post_booking Scenario.cfg Scenario.replica_set Scenario.env
              (Scenario.request Scenario.d_2025_12_01 Scenario.d_2025_12_03)
              Scenario.world_sold_out).2
     = mongo Scenario.world_sold_out)
  ∧ ((post_booking Scenario.cfg Scenario.standalone Scenario.env
        (Scenario.request Scenario.d_2025_12_01 Scenario.d_2025_12_03)
        Scenario.world_sold_out).1
     = send 409 (insufficient_availability Scenario.d_2025_12_02)
     ∧ ∃ a, availabilities (mongo Scenario.world_sold_out)
              !! ("64b000000000000000000001", Scenario.d_2025_12_01) = Some a
            ∧ availabilities
                (mongo (post_booking Scenario.cfg Scenario.standalone Scenario.env
                          (Scenario.request Scenario.d_2025_12_01 Scenario.d_2025_12_03)
                          Scenario.world_sold_out).2)
                !! ("64b000000000000000000001", Scenario.d_2025_12_01)
              = Some {| total_units := total_units a;
                        available_units := available_units a - 1;
                        updated_at := now Scenario.env |}).
Proof.
  split.
  - destruct (failed_attempt_rollback Scenario.cfg Scenario.replica_set Scenario.env
                (Scenario.request Scenario.d_2025_12_01 Scenario.d_2025_12_03)
                Scenario.world_sold_out
                (post_booking Scenario.cfg Scenario.replica_set Scenario.env
                   (Scenario.request Scenario.d_2025_12_01 Scenario.d_2025_12_03)
                   Scenario.world_sold_out).1
                (post_booking Scenario.cfg Scenario.replica_set Scenario.env
                   (Scenario.request Scenario.d_2025_12_01 Scenario.d_2025_12_03)
                   Scenario.world_sold_out).2
                Scenario.room_a 1%nat Scenario.d_2025_12_02)
      as (Hres & _ & _ & Hsession & _);
      [ apply surjective_pairing
      | vm_compute; reflexivity
      | vm_compute; split; discriminate
      | unfold reaches_day_loop; split_and!; try (vm_compute; reflexivity);
        intros [[x Hx] _]; vm_compute in Hx; discriminate Hx
      | vm_compute; reflexivity
      | intros [|j] d Hj Hd; [|lia];
        assert (d = Scenario.d_2025_12_01) as ->
          by (vm_compute in Hd; injection Hd as <-; reflexivity);
        refine (bool_decide_unpack _ _); vm_compute; exact I
      | refine (bool_decide_unpack _ _); vm_compute; exact I
      | ].
    split; [exact Hres|exact (Hsession eq_refl)].
  - destruct (failed_attempt_rollback Scenario.cfg Scenario.standalone Scenario.env
                (Scenario.request Scenario.d_2025_12_01 Scenario.d_2025_12_03)
                Scenario.world_sold_out
                (post_booking Scenario.cfg Scenario.standalone Scenario.env
                   (Scenario.request Scenario.d_2025_12_01 Scenario.d_2025_12_03)
                   Scenario.world_sold_out).1
                (post_booking Scenario.cfg Scenario.standalone Scenario.env
                   (Scenario.request Scenario.d_2025_12_01 Scenario.d_2025_12_03)
                   Scenario.world_sold_out).2
                Scenario.room_a 1%nat Scenario.d_2025_12_02)
      as (Hres & _ & _ & _ & Hplain);
      [ apply surjective_pairing
      | vm_compute; reflexivity
      | vm_compute; split; discriminate
      | unfold reaches_day_loop; split_and!; try (vm_compute; reflexivity);
        intros [[x Hx] _]; vm_compute in Hx; discriminate Hx
      | vm_compute; reflexivity
      | intros [|j] d Hj Hd; [|lia];
        assert (d = Scenario.d_2025_12_01) as ->
          by (vm_compute in Hd; injection Hd as <-; reflexivity);
        refine (bool_decide_unpack _ _); vm_compute; exact I
      | refine (bool_decide_unpack _ _); vm_compute; exact I
      | ].
    split; [exact Hres|].
    destruct (Hplain eq_refl) as [Hkept _].
    apply (Hkept 0%nat Scenario.d_2025_12_01); [lia|vm_compute; reflexivity].
Defined.

(** The converse reading: a 409 answer always names the first day of the
    range that lacked the units, and comes with the same effects. *)
Lemma insufficient_answer_names_failing_day cfg si env req st res st' :
  post_booking cfg si env req st = (res, st') →
  res_status res = 409 →
  ∃ (k : nat) (date : Z),
    days_of req !! k = Some date
    ∧ res = send 409 (insufficient_availability date)
    ∧ ¬ sufficient (qty_of req) (availabilities (mongo st)) (req_room_id req) date
    ∧ (∀ (j : nat) d, (j < k)%nat → days_of req !! j = Some d →
         sufficient (qty_of req) (availabilities (mongo st)) (req_room_id req) d)
    ∧ availabilities (mongo st') !! (req_room_id req, date)
      = availabilities (mongo st) !! (req_room_id req, date)
    ∧ bookings (mongo st') = bookings (mongo st)
    ∧ (transactionsSupported si = true → mongo st' = mongo st)
    ∧ (transactionsSupported si = false →
         (∀ (j : nat) d, (j < k)%nat → days_of req !! j = Some d →
            ∃ a, availabilities (mongo st) !! (req_room_id req, d) = Some a
                 ∧ availabilities (mongo st') !! (req_room_id req, d)
                   = Some {| total_units := total_units a;
                             available_units := available_units a - qty_of req;
                             updated_at := now env |})
         ∧ (∀ key, (∀ (j : nat) d, (j < k)%nat → days_of req !! j = Some d →
                      key ≠ (req_room_id req, d)) →
              availabilities (mongo st') !! key = availabilities (mongo st) !! key)).
Proof.
  intros Hpost Hst.
  destruct (post_booking_inv _ _ _ _ _ _ _ Hpost) as [[H400 _]|(_ & Hqty & Hh)]; [lia|].
  destruct (booking_handler_inv _ _ _ _ _ _ _ Hh)
    as [(prev & -> & _)|[[-> _]|(r1 & st2 & Htry & Hm)]]; [done..|].
  destruct (booking_try_insufficient _ _ _ _ _ _ _ _ _ Htry Hst)
    as (room & av & date & Hroom & Hloop & Hm2 & ->).
  simpl in *.
  pose proof (NoDup_getDateRange (normalizeDate (req_start_date req))
                (normalizeDate (req_end_date req))) as Hnd.
  fold (days_of req) in Hnd.
  destruct (day_loop_spec _ _ _ _ _ _ _ Hnd Hloop)
    as (done & rest & Hdays & (rest' & -> & Hzero) & Hdone & Hframe).
  apply updateOne_dec_count_zero in Hzero; [|lia].
  assert (∀ (j : nat) d, (j < length done)%nat → days_of req !! j = Some d → d ∈ done)
    as Hprefix.
  { intros j d Hj Hd. rewrite Hdays, lookup_app_l in Hd by done.
    by eapply list_elem_of_lookup_2. }
  assert (date ∉ done) as Hfresh.
  { rewrite Hdays in Hnd. apply NoDup_app in Hnd as (_ & Hnd & _).
    intros Hin. apply (Hnd _ Hin). left. }
  assert (∀ d, d ∈ done → ∃ j : nat, (j < length done)%nat ∧ days_of req !! j = Some d)
    as Hprefix'.
  { intros d [j Hj]%list_elem_of_lookup_1. exists j.
    pose proof (lookup_lt_Some _ _ _ Hj). split; [done|].
    by rewrite Hdays, lookup_app_l. }
  exists (length done), date. rewrite Hm, Hm2. split_and!.
  - rewrite Hdays. by rewrite list_lookup_middle.
  - done.
  - done.
  - intros j d Hj Hd. destruct (Hdone d (Hprefix _ _ Hj Hd)) as (a & Ha & Hqa & _).
    exists a. done.
  - unfold abortTransaction. destruct (transactionsSupported si); [done|]. simpl.
    apply Hframe. intros d Hd [= ->]. done.
  - unfold abortTransaction. by destruct (transactionsSupported si).
  - intros ->. done.
  - intros ->. simpl. split.
    + intros j d Hj Hd. destruct (Hdone d (Hprefix _ _ Hj Hd)) as (a & Ha & Hqa & Ha').
      exists a. split; [done|]. rewrite Ha'. done.
    + intros key Hkey. apply Hframe. intros d Hd.
      destruct (Hprefix' d Hd) as (j & Hj & Hjd). by eapply Hkey.
Qed.

(** C2 as stated fails on a standalone server: the attempt that fails on
    2025-12-02 leaves 2025-12-01 decremented. *)
Lemma standalone_failure_keeps_decrements :
  ¬ stated_rollback Scenario.cfg Scenario.standalone Scenario.env
      (Scenario.request Scenario.d_2025_12_01 Scenario.d_2025_12_03)
      Scenario.world_sold_out.
Proof.
  unfold stated_rollback. intros H.
  destruct H as [Hunits _]; [vm_compute; reflexivity|].
  destruct (Hunits ("64b000000000000000000001", Scenario.d_2025_12_01) (Scenario.units 5 5))
    as (a' & Ha' & Hu); [vm_compute; reflexivity|].
  assert (availabilities
            (mongo (post_booking Scenario.cfg Scenario.standalone Scenario.env
                      (Scenario.request Scenario.d_2025_12_01 Scenario.d_2025_12_03)
                      Scenario.world_sold_out).2)
          !! ("64b000000000000000000001", Scenario.d_2025_12_01)
          = Some {| total_units := 5; available_units := 4;
                    updated_at := now Scenario.env |}) as Hactual
    by (vm_compute; reflexivity).
  rewrite Hactual in Ha'. injection Ha' as <-. simpl in Hu. discriminate Hu.
Qed.

End Rollback.

(** ** A booking that starts and ends on the same day *)

Section SameDay.
Import Mongodb Api Props.

(** C10. A request whose [end_date] equals its [start_date] passes the
    route's date-range validation; once it holds the lock and the room's
    record for that day has enough units, the day loop decrements that one
    record; creating the booking then fails the schema's
    end-after-start hook, and the route answers 500 with no booking
    stored. The decrement made before the failure is undone only when
    the server supports transactions. *)
Theorem same_day_booking_fails_after_decrement cfg si env req st room a :
  req_end_date req = req_start_date req →
  normalizeDate (now env) <= req_start_date req →
  1 <= qty_of req <= 100 →
  reaches_day_loop env req st room →
  0 <= price_cents room →
  Z.of_nat (String.length (default "" (Js.trim <$> Js.or_null (req_notes req)))) <= 1000 →
  availabilities (mongo st) !! (req_room_id req, normalizeDate (req_start_date req)) = Some a →
  qty_of req <= available_units a →
  let day := normalizeDate (req_start_date req) in
  let decremented :=
    <[(req_room_id req, day) := {| total_units := total_units a;
                                   available_units := available_units a - qty_of req;
                                   updated_at := now env |}]>
      (availabilities (mongo st)) in
  validateDateRange (now env) req = None
  ∧ day_loop (now env) (req_room_id req) (qty_of req) (days_of req)
      (availabilities (mongo st)) = (None, decremented)
  ∧ Booking_create (now env) (objectId env)
      (booking_doc env req day day (qty_of req) (price_cents room * 1 * qty_of req))
      (with_availabilities decremented (mongo st))
    = inl (PlainError "End date must be after start date")
  ∧ (post_booking cfg si env req st).1 = send 500 (error "server error")
  ∧ bookings (mongo (post_booking cfg si env req st).2) = bookings (mongo st)
  ∧ availabilities (mongo (post_booking cfg si env req st).2)
    = if transactionsSupported si then availabilities (mongo st) else decremented.
Proof.
  intros He Hpast Hqty (Hidem & Hlock & Hcontact & Hroom & Hact) Hprice Hnotes Ha Hqa day decremented.
  subst day.
  assert (validateDateRange (now env) req = None) as Hvalid.
  { unfold validateDateRange. rewrite He.
    rewrite (proj2 (Z.ltb_ge _ _)) by lia.
    rewrite Z.ltb_irrefl, Z.sub_diag. done. }
  assert (day_loop (now env) (req_room_id req) (qty_of req) (days_of req)
            (availabilities (mongo st)) = (None, decremented)) as Hloop.
  { rewrite days_of_same_day by done. cbn [day_loop]. unfold Availability_updateOne_dec.
    rewrite Ha, (proj2 (Z.leb_le _ _)) by lia.
    rewrite decide_False.
    - cbn. unfold decremented, inc_available_units. done.
    - intros Heq. apply (f_equal available_units) in Heq. simpl in Heq. lia. }
  assert (Booking_create (now env) (objectId env)
            (booking_doc env req (normalizeDate (req_start_date req))
               (normalizeDate (req_start_date req)) (qty_of req)
               (price_cents room * 1 * qty_of req))
            (with_availabilities decremented (mongo st))
          = inl (PlainError "End date must be after start date")) as Hcreate.
  { unfold Booking_create, Booking_save_hooks, Booking_validate, Booking_pre_save. simpl.
    rewrite (proj2 (Z.ltb_ge _ _)) by lia.
    rewrite (proj2 (Z.ltb_ge 100 _)) by lia.
    rewrite (proj2 (Z.ltb_ge _ 0)) by nia.
    rewrite bool_decide_eq_false_2 by lia.
    by rewrite Z.leb_refl. }
  assert (post_booking cfg si env req st
          = (send 500 (error "server error"),
             {| redis := Redis.releaseLock (now env) ("lock:room:" +:+ req_room_id req)
                           (uuid env)
                           (Redis.acquireLock (now env) ("lock:room:" +:+ req_room_id req)
                              (uuid env) (lockTimeout cfg) (redis st)).2;
                mongo := abortTransaction (transactionsSupported si) (mongo st)
                           (with_availabilities decremented (mongo st)) |})) as Hpost.
  { unfold post_booking. rewrite Hvalid. unfold validateQuantity. fold (qty_of req).
    rewrite (proj2 (Z.ltb_ge _ _)) by lia.
    rewrite (proj2 (Z.ltb_ge 100 _)) by lia.
    unfold booking_handler. rewrite Hidem.
    unfold Redis.acquireLock, Redis.SET_PX_NX. rewrite Hlock. simpl.
    unfold booking_try. simpl. rewrite bool_decide_eq_false_2 by done.
    rewrite Hroom, Hact. fold (days_of req). fold (qty_of req).
    rewrite Hloop.
    assert (Z.of_nat (length (days_of req)) = 1) as -> by (by rewrite days_of_same_day).
    rewrite He.
    rewrite Hcreate. done. }
  rewrite Hpost. simpl. split_and!; [done..| |].
  - unfold abortTransaction. by destruct (transactionsSupported si).
  - unfold abortTransaction. by destruct (transactionsSupported si).
Qed.

Lemma same_day_booking_fails_after_decrement_witness :
  (post_booking Scenario.cfg Scenario.standalone Scenario.env
     (Scenario.request Scenario.d_2025_12_01 Scenario.d_2025_12_01) Scenario.world).1
  = send 500 (error "server error")
  ∧ availabilities
      (mongo (post_booking Scenario.cfg Scenario.standalone Scenario.env
                (Scenario.request Scenario.d_2025_12_01 Scenario.d_2025_12_01)
                Scenario.world).2)
    = <[("64b000000000000000000001", Scenario.d_2025_12_01)
        := {| total_units := 5; available_units := 4; updated_at := now Scenario.env |}]>
        (availabilities (mongo Scenario.world)).
Proof.
  destruct (same_day_booking_fails_after_decrement Scenario.cfg Scenario.standalone
              Scenario.env (Scenario.request Scenario.d_2025_12_01 Scenario.d_2025_12_01)
              Scenario.world Scenario.room_a (Scenario.units 5 5))
    as (_ & _ & _ & Hres & _ & Hav).
  - reflexivity.
  - vm_compute. discriminate.
  - vm_compute. split; discriminate.
  - unfold reaches_day_loop. split_and!; try (vm_compute; reflexivity).
    intros [[x Hx] _]. vm_compute in Hx. discriminate Hx.
  - vm_compute. discriminate.
  - vm_compute. discriminate.
  - vm_compute. reflexivity.
  - vm_compute. discriminate.
  - split; [exact Hres | exact Hav].
Defined.

End SameDay.

(** ** Idempotent replay *)

Section Idempotency.
Import Mongodb Api Props.

(** C3. A request whose idempotency token has a stored booking id is
    answered 200 with that id, and neither store is changed: no booking is
    created and no availability record is decremented. *)
Theorem idempotent_replay_short_circuits cfg si env req st key prev :
  req_idempotency_key req = Some key →
  key ≠ "" →
  Redis.getIdempotencyKey (now env) key (redis st) = Some prev →
  prev ≠ "" →
  booking_handler cfg si env req st = (send 200 (idempotent prev), st).
Proof.
  intros Hkey Hk Hprev Hp. unfold booking_handler. rewrite Hkey. simpl.
  rewrite bool_decide_eq_false_2 by done. simpl. rewrite Hprev. simpl.
  by rewrite bool_decide_eq_false_2.
Qed.

(** The replay of the example deployment's booking. *)
Lemma idempotent_replay_short_circuits_witness :
  booking_handler Scenario.cfg Scenario.standalone Scenario.env
    (Scenario.request Scenario.d_2025_12_01 Scenario.d_2025_12_03) Scenario.booked
  = (send 200 (idempotent "64b0000000000000000000b1"), Scenario.booked).
Proof.
  apply (idempotent_replay_short_circuits Scenario.cfg Scenario.standalone Scenario.env
           (Scenario.request Scenario.d_2025_12_01 Scenario.d_2025_12_03)
           Scenario.booked "key-1" "64b0000000000000000000b1").
  - reflexivity.
  - discriminate.
  - vm_compute. reflexivity.
  - discriminate.
Defined.

(** A booking answered 201 leaves its id under the request's idempotency
    token, with the configured retention. *)
Lemma booking_handler_stores_token cfg si env req st res st' key :
  booking_handler cfg si env req st = (res, st') →
  res_status res = 201 →
  req_idempotency_key req = Some key →
  key ≠ "" →
  redis st' !! ("idem:" +:+ key)
  = Some (Redis.Entry (objectId env) (Some (now env + idempotencyTTL cfg * 1000))).
Proof.
  intros Hh Hst Hkey Hk. revert Hh. unfold booking_handler.
  rewrite Hkey. simpl Js.or_null. rewrite bool_decide_eq_false_2 by done.
  destruct (_ ≫= _) as [prev|]; [intros [= <- <-]; done|].
  destruct (Redis.acquireLock _ _ _ _ _) as [[] r1]; [|intros [= <- <-]; done].
  destruct (booking_try _ _ _ _ _ _ _) as [res2 st2] eqn:Htry.
  intros [= <- <-]. simpl.
  assert (redis st2 !! ("idem:" +:+ key)
          = Some (Redis.Entry (objectId env) (Some (now env + idempotencyTTL cfg * 1000))))
    as Hst2.
  { revert Htry. unfold booking_try. simpl.
    case_bool_decide; [intros [= <- <-]; done|].
    destruct (rooms (mongo st) !! req_room_id req) as [room|]; [|intros [= <- <-]; done].
    destruct (is_active room); [|intros [= <- <-]; done].
    destruct (day_loop _ _ _ _ _) as [[date|] av]; [intros [= <- <-]; done|].
    destruct (Booking_create _ _ _ _) as [err|m2].
    { intros [= <- <-]. destruct (catch_response_status err); simpl in *; lia. }
    destruct (Booking_findById _ _); intros [= <- <-]; [|done].
    simpl. unfold Redis.setIdempotencyKey, Redis.SET_EX. by rewrite lookup_insert_eq. }
  unfold Redis.releaseLock, Redis.DEL. case_bool_decide; [|done].
  rewrite lookup_delete_ne; [done|]. simpl. discriminate.
Qed.

(** Replaying the token of a booking answered 201 within the retention
    window returns the id of that booking and changes nothing. *)
Lemma replay_returns_first_booking cfg si env req st res st' key cfg2 si2 env2 req2 :
  booking_handler cfg si env req st = (res, st') →
  res_status res = 201 →
  req_idempotency_key req = Some key →
  key ≠ "" →
  objectId env ≠ "" →
  req_idempotency_key req2 = Some key →
  now env2 < now env + idempotencyTTL cfg * 1000 →
  booking_handler cfg2 si2 env2 req2 st' = (send 200 (idempotent (objectId env)), st').
Proof.
  intros Hh Hst Hkey Hk Hid Hkey2 Hlive.
  unfold booking_handler. rewrite Hkey2. simpl Js.or_null.
  rewrite bool_decide_eq_false_2 by done. simpl.
  unfold Redis.getIdempotencyKey, Redis.GET.
  rewrite (booking_handler_stores_token _ _ _ _ _ _ _ _ Hh Hst Hkey Hk).
  unfold Redis.live. cbn [Redis.expire_at Redis.value].
  rewrite (proj2 (Z.ltb_lt _ _)) by done. simpl.
  by rewrite bool_decide_eq_false_2.
Qed.

End Idempotency.

(** ** The availability ledger *)

Section Ledger.
Import Mongodb Api Props.

(** C4. On an existing room-day record and a quantity of at least one, the
    conditional decrement modifies the record exactly when it holds at
    least the quantity; it then lowers [available_units] by exactly the
    quantity and touches no other record, and otherwise leaves the whole
    collection unchanged. *)
Theorem conditional_decrement (clock : Z) (room : string) (date qty : Z)
    (c : gmap (string * Z) Availability) (a : Availability) :
  c !! (room, date) = Some a →
  1 <= qty →
  let result := Availability_updateOne_dec clock room date qty c in
  (result.1 ≠ 0 ↔ qty <= available_units a)
  ∧ (qty <= available_units a →
     result.1 = 1
     ∧ ∃ a', result.2 !! (room, date) = Some a'
             ∧ available_units a' = available_units a - qty
             ∧ total_units a' = total_units a
             ∧ ∀ k, k ≠ (room, date) → result.2 !! k = c !! k)
  ∧ (¬ qty <= available_units a → result.1 = 0 ∧ result.2 = c).
Proof.
  intros Ha Hq. unfold Availability_updateOne_dec. rewrite Ha.
  destruct (qty <=? available_units a) eqn:Hle; simpl.
  - apply Z.leb_le in Hle.
    assert (inc_available_units clock (- qty) a ≠ a) as Hne.
    { intros Heq. apply (f_equal available_units) in Heq. simpl in Heq. lia. }
    rewrite decide_False by done. simpl. split_and!; [done| |done].
    intros _. split; [done|].
    eexists. rewrite lookup_insert_eq. split_and!; [done|simpl; lia|done|].
    intros k Hk. by rewrite lookup_insert_ne.
  - apply Z.leb_gt in Hle. split_and!; [split; [done|lia] |lia|done].
Qed.

Lemma conditional_decrement_witness :
  (Availability_updateOne_dec 0 "64b000000000000000000001" Scenario.d_2025_12_01 2
     (availabilities (mongo Scenario.world))).1 ≠ 0
  ↔ 2 <= 5.
Proof.
  exact (proj1 (conditional_decrement 0 "64b000000000000000000001"
                  Scenario.d_2025_12_01 2 (availabilities (mongo Scenario.world))
                  (Scenario.units 5 5) ltac:(vm_compute; reflexivity) ltac:(lia))).
Defined.

Lemma updateOne_dec_units_ok (clock : Z) (room : string) (date qty : Z)
    (c : gmap (string * Z) Availability) :
  0 <= qty → units_ok c →
  units_ok (Availability_updateOne_dec clock room date qty c).2.
Proof.
  unfold units_ok, map_Forall. intros Hq Hc. unfold Availability_updateOne_dec.
  destruct (c !! (room, date)) as [a|] eqn:Ha; [|done].
  destruct (qty <=? available_units a) eqn:Hle; [|done]. simpl.
  apply Z.leb_le in Hle. intros k a'. rewrite lookup_insert. case_decide.
  - intros [= <-]. simpl. specialize (Hc _ _ Ha). lia.
  - apply Hc.
Qed.

Lemma day_loop_units_ok (clock : Z) (room : string) (qty : Z) (days : list Z) :
  0 <= qty → ∀ c : gmap (string * Z) Availability,
  units_ok c → units_ok (day_loop clock room qty days c).2.
Proof.
  intros Hq. induction days as [|d ds IH]; intros c Hc; [done|]. simpl.
  pose proof (updateOne_dec_units_ok clock room d qty c Hq Hc) as Hc1.
  destruct (Availability_updateOne_dec clock room d qty c) as [n c1].
  destruct (n =? 0); [done|]. by apply IH.
Qed.

Lemma insertMany_units_ok (records : list ((string * Z) * Availability)) :
  (∀ k a, (k, a) ∈ records → available_units a = total_units a) →
  ∀ c : gmap (string * Z) Availability,
  units_ok c → units_ok (Availability_insertMany records c).
Proof.
  induction records as [|[k a] records IH]; intros Hrec c Hc; [done|]. simpl.
  apply IH; [intros k' a' Hin; apply (Hrec k' a'); by right|].
  destruct (c !! k) eqn:Hk; [done|].
  destruct (Availability_valid k.2 a) eqn:Hvalid; [|done].
  unfold units_ok, map_Forall in *. intros k' a'. rewrite lookup_insert. case_decide; [|apply Hc].
  intros [= <-]. unfold Availability_valid in Hvalid.
  apply andb_true_iff in Hvalid as [[H1 H2]%andb_true_iff _].
  rewrite (Hrec k a) by left. lia.
Qed.

Lemma Booking_save_availabilities clock id this m b m' :
  Booking_save clock id this m = inr (b, m') →
  availabilities m' = availabilities m ∧ rooms m' = rooms m
  ∧ bookings m' = <[id := b]> (bookings m)
  ∧ status b = status this ∧ cancellation_reason b = cancellation_reason this
  ∧ cancelled_at b = cancelled_at this.
Proof.
  unfold Booking_save. destruct (Booking_save_hooks this); [done|].
  destruct (bookings m !! id); [|done]. intros [= <- <-]. done.
Qed.

(** A cancellation that goes through marks the booking cancelled, with its
    time and trimmed reason, and writes nothing but the booking. *)
Lemma Booking_cancel_effect clock id this reason m b m' :
  Booking_cancel clock id this reason m = inr (b, m') →
  status this ≠ cancelled
  ∧ status b = cancelled
  ∧ cancelled_at b = Some clock
  ∧ cancellation_reason b = Js.trim <$> reason
  ∧ bookings m' = <[id := b]> (bookings m)
  ∧ availabilities m' = availabilities m
  ∧ rooms m' = rooms m.
Proof.
  unfold Booking_cancel. case_bool_decide as Hst; [done|].
  intros (Hav & Hrooms & Hbs & Hstat & Hreason & Hat)%Booking_save_availabilities.
  done.
Qed.

(** Cancelling an already cancelled booking is rejected, with no write. *)
Lemma Booking_cancel_twice clock id this reason m :
  status this = cancelled →
  Booking_cancel clock id this reason m = inl (PlainError "Booking is already cancelled").
Proof. intros Hst. unfold Booking_cancel. by rewrite bool_decide_eq_true_2. Qed.

Lemma booking_try_units_ok cfg session env req idemKey qty st :
  0 <= qty → ledger_invariant (mongo st) →
  ledger_invariant (mongo (booking_try cfg session env req idemKey qty st).2).
Proof.
  intros Hq Hinv. unfold booking_try.
  assert (∀ m, ledger_invariant m →
            ledger_invariant (abortTransaction session (mongo st) m)) as Habort.
  { intros m Hm. unfold abortTransaction. by destruct session. }
  case_bool_decide; [by apply Habort|].
  destruct (rooms (mongo st) !! req_room_id req) as [room|]; [|by apply Habort].
  destruct (is_active room); [|by apply Habort].
  pose proof (day_loop_units_ok (now env) (req_room_id req) qty
                (getDateRange (normalizeDate (req_start_date req))
                   (normalizeDate (req_end_date req))) Hq _ Hinv) as Hloop.
  destruct (day_loop _ _ _ _ _) as [[date|] av]; [by apply Habort|].
  destruct (Booking_create _ _ _ _) as [err|m2] eqn:Hcreate; [by apply Habort|].
  destruct (Booking_create_findById _ _ _ _ _ Hcreate) as (b & Hfind & _ & _ & Hav & _).
  rewrite Hfind. simpl. unfold ledger_invariant. rewrite Hav. done.
Qed.

Lemma step_ledger_invariant op st :
  ledger_invariant (mongo st) → ledger_invariant (mongo (step op st)).
Proof.
  intros Hinv. destruct op as [cfg si env req|clock id this reason|clock roomId totalUnits s e|s e].
  - simpl. destruct (post_booking cfg si env req st) as [res st'] eqn:Hpost.
    destruct (post_booking_inv _ _ _ _ _ _ _ Hpost) as [[_ ->]|(_ & Hqty & Hh)]; [done|].
    destruct (booking_handler_inv _ _ _ _ _ _ _ Hh)
      as [(prev & _ & ->)|[[_ Hm]|(r1 & st2 & Htry & Hm)]]; simpl; [done|by rewrite Hm|].
    rewrite Hm.
    pose proof (booking_try_units_ok cfg (transactionsSupported si) env req
                  (Js.or_null (req_idempotency_key req)) (qty_of req)
                  {| redis := r1; mongo := mongo st |}) as Htry'.
    rewrite Htry in Htry'. apply Htry'; [lia|done].
  - simpl. destruct (Booking_cancel clock id this reason (mongo st)) as [err|[b m']] eqn:Hc;
      [done|].
    apply Booking_cancel_effect in Hc as (_ & _ & _ & _ & _ & Hav & _).
    simpl. unfold ledger_invariant. by rewrite Hav.
  - simpl. unfold ledger_invariant. simpl. apply insertMany_units_ok; [|done].
    intros k a (d & [= -> ->] & _)%list_elem_of_fmap. done.
  - done.
Qed.

(** C5. Starting from stores whose availability records satisfy
    [0 <= available_units <= total_units], every record satisfies it after
    each operation of any sequence of bookings, cancellations,
    availability initialisations and searches. *)
Theorem ledger_invariant_preserved (ops : list Op) (st : State) :
  ledger_invariant (mongo st) →
  ∀ n : nat, ledger_invariant (mongo (run (take n ops) st)).
Proof.
  intros Hinv n. revert st Hinv. generalize (take n ops). clear ops n.
  intros ops. induction ops as [|op ops IH]; intros st Hinv; [done|].
  simpl. apply IH. by apply step_ledger_invariant.
Qed.

Lemma ledger_invariant_preserved_witness :
  ledger_invariant (mongo (run (take 5 Scenario.operations) Scenario.world)).
Proof.
  apply (ledger_invariant_preserved Scenario.operations Scenario.world).
  unfold ledger_invariant, units_ok. refine (bool_decide_unpack _ _). vm_compute. exact I.
Defined.

End Ledger.

(** ** Cancellation *)

Section Cancellation.
Import Mongodb Api Props.

(** C7, evaluated on the example deployment. Cancelling the confirmed
    three-day booking marks it cancelled with its time and reason, and a
    second cancellation is rejected; but the availability collection after
    the cancellation is the one before it: 2025-12-01 still holds 4 of 5
    units, so the quantity is not given back. *)
Theorem cancel_leaves_ledger_decremented :
  let m := mongo Scenario.booked in
  let clock := Scenario.d_2025_11_30 + 7200000 in
  bookings m !! "64b0000000000000000000b1" = Some Scenario.created_booking
  ∧ availabilities m !! ("64b000000000000000000001", Scenario.d_2025_12_01)
    = Some {| total_units := 5; available_units := 4; updated_at := now Scenario.env |}
  ∧ (∃ b m',
       Booking_cancel clock "64b0000000000000000000b1" Scenario.created_booking
         (Some "changed plans") m = inr (b, m')
       ∧ status b = cancelled
       ∧ cancelled_at b = Some clock
       ∧ cancellation_reason b = Some "changed plans"
       ∧ availabilities m' = availabilities m
       ∧ Booking_cancel (clock + 1) "64b0000000000000000000b1" b (Some "again") m'
         = inl (PlainError "Booking is already cancelled"))
  ∧ ¬ stated_cancel_restores clock "64b0000000000000000000b1" Scenario.created_booking
        (Some "changed plans") m.
Proof.
  intros m clock.
  assert (availabilities m !! ("64b000000000000000000001", Scenario.d_2025_12_01)
          = Some {| total_units := 5; available_units := 4;
                    updated_at := now Scenario.env |}) as Hday
    by (vm_compute; reflexivity).
  assert (match Booking_cancel clock "64b0000000000000000000b1" Scenario.created_booking
                  (Some "changed plans") m with
          | inl _ => false
          | inr _ => true
          end = true) as Hok by (vm_compute; reflexivity).
  destruct (Booking_cancel clock "64b0000000000000000000b1" Scenario.created_booking
              (Some "changed plans") m) as [err|[b m']] eqn:Hcancel; [discriminate Hok|].
  clear Hok.
  destruct (Booking_cancel_effect _ _ _ _ _ _ _ Hcancel)
    as (_ & Hst & Hat & Hreason & _ & Hav & _).
  split_and!; [vm_compute; reflexivity|done| |].
  - exists b, m'. split_and!; [done..| | done |by apply Booking_cancel_twice].
    rewrite Hreason. vm_compute. reflexivity.
  - intros H.
    destruct (H b m' Hcancel Scenario.d_2025_12_01 _
                ltac:(refine (bool_decide_unpack _ _); vm_compute; exact I) Hday)
      as (a' & Ha' & Hunits).
    change (room_id Scenario.created_booking) with "64b000000000000000000001" in Ha'.
    rewrite Hav, Hday in Ha'. injection Ha' as <-. simpl in Hunits. discriminate Hunits.
Qed.

End Cancellation.

(** ** Room search *)

Section Search.
Import Mongodb Api Props.

Lemma foldr_min_elem (x : Z) (l : list Z) : foldr Z.min x l ∈ x :: l.
Proof.
  induction l as [|y l IH]; simpl; [left|].
  destruct (Z.min_spec y (foldr Z.min x l)) as [[_ ->]|[_ ->]].
  - right. left.
  - apply elem_of_cons in IH as [->|IH]; [left|]. right. by right.
Qed.

Lemma foldr_min_le (x : Z) (l : list Z) (y : Z) : y ∈ x :: l → foldr Z.min x l <= y.
Proof.
  induction l as [|z l IH]; simpl.
  - intros ->%list_elem_of_singleton. lia.
  - intros [->|[->|Hy]%elem_of_cons]%elem_of_cons.
    + etrans; [apply Z.le_min_r|]. apply IH. left.
    + apply Z.le_min_l.
    + etrans; [apply Z.le_min_r|]. apply IH. by right.
Qed.

Lemma match_available_free_day startDate endDate (doc : (string * Z) * Availability) :
  match_available startDate endDate doc = true
  ↔ startDate <= doc.1.2 <= endDate ∧ 0 < available_units doc.2.
Proof. unfold match_available. rewrite !andb_true_iff. lia. Qed.

(** The documents of one room that survive the first [$match]. *)
Lemma elem_of_matched_room startDate endDate (m : db) room (doc : (string * Z) * Availability) :
  doc ∈ filter (λ doc, doc.1.1 = room)
          (filter (λ doc, match_available startDate endDate doc = true)
             (map_to_list (availabilities m)))
  ↔ availabilities m !! doc.1 = Some doc.2 ∧ free_day startDate endDate room doc.
Proof.
  rewrite !list_elem_of_filter, match_available_free_day.
  destruct doc as [k a]. rewrite elem_of_map_to_list. unfold free_day. simpl. tauto.
Qed.

Lemma size_filter_map_to_list (P : (string * Z) * Availability → Prop)
    `{!∀ x, Decision (P x)} (c : gmap (string * Z) Availability) :
  size (filter P c) = length (filter P (map_to_list c)).
Proof.
  rewrite <- length_map_to_list. apply Permutation_length, NoDup_Permutation.
  - apply NoDup_map_to_list.
  - apply NoDup_filter, NoDup_map_to_list.
  - intros [k a]. rewrite list_elem_of_filter, !elem_of_map_to_list.
    rewrite map_lookup_filter_Some. tauto.
Qed.

Lemma group_of_spec startDate endDate (m : db) room g :
  group_of (filter (λ doc, match_available startDate endDate doc = true)
              (map_to_list (availabilities m))) room = Some g
  ↔ _id g = room
    ∧ (∃ d a, availabilities m !! (room, d) = Some a
              ∧ free_day startDate endDate room ((room, d), a)
              ∧ available_units a = minAvailable g)
    ∧ (∀ d a, availabilities m !! (room, d) = Some a →
              free_day startDate endDate room ((room, d), a) →
              minAvailable g <= available_units a)
    ∧ totalDays g
      = Z.of_nat (size (filter (free_day startDate endDate room) (availabilities m))).
Proof.
  unfold group_of.
  assert (size (filter (free_day startDate endDate room) (availabilities m))
          = length (filter (λ doc, doc.1.1 = room)
                      (filter (λ doc, match_available startDate endDate doc = true)
                         (map_to_list (availabilities m))))) as Hsize.
  { rewrite size_filter_map_to_list. apply Permutation_length, NoDup_Permutation.
    - apply NoDup_filter, NoDup_map_to_list.
    - apply NoDup_filter, NoDup_filter, NoDup_map_to_list.
    - intros doc. rewrite elem_of_matched_room, list_elem_of_filter.
      destruct doc as [k a]. rewrite elem_of_map_to_list. simpl. tauto. }
  rewrite Hsize. clear Hsize.
  pose proof (elem_of_matched_room startDate endDate m room) as Hin.
  destruct (filter (λ doc, doc.1.1 = room) _) as [|doc rest].
  - split; [done|]. intros (_ & (d & a & Ha & Hfree & _) & _).
    assert (((room, d), a) ∈ @nil (string * Z * Availability)) as Hnil by (by apply Hin).
    by apply elem_of_nil in Hnil.
  - set (l := (λ d : string * Z * Availability, available_units d.2) <$> rest).
    assert (∀ v, v ∈ available_units doc.2 :: l
              ↔ ∃ d a, availabilities m !! (room, d) = Some a
                       ∧ free_day startDate endDate room ((room, d), a)
                       ∧ available_units a = v) as Hunits.
    { intros v. change (available_units doc.2 :: l)
        with ((λ d : string * Z * Availability, available_units d.2) <$> doc :: rest).
      rewrite list_elem_of_fmap. split.
      - intros ([[r d] a] & -> & [Ha Hfree]%Hin). simpl in *.
        assert (r = room) as -> by apply Hfree. eauto.
      - intros (d & a & Ha & Hfree & <-). exists ((room, d), a). split; [done|].
        apply Hin. done. }
    split.
    + intros [= <-]. simpl. split_and!; [done| | |done].
      * apply Hunits, foldr_min_elem.
      * intros d a Ha Hfree. apply foldr_min_le. apply Hunits. eauto.
    + intros (Hid & Hmin & Hle & Hdays). f_equal. destruct g as [id mn days].
      simpl in *. subst id. f_equal; [|done].
      destruct Hmin as (d & a & Ha & Hfree & <-).
      pose proof (foldr_min_elem (available_units doc.2) l) as (d' & a' & Ha' & Hfree' & Heq)%Hunits.
      apply Z.le_antisymm.
      * apply foldr_min_le. apply Hunits. eauto.
      * rewrite <- Heq. by eapply Hle.
Qed.

Lemma lookup_project_inv (m : db) g r :
  lookup_project m g = Some r →
  sr_id r = _id g ∧ sr_available_units r = minAvailable g
  ∧ sr_available_days r = totalDays g
  ∧ ∃ room, rooms m !! _id g = Some room ∧ is_active room = true.
Proof.
  unfold lookup_project. destruct (rooms m !! _id g) as [room|]; [|done].
  destruct (is_active room) eqn:Hact; [|done]. intros [= <-]. simpl.
  split_and!; [done..|]. by exists room.
Qed.

(** C6 (amended). The search returns exactly the active rooms that have at
    least one day inside the inclusive bounds with [available_units > 0].
    The reported [available_units] is the minimum over those days only (a
    day with zero units is left out of the minimum and does not exclude the
    room), and [available_days] is their number. *)
Theorem search_reports_minimum_over_free_days (start end_ : Z) (m : db) (r : SearchResult) :
  r ∈ search_rooms start end_ m
  ↔ (∃ room, rooms m !! sr_id r = Some room ∧ is_active room = true)
    ∧ lookup_project m {| _id := sr_id r; minAvailable := sr_available_units r;
                          totalDays := sr_available_days r |} = Some r
    ∧ (∃ d a, availabilities m !! (sr_id r, d) = Some a
              ∧ free_day (normalizeDate start) (normalizeDate end_) (sr_id r) ((sr_id r, d), a)
              ∧ available_units a = sr_available_units r)
    ∧ (∀ d a, availabilities m !! (sr_id r, d) = Some a →
              free_day (normalizeDate start) (normalizeDate end_) (sr_id r) ((sr_id r, d), a) →
              sr_available_units r <= available_units a)
    ∧ sr_available_days r
      = Z.of_nat (size (filter (free_day (normalizeDate start) (normalizeDate end_) (sr_id r))
                          (availabilities m))).
Proof.
  unfold search_rooms. rewrite merge_sort_Permutation, list_elem_of_omap.
  set (matched := filter (λ doc, match_available (normalizeDate start) (normalizeDate end_) doc = true)
                    (map_to_list (availabilities m))).
  split.
  - intros (g & [Hpos Hg]%list_elem_of_filter & Hproj).
    unfold group_by_room in Hg. apply list_elem_of_omap in Hg as (room & _ & Hgroup).
    apply group_of_spec in Hgroup as (Hid & Hmin & Hle & Hdays).
    destruct (lookup_project_inv _ _ _ Hproj) as (Hrid & Hunits & Hcount & Hroom).
    destruct g as [id mn days]. simpl in *. subst id room mn.
    rewrite <- Hcount in Hdays. rewrite <- Hcount in Hproj. done.
  - intros (_ & Hproj & Hmin & Hle & Hdays).
    set (g := {| _id := sr_id r; minAvailable := sr_available_units r;
                 totalDays := sr_available_days r |}) in *.
    exists g. split; [|done].
    assert (group_of matched (sr_id r) = Some g) as Hgroup.
    { apply group_of_spec. done. }
    destruct Hmin as (d & a & Ha & Hfree & Hunits).
    apply list_elem_of_filter. split.
    + simpl. rewrite <- Hunits. apply Hfree.
    + unfold group_by_room. apply list_elem_of_omap. exists (sr_id r). split; [|done].
      apply elem_of_remove_dups, list_elem_of_fmap. exists ((sr_id r, d), a). split; [done|].
      pose proof (proj2 (elem_of_matched_room (normalizeDate start) (normalizeDate end_) m
                           (sr_id r) ((sr_id r, d), a)) (conj Ha Hfree)) as Hin.
      by apply list_elem_of_filter in Hin as [_ Hin].
Qed.

(** C6 as stated fails: in the example deployment the room is sold out on
    2025-12-02, yet it is returned with [available_units = 5]. *)
Lemma sold_out_day_is_ignored :
  ¬ stated_search_minimum Scenario.d_2025_12_01 Scenario.d_2025_12_03
      (mongo Scenario.world_sold_out).
Proof.
  intros H.
  assert (Scenario.room_a_found
          ∈ search_rooms Scenario.d_2025_12_01 Scenario.d_2025_12_03
              (mongo Scenario.world_sold_out)) as Hfound.
  { replace (search_rooms Scenario.d_2025_12_01 Scenario.d_2025_12_03
               (mongo Scenario.world_sold_out))
      with [Scenario.room_a_found] by (vm_compute; reflexivity).
    left. }
  specialize (H _ Hfound Scenario.d_2025_12_02 (Scenario.units 5 0)).
  assert (sr_available_units Scenario.room_a_found
          <= available_units (Scenario.units 5 0)) as Hle.
  { apply H; [vm_compute; reflexivity|]. vm_compute. split; discriminate. }
  vm_compute in Hle. by apply Hle.
Qed.

End Search.

(** ** The room lock *)

Section Lock.
Import Mongodb Api Props.

(** C8. Acquiring succeeds exactly when the key holds no unexpired lock, and
    then stores the caller's token with the lease as expiry; a refused
    acquisition changes nothing. Releasing deletes the key exactly when an
    unexpired lock with the caller's token is stored; with any other
    stored state the store is left as it is. *)
Theorem lock_acquire_release (clock : Z) (lockKey token : string) (timeout : Z)
    (r : gmap string Redis.entry) :
  ((Redis.acquireLock clock lockKey token timeout r).1 = true
   ↔ ∀ e, r !! lockKey = Some e → Redis.live clock e = false)
  ∧ ((Redis.acquireLock clock lockKey token timeout r).1 = true →
     (Redis.acquireLock clock lockKey token timeout r).2
     = <[lockKey := Redis.Entry token (Some (clock + timeout))]> r)
  ∧ ((Redis.acquireLock clock lockKey token timeout r).1 = false →
     (Redis.acquireLock clock lockKey token timeout r).2 = r)
  ∧ ((∃ e, r !! lockKey = Some e ∧ Redis.live clock e = true ∧ Redis.value e = token) →
     Redis.releaseLock clock lockKey token r = delete lockKey r)
  ∧ (¬ (∃ e, r !! lockKey = Some e ∧ Redis.live clock e = true ∧ Redis.value e = token) →
     Redis.releaseLock clock lockKey token r = r).
Proof.
  unfold Redis.acquireLock, Redis.releaseLock, Redis.SET_PX_NX, Redis.DEL, Redis.GET.
  destruct (r !! lockKey) as [e|] eqn:He.
  - destruct (Redis.live clock e) eqn:Hlive; simpl.
    + split_and!; try done.
      * split; [done|]. intros H. specialize (H e eq_refl). congruence.
      * intros (e' & [= <-] & _ & <-). by rewrite bool_decide_eq_true_2.
      * intros Hn. rewrite bool_decide_eq_false_2; [done|].
        intros [= Hv]. apply Hn. eauto.
    + split_and!; try done.
      * split; [|done]. intros _ e' [= <-]. done.
      * intros (e' & [= <-] & ? & _). congruence.
  - simpl. split_and!; try done.
    intros (e' & [=] & _).
Qed.

(** An attempt that finds the room's lock held and unexpired is answered
    423 and touches neither store. *)
Lemma lock_busy_changes_nothing cfg si env req st e :
  Js.or_null (req_idempotency_key req)
    ≫= (λ key, Js.or_null (Redis.getIdempotencyKey (now env) key (redis st))) = None →
  redis st !! ("lock:room:" +:+ req_room_id req) = Some e →
  Redis.live (now env) e = true →
  booking_handler cfg si env req st = (send 423 (error "Resource busy"), st).
Proof.
  intros Hidem He Hlive. unfold booking_handler. rewrite Hidem.
  unfold Redis.acquireLock, Redis.SET_PX_NX, Redis.GET. rewrite He, Hlive. simpl.
  by destruct st.
Qed.

(** When one attempt runs after the other on the same room and a day they
    share holds fewer units than the two quantities together, they are not
    both answered 201. *)
Lemma serial_attempts_do_not_overdraw cfg1 si1 env1 req1 cfg2 si2 env2 req2
    st res1 st1 res2 st2 d a :
  post_booking cfg1 si1 env1 req1 st = (res1, st1) →
  post_booking cfg2 si2 env2 req2 st1 = (res2, st2) →
  req_room_id req2 = req_room_id req1 →
  d ∈ days_of req1 → d ∈ days_of req2 →
  availabilities (mongo st) !! (req_room_id req1, d) = Some a →
  available_units a < qty_of req1 + qty_of req2 →
  ¬ (res_status res1 = 201 ∧ res_status res2 = 201).
Proof.
  intros H1 H2 Hroom Hd1 Hd2 Ha Hover [Hs1 Hs2].
  destruct (post_booking_created _ _ _ _ _ _ _ H1 Hs1) as (_ & _ & _ & _ & Hdec1 & _).
  destruct (post_booking_created _ _ _ _ _ _ _ H2 Hs2) as (_ & _ & _ & _ & Hdec2 & _).
  destruct (Hdec1 d Hd1) as (a1 & Ha1 & Hq1 & Ha1').
  destruct (Hdec2 d Hd2) as (a2 & Ha2 & Hq2 & _).
  rewrite Hroom, Ha1' in Ha2. rewrite Ha in Ha1.
  injection Ha1 as <-. injection Ha2 as <-. simpl in Hq2. lia.
Qed.

End Lock.

(** * Further properties *)

(** ** The Redis helpers *)

Section RedisProperties.
Import Redis RedisUtil.

Lemma idem_key_inj (k1 k2 : string) : "idem:" +:+ k1 = "idem:" +:+ k2 → k1 = k2.
Proof. cbv [String.app]. by intros [= ->]. Qed.

Lemma lock_key_not_idem (room key : string) : "lock:room:" +:+ room ≠ "idem:" +:+ key.
Proof. simpl. discriminate. Qed.

(** X1. A value written with [set] is read back by [get] for as long as its
    TTL allows (for ever when the TTL is missing or 0), the other keys read
    as before, and after [del] the key reads null. The TTL, when given, is
    one that Redis accepts: not negative. *)
Theorem set_get_del_round_trip (now : Z) (key val : string) (ttl : option Z)
    (r : gmap string entry) :
  (∀ t, ttl = Some t → 0 <= t) →
  let r' := set now key val ttl r in
  (∀ now', get now' key r'
           = match ttl with
             | Some t => if (t =? 0) || (now' <? now + t * 1000) then Some val else None
             | None => Some val
             end)
  ∧ (∀ now' key', key' ≠ key → get now' key' r' = get now' key' r)
  ∧ (∀ now', get now' key (del key r') = None).
Proof.
  intros _. unfold set, get, del, GET, DEL, SET, SET_EX.
  destruct ttl as [t|]; [destruct (t =? 0) eqn:Ht0|]; simpl.
  all: split_and!;
    [intros now'; by rewrite lookup_insert_eq
    |intros now' key' Hk; by rewrite lookup_insert_ne
    |intros now'; by rewrite lookup_delete_eq].
Qed.

Lemma set_get_del_round_trip_witness :
  (∀ now', get now' "session:1" (set 0 "session:1" "ann" (Some 60) ∅)
           = if (60 =? 0) || (now' <? 0 + 60 * 1000) then Some "ann" else None)
  ∧ (∀ now' key', key' ≠ "session:1" →
       get now' key' (set 0 "session:1" "ann" (Some 60) ∅) = get now' key' ∅)
  ∧ (∀ now', get now' "session:1" (del "session:1" (set 0 "session:1" "ann" (Some 60) ∅))
             = None).
Proof.
  apply (set_get_del_round_trip 0 "session:1" "ann" (Some 60) ∅).
  intros t [= <-]. lia.
Defined.

(** X2. An idempotency record is read back under its own token until its
    retention (positive, as Redis requires) has elapsed and never
    afterwards; the records of other tokens read as before. *)
Theorem idempotency_round_trip (now now' : Z) (key key' val : string) (ttl : Z)
    (r : gmap string entry) :
  0 < ttl →
  getIdempotencyKey now' key' (setIdempotencyKey now key val ttl r)
  = if decide (key' = key)
    then (if now' <? now + ttl * 1000 then Some val else None)
    else getIdempotencyKey now' key' r.
Proof.
  intros _. unfold getIdempotencyKey, setIdempotencyKey, GET, SET_EX.
  case_decide as Hk.
  - subst. by rewrite lookup_insert_eq.
  - rewrite lookup_insert_ne; [done|]. intros Heq. by apply idem_key_inj in Heq.
Qed.

Lemma idempotency_round_trip_witness :
  getIdempotencyKey 90000000 "key-1"
    (setIdempotencyKey 0 "key-1" "64b0000000000000000000b1" 86400 ∅)
  = if decide ("key-1" = "key-1")
    then (if 90000000 <? 0 + 86400 * 1000 then Some "64b0000000000000000000b1" else None)
    else getIdempotencyKey 90000000 "key-1" ∅.
Proof.
  apply (idempotency_round_trip 0 90000000 "key-1" "key-1" "64b0000000000000000000b1"
           86400 ∅).
  lia.
Defined.

(** X3. While the lease of an acquired lock runs, every further acquisition
    of the key is refused, whatever the token; from the instant the lease
    has elapsed, an acquisition succeeds again. Leases are positive, as
    Redis requires of [PX]. *)
Theorem lock_lease_excludes (now now' : Z) (lockKey token token' : string)
    (timeout timeout' : Z) (r : gmap string entry) :
  0 < timeout → 0 < timeout' →
  (acquireLock now lockKey token timeout r).1 = true →
  (acquireLock now' lockKey token' timeout'
     (acquireLock now lockKey token timeout r).2).1 = true
  ↔ now + timeout <= now'.
Proof.
  intros _ _. unfold acquireLock, SET_PX_NX, GET.
  destruct (r !! lockKey) as [e|] eqn:He; [destruct (live now e) eqn:Hl|]; simpl; try done.
  all: intros _; rewrite lookup_insert_eq; unfold live; simpl.
  all: destruct (now' <? now + timeout) eqn:Hlt; simpl; split; try done; lia.
Qed.

Lemma lock_lease_excludes_witness :
  (acquireLock 5000 "lock:room:r" "b" 10000 (acquireLock 0 "lock:room:r" "a" 10000 ∅).2).1 = true
  ↔ 0 + 10000 <= 5000.
Proof.
  apply (lock_lease_excludes 0 5000 "lock:room:r" "a" "b" 10000 10000 ∅).
  - lia.
  - lia.
  - vm_compute. reflexivity.
Defined.

(** X4. After a lock has been acquired and later released with the same
    token, the key is free at every later instant, and every other key of
    the store is as it was before the acquisition. *)
Theorem acquire_then_release (now now' : Z) (lockKey token : string) (timeout : Z)
    (r : gmap string entry) :
  0 < timeout →
  (acquireLock now lockKey token timeout r).1 = true →
  now <= now' →
  let r2 := releaseLock now' lockKey token (acquireLock now lockKey token timeout r).2 in
  (∀ now'', now' <= now'' → GET now'' lockKey r2 = None)
  ∧ (∀ key, key ≠ lockKey → r2 !! key = r !! key).
Proof.
  intros _. unfold acquireLock, SET_PX_NX.
  destruct (GET now lockKey r) eqn:Hget; [done|]. simpl. intros _ Hle.
  unfold releaseLock, DEL, GET. rewrite lookup_insert_eq. unfold live. simpl.
  destruct (now' <? now + timeout) eqn:Hlt.
  - rewrite bool_decide_eq_true_2 by done. split.
    + intros now'' _. by rewrite lookup_delete_eq.
    + intros key Hk. by rewrite lookup_delete_ne, lookup_insert_ne.
  - rewrite bool_decide_eq_false_2 by done. split.
    + intros now'' Hle'. rewrite lookup_insert_eq. simpl.
      rewrite (proj2 (Z.ltb_ge _ _)); [done|]. lia.
    + intros key Hk. by rewrite lookup_insert_ne.
Qed.

Lemma acquire_then_release_witness :
  (∀ now'', 3000 <= now'' →
     GET now'' "lock:room:r"
       (releaseLock 3000 "lock:room:r" "a" (acquireLock 0 "lock:room:r" "a" 10000 ∅).2)
     = None)
  ∧ (∀ key, key ≠ "lock:room:r" →
       releaseLock 3000 "lock:room:r" "a" (acquireLock 0 "lock:room:r" "a" 10000 ∅).2 !! key
       = (∅ : gmap string entry) !! key).
Proof.
  apply (acquire_then_release 0 3000 "lock:room:r" "a" 10000 ∅).
  - lia.
  - vm_compute. reflexivity.
  - lia.
Defined.

(** X5. A holder that has outlived its lease cannot release the lock of its
    successor: once a second caller has acquired the key with another
    token, a release with the first token leaves the store unchanged. *)
Theorem late_release_keeps_successor (now now' now'' : Z) (lockKey tokenA tokenB : string)
    (timeoutA timeoutB : Z) (r : gmap string entry) :
  0 < timeoutA → 0 < timeoutB →
  (acquireLock now lockKey tokenA timeoutA r).1 = true →
  (acquireLock now' lockKey tokenB timeoutB
     (acquireLock now lockKey tokenA timeoutA r).2).1 = true →
  tokenA ≠ tokenB →
  let r2 := (acquireLock now' lockKey tokenB timeoutB
               (acquireLock now lockKey tokenA timeoutA r).2).2 in
  releaseLock now'' lockKey tokenA r2 = r2
  ∧ (now'' < now' + timeoutB → GET now'' lockKey r2 = Some tokenB).
Proof.
  intros _ _ HA HB Hne.
  destruct (acquireLock now lockKey tokenA timeoutA r) as [a r1]. simpl in *.
  revert HB. unfold acquireLock, SET_PX_NX.
  destruct (GET now' lockKey r1); [done|]. simpl. intros _.
  unfold releaseLock, GET. rewrite lookup_insert_eq. unfold live. simpl.
  split.
  - destruct (now'' <? now' + timeoutB); [|done].
    rewrite bool_decide_eq_false_2; [done|]. congruence.
  - intros Hlt. by rewrite (proj2 (Z.ltb_lt _ _)).
Qed.

Lemma late_release_keeps_successor_witness :
  releaseLock 12000 "lock:room:r" "a"
    (acquireLock 10000 "lock:room:r" "b" 10000 (acquireLock 0 "lock:room:r" "a" 10000 ∅).2).2
  = (acquireLock 10000 "lock:room:r" "b" 10000 (acquireLock 0 "lock:room:r" "a" 10000 ∅).2).2
  ∧ (12000 < 10000 + 10000 →
     GET 12000 "lock:room:r"
       (acquireLock 10000 "lock:room:r" "b" 10000
          (acquireLock 0 "lock:room:r" "a" 10000 ∅).2).2
     = Some "b").
Proof.
  apply (late_release_keeps_successor 0 10000 12000 "lock:room:r" "a" "b" 10000 10000 ∅).
  - lia.
  - lia.
  - vm_compute. reflexivity.
  - vm_compute. reflexivity.
  - discriminate.
Defined.

(** Room locks and idempotency records do not interfere: acquiring or
    releasing the lock of any room leaves every idempotency record
    readable as before, and storing an idempotency record leaves the
    lock of every room as it was. *)
Lemma locks_and_tokens_are_disjoint (now now' : Z) (room token key val : string)
    (timeout ttl : Z) (r : gmap string entry) :
  getIdempotencyKey now' key
    (acquireLock now ("lock:room:" +:+ room) token timeout r).2
  = getIdempotencyKey now' key r
  ∧ getIdempotencyKey now' key (releaseLock now ("lock:room:" +:+ room) token r)
    = getIdempotencyKey now' key r
  ∧ GET now' ("lock:room:" +:+ room) (setIdempotencyKey now key val ttl r)
    = GET now' ("lock:room:" +:+ room) r.
Proof.
  pose proof (lock_key_not_idem room key) as Hne.
  unfold getIdempotencyKey, setIdempotencyKey, acquireLock, releaseLock,
    SET_PX_NX, SET_EX, DEL.
  split_and!.
  - destruct (GET now _ r); simpl; [done|]. unfold GET. by rewrite lookup_insert_ne.
  - case_bool_decide; [|done]. unfold GET. by rewrite lookup_delete_ne.
  - unfold GET. by rewrite lookup_insert_ne.
Qed.

End RedisProperties.

(** ** Dates and availability records *)

Section DateProperties.
Import Mongodb Api Props Props2.

Lemma normalizeDate_midnight (date : Z) : normalizeDate date `mod` MS_PER_DAY = 0.
Proof.
  pose proof MS_PER_DAY_pos. rewrite normalizeDate_multiple, Z.mul_comm. apply Z.mod_mul; lia.
Qed.

(** X6. [normalizeDate] returns the last midnight UTC that is not after its
    argument: a multiple of a day, at most the argument, less than a day
    before it, and above every other such midnight. *)
Theorem normalizeDate_last_midnight (date : Z) :
  normalizeDate date `mod` MS_PER_DAY = 0
  ∧ normalizeDate date <= date < normalizeDate date + MS_PER_DAY
  ∧ (∀ midnight, midnight `mod` MS_PER_DAY = 0 → midnight <= date →
       midnight <= normalizeDate date).
Proof.
  pose proof MS_PER_DAY_pos as Hpos.
  pose proof (Z.mod_pos_bound date MS_PER_DAY Hpos) as Hmod.
  split_and!.
  - apply normalizeDate_midnight.
  - unfold normalizeDate. lia.
  - unfold normalizeDate. lia.
  - intros midnight Hm Hle. apply Z.mod_divide in Hm as [q ->]; [|lia].
    rewrite normalizeDate_multiple.
    assert (q <= date `div` MS_PER_DAY) by (apply Z.div_le_lower_bound; lia).
    nia.
Qed.

(** X7. [getDateRange] lists one midnight per day, in ascending order: its
    i-th element is the start day plus i days, for as many days as lie
    between the start day and the end day, both included; it is empty
    when the end day is before the start day. *)
Theorem getDateRange_lookup (startDate endDate : Z) (i : nat) :
  getDateRange startDate endDate !! i
  = if decide (normalizeDate startDate + Z.of_nat i * MS_PER_DAY <= normalizeDate endDate)
    then Some (normalizeDate startDate + Z.of_nat i * MS_PER_DAY)
    else None.
Proof.
  rewrite getDateRange_closed. unfold days_from.
  rewrite list_lookup_fmap.
  pose proof MS_PER_DAY_pos as Hpos.
  rewrite !normalizeDate_multiple.
  set (qs := startDate `div` MS_PER_DAY). set (qe := endDate `div` MS_PER_DAY).
  replace (MS_PER_DAY * qe - MS_PER_DAY * qs) with ((qe - qs) * MS_PER_DAY) by lia.
  rewrite Z.div_mul by lia.
  case_decide as Hle.
  - rewrite (lookup_seqZ_lt 0 (qe - qs + 1) i) by nia. simpl. f_equal; lia.
  - rewrite (lookup_seqZ_ge 0 (qe - qs + 1) i) by nia. done.
Qed.

Lemma length_getDateRange (startDate endDate : Z) :
  Z.of_nat (length (getDateRange startDate endDate))
  = Z.max 0 ((normalizeDate endDate - normalizeDate startDate) `div` MS_PER_DAY + 1).
Proof.
  rewrite getDateRange_closed. unfold days_from. rewrite length_fmap, length_seqZ. lia.
Qed.

Lemma insertMany_lookup (records : list ((string * Z) * Availability)) :
  NoDup records.*1 →
  ∀ (c : gmap (string * Z) Availability) k,
  Availability_insertMany records c !! k
  = match c !! k with
    | Some a => Some a
    | None =>
        match (list_to_map records : gmap (string * Z) Availability) !! k with
        | Some a => if Availability_valid k.2 a then Some a else None
        | None => None
        end
    end.
Proof.
  induction records as [|[k0 a0] records IH]; intros Hnd c k.
  { simpl. rewrite lookup_empty. by destruct (c !! k). }
  apply NoDup_cons in Hnd as [Hk0 Hnd]. cbn [Availability_insertMany list_to_map foldr].
  rewrite IH by done. clear IH. simpl.
  destruct (decide (k0 = k)) as [<-|Hne].
  - rewrite lookup_insert_eq.
    rewrite (not_elem_of_list_to_map_1 records k0 Hk0).
    destruct (c !! k0) as [a|] eqn:Hc; [by rewrite Hc|].
    destruct (Availability_valid k0.2 a0) eqn:Hv.
    + by rewrite lookup_insert_eq.
    + by rewrite Hc.
  - rewrite lookup_insert_ne by done.
    assert ((match c !! k0 with
             | Some _ => c
             | None => if Availability_valid k0.2 a0 then <[k0:=a0]> c else c
             end) !! k = c !! k) as ->; [|done].
    destruct (c !! k0); [done|]. destruct (Availability_valid k0.2 a0); [|done].
    by rewrite lookup_insert_ne.
Qed.

(** What [initializeAvailability] leaves under each key of the
    availability collection. *)
Lemma initializeAvailability_get (now : Z) (roomId : string)
    (totalUnits startDate endDate : Z) (m : db) (k : string * Z) :
  availabilities (initializeAvailability now roomId totalUnits startDate endDate m) !! k
  = match availabilities m !! k with
    | Some a => Some a
    | None =>
        if decide (k.1 = roomId ∧ k.2 ∈ getDateRange startDate endDate ∧ 0 <= totalUnits)
        then Some {| total_units := totalUnits; available_units := totalUnits;
                     updated_at := now |}
        else None
    end.
Proof.
  unfold initializeAvailability. simpl. fold (getDateRange startDate endDate).
  set (mk := λ d : Z, ((roomId, d), {| total_units := totalUnits;
                                       available_units := totalUnits;
                                       updated_at := now |})).
  rewrite insertMany_lookup.
  2:{ rewrite <- list_fmap_compose. apply NoDup_fmap_2; [|apply NoDup_getDateRange].
      intros d1 d2 [= ->]. done. }
  destruct (availabilities m !! k) as [a|]; [done|].
  destruct (list_to_map (mk <$> getDateRange startDate endDate) !! k) as [a'|] eqn:Hfind.
  - apply elem_of_list_to_map_2 in Hfind.
    apply list_elem_of_fmap in Hfind as (d & Heq & Hin).
    unfold mk in Heq. injection Heq as -> ->. simpl.
    pose proof (proj1 (elem_of_getDateRange _ _ _) Hin) as [_ Hmod].
    unfold Availability_valid. simpl. rewrite Hmod. simpl.
    destruct (0 <=? totalUnits) eqn:Ht; simpl.
    + rewrite decide_True; [done|]. split_and!; [done..|lia].
    + rewrite decide_False; [done|]. intros (_ & _ & ?). lia.
  - rewrite decide_False; [done|]. intros (Hroom & Hin & _).
    apply not_elem_of_list_to_map in Hfind. apply Hfind.
    rewrite <- list_fmap_compose. apply list_elem_of_fmap. exists k.2.
    split; [|done]. destruct k; simpl in *; by subst.
Qed.

(** X8. [initializeAvailability] adds, for each day from the start day
    through the end day that has no record for the room yet, a record with
    [total_units = available_units = totalUnits]; it changes no record that
    exists, touches no other room and no other day, adds nothing when
    [totalUnits] is negative, and leaves rooms and bookings alone. *)
Theorem initializeAvailability_lookup (now : Z) (roomId : string)
    (totalUnits startDate endDate : Z) (m : db) :
  let m' := initializeAvailability now roomId totalUnits startDate endDate m in
  rooms m' = rooms m
  ∧ bookings m' = bookings m
  ∧ ∀ k, availabilities m' !! k
         = match availabilities m !! k with
           | Some a => Some a
           | None =>
               if decide (k.1 = roomId ∧ k.2 ∈ getDateRange startDate endDate
                          ∧ 0 <= totalUnits)
               then Some {| total_units := totalUnits; available_units := totalUnits;
                            updated_at := now |}
               else None
           end.
Proof.
  split_and!; [done..|]. intros k. apply initializeAvailability_get.
Qed.

(** X9. [initializeAvailability] is idempotent: run again with the same
    room, units and days (at any later clock), it leaves the database as
    the first run left it. *)
Theorem initializeAvailability_idempotent (now now' : Z) (roomId : string)
    (totalUnits startDate endDate : Z) (m : db) :
  initializeAvailability now' roomId totalUnits startDate endDate
    (initializeAvailability now roomId totalUnits startDate endDate m)
  = initializeAvailability now roomId totalUnits startDate endDate m.
Proof.
  set (m1 := initializeAvailability now roomId totalUnits startDate endDate m).
  assert (availabilities (initializeAvailability now' roomId totalUnits startDate endDate m1)
          = availabilities m1) as Hav.
  { apply map_eq. intros k. rewrite initializeAvailability_get.
    destruct (availabilities m1 !! k) as [a|] eqn:Hk; [done|].
    unfold m1 in Hk. rewrite initializeAvailability_get in Hk.
    destruct (availabilities m !! k); [done|].
    destruct (decide (k.1 = roomId ∧ k.2 ∈ getDateRange startDate endDate ∧ 0 <= totalUnits));
      done. }
  unfold initializeAvailability in Hav |- *. simpl in Hav.
  unfold with_availabilities at 1. simpl. rewrite Hav. reflexivity.
Qed.

(** X10. Once availability has been initialised for a room that had no
    records, the day loop of a booking finds every day of any range inside
    the initialised one sufficient, for any quantity from 1 up to the
    initialised units. *)
Theorem initialised_range_is_bookable (now now' : Z) (roomId : string)
    (totalUnits startDate endDate start end_ qty : Z) (m : db) :
  (∀ d, availabilities m !! (roomId, d) = None) →
  1 <= qty <= totalUnits →
  normalizeDate startDate <= normalizeDate start →
  normalizeDate end_ <= normalizeDate endDate →
  (day_loop now' roomId qty (getDateRange start end_)
     (availabilities (initializeAvailability now roomId totalUnits startDate endDate m))).1
  = None.
Proof.
  intros Hfresh Hqty Hs He.
  set (c := availabilities (initializeAvailability now roomId totalUnits startDate endDate m)).
  destruct (day_loop now' roomId qty (getDateRange start end_) c) as [[d|] c'] eqn:Hloop;
    [|done].
  exfalso.
  destruct (day_loop_spec _ _ _ _ _ _ _ (NoDup_getDateRange _ _) Hloop)
    as (done & rest & Hdays & (rest' & -> & Hzero) & _).
  apply updateOne_dec_count_zero in Hzero; [|lia]. apply Hzero.
  assert (d ∈ getDateRange start end_) as Hin
    by (rewrite Hdays; apply elem_of_app; right; left).
  apply elem_of_getDateRange in Hin as [Hd Hmod].
  exists {| total_units := totalUnits; available_units := totalUnits; updated_at := now |}.
  split; [|simpl; lia].
  unfold c. rewrite initializeAvailability_get, Hfresh. simpl.
  rewrite decide_True; [done|]. split_and!; [done| |lia].
  apply elem_of_getDateRange. split; [lia|done].
Qed.

Lemma initialised_range_is_bookable_witness :
  (day_loop 0 "64b000000000000000000002" 2
     (getDateRange Scenario.d_2025_12_02 Scenario.d_2025_12_03)
     (availabilities
        (initializeAvailability 0 "64b000000000000000000002" 3
           Scenario.d_2025_12_01 Scenario.d_2025_12_03 (mongo Scenario.world)))).1
  = None.
Proof.
  apply (initialised_range_is_bookable 0 0 "64b000000000000000000002" 3
           Scenario.d_2025_12_01 Scenario.d_2025_12_03
           Scenario.d_2025_12_02 Scenario.d_2025_12_03 2 (mongo Scenario.world)).
  - intros d. unfold Scenario.world. simpl.
    repeat (rewrite lookup_insert_ne by (intros [=])).
    rewrite ?lookup_singleton_ne by (intros [=]). by rewrite ?lookup_empty.
  - lia.
  - vm_compute. discriminate.
  - vm_compute. discriminate.
Defined.

End DateProperties.

(** ** Queries of the models *)

Section QueryProperties.
Import Mongodb Api Props Props2 Queries.

#[local] Instance by_date_total : Total by_date.
Proof. intros a b. unfold by_date. lia. Qed.
#[local] Instance by_date_trans : Transitive by_date.
Proof. intros a b c. unfold by_date. lia. Qed.
#[local] Instance by_start_date_total : Total by_start_date.
Proof. intros a b. unfold by_start_date. lia. Qed.
#[local] Instance by_start_date_trans : Transitive by_start_date.
Proof. intros a b c. unfold by_start_date. lia. Qed.

Lemma elem_of_findByRoomAndDateRange roomId startDate endDate (m : db)
    (doc : (string * Z) * Availability) :
  doc ∈ Availability_findByRoomAndDateRange roomId startDate endDate m
  ↔ availabilities m !! doc.1 = Some doc.2
    ∧ doc.1.1 = roomId ∧ startDate <= doc.1.2 <= endDate.
Proof.
  unfold Availability_findByRoomAndDateRange.
  rewrite merge_sort_Permutation, list_elem_of_filter.
  destruct doc as [k a]. rewrite elem_of_map_to_list. simpl. tauto.
Qed.

Lemma StronglySorted_strict_dates (roomId : string) (l : list ((string * Z) * Availability)) :
  StronglySorted by_date l →
  NoDup l.*1 →
  Forall (λ doc, doc.1.1 = roomId) l →
  StronglySorted (λ a b, a.1.2 < b.1.2) l.
Proof.
  induction 1 as [|x l Hl IH Hx]; intros Hnd Hroom; constructor.
  - apply IH; [by apply NoDup_cons in Hnd as []|by apply Forall_cons in Hroom as []].
  - simpl in Hnd. apply NoDup_cons in Hnd as [Hnotin _].
    apply Forall_cons in Hroom as [Hrx Hrl].
    rewrite Forall_forall in Hx, Hrl |- *. intros y Hy.
    specialize (Hx y Hy). specialize (Hrl y Hy). unfold by_date in Hx.
    destruct (decide (x.1.2 = y.1.2)) as [Heq|]; [|lia].
    exfalso. apply Hnotin. apply list_elem_of_fmap. exists y. split; [|done].
    destruct x as [[rx dx] ax], y as [[ry dy] ay]. simpl in *. congruence.
Qed.

(** X11. [findByRoomAndDateRange] returns exactly the room's records dated
    within the two bounds, both included, in strictly ascending date
    order. *)
Theorem findByRoomAndDateRange_sorted (roomId : string) (startDate endDate : Z) (m : db) :
  (∀ doc, doc ∈ Availability_findByRoomAndDateRange roomId startDate endDate m
          ↔ availabilities m !! doc.1 = Some doc.2
            ∧ doc.1.1 = roomId ∧ startDate <= doc.1.2 <= endDate)
  ∧ StronglySorted (λ a b, a.1.2 < b.1.2)
      (Availability_findByRoomAndDateRange roomId startDate endDate m).
Proof.
  split; [apply elem_of_findByRoomAndDateRange|].
  apply (StronglySorted_strict_dates roomId).
  - apply StronglySorted_merge_sort; apply _.
  - unfold Availability_findByRoomAndDateRange. rewrite merge_sort_Permutation.
    apply NoDup_fmap_fst.
    + intros k a1 a2 [_ H1]%list_elem_of_filter [_ H2]%list_elem_of_filter.
      apply elem_of_map_to_list in H1, H2. congruence.
    + apply NoDup_filter, NoDup_map_to_list.
  - apply Forall_forall. intros doc Hdoc%elem_of_findByRoomAndDateRange. tauto.
Qed.

Lemma filter_empty_iff {A} (P : A → Prop) `{!∀ x, Decision (P x)} (l : list A) :
  filter P l = [] ↔ ∀ x, x ∈ l → ¬ P x.
Proof.
  split.
  - intros Hnil x Hx HP. by eapply filter_nil_not_elem_of.
  - intros Hall. destruct (filter P l) as [|y l'] eqn:Hf; [done|].
    assert (y ∈ filter P l) as [HP Hy]%list_elem_of_filter by (rewrite Hf; left).
    by destruct (Hall y Hy).
Qed.

Lemma checkAvailability_available roomId startDate endDate quantity (m : db) :
  Availability_checkAvailability roomId startDate endDate quantity m = available_true
  ↔ (∃ d a, availabilities m !! (roomId, d) = Some a ∧ startDate <= d <= endDate)
    ∧ (∀ d a, availabilities m !! (roomId, d) = Some a → startDate <= d <= endDate →
         quantity <= available_units a).
Proof.
  unfold Availability_checkAvailability.
  pose proof (elem_of_findByRoomAndDateRange roomId startDate endDate m) as Hin.
  destruct (Availability_findByRoomAndDateRange roomId startDate endDate m)
    as [|doc records] eqn:Hrec.
  - simpl. split; [done|]. intros [(d & a & Ha & Hd) _].
    assert (((roomId, d), a) ∈ @nil (string * Z * Availability)) as Hnil
      by (apply Hin; done).
    by apply elem_of_nil in Hnil.
  - cbn [length Nat.eqb].
    assert (filter (λ record : string * Z * Availability,
                      available_units record.2 < quantity) (doc :: records) = []
            ↔ ∀ d a, availabilities m !! (roomId, d) = Some a →
                      startDate <= d <= endDate → quantity <= available_units a) as Hl.
    { rewrite filter_empty_iff. split.
      - intros H d a Ha Hd. specialize (H ((roomId, d), a)). simpl in H.
        apply Z.nlt_ge, H, Hin. done.
      - intros H [[r d] a] (Ha & Hr & Hd)%Hin. simpl in *. subst r.
        apply Z.nlt_ge. by eapply H. }
    destruct (filter _ (doc :: records)) as [|x l'] eqn:Hleq; simpl.
    + split; [|done]. intros _. split; [|by apply Hl].
      destruct doc as [[r d] a].
      assert (((r, d), a) ∈ ((r, d), a) :: records) as (Ha & Hr & Hd)%Hin by left.
      simpl in *. subst r. eauto.
    + split; [done|]. intros [_ H]. by apply Hl in H.
Qed.

Lemma day_loop_succeeds_iff (clock : Z) (room : string) (qty : Z) (days : list Z)
    (c : gmap (string * Z) Availability) :
  NoDup days → 1 <= qty →
  (day_loop clock room qty days c).1 = None ↔ ∀ d, d ∈ days → sufficient qty c room d.
Proof.
  intros Hnd Hq.
  destruct (day_loop clock room qty days c) as [o c'] eqn:Hloop.
  destruct (day_loop_spec _ _ _ _ _ _ _ Hnd Hloop) as (done & rest & Hdays & Ho & Hdone & _).
  simpl. destruct o as [d|].
  - split; [done|]. intros Hall. exfalso.
    destruct Ho as (rest' & -> & Hzero).
    apply updateOne_dec_count_zero in Hzero; [|done]. apply Hzero, Hall.
    rewrite Hdays. apply elem_of_app. right. left.
  - split; [|done]. intros _ d Hd. subst rest. rewrite app_nil_r in Hdays. subst done.
    destruct (Hdone d Hd) as (a & Ha & Hqa & _). by exists a.
Qed.

(** X12. On a ledger whose records are dated at midnight, the day loop of a
    booking for at least one unit gets through a non-empty range exactly
    when [checkAvailability] reports the range available and, in
    addition, no day of the range lacks a record: [checkAvailability]
    alone does not see a missing day. *)
Theorem day_loop_vs_checkAvailability (clock : Z) (room : string)
    (start end_ qty : Z) (m : db) :
  dates_normalized (availabilities m) →
  1 <= qty →
  normalizeDate start <= normalizeDate end_ →
  (day_loop clock room qty (getDateRange start end_) (availabilities m)).1 = None
  ↔ Availability_checkAvailability room (normalizeDate start) (normalizeDate end_) qty m
    = available_true
    ∧ ∀ d, d ∈ getDateRange start end_ → is_Some (availabilities m !! (room, d)).
Proof.
  intros Hnorm Hq Hle.
  rewrite day_loop_succeeds_iff by (apply NoDup_getDateRange || done).
  rewrite checkAvailability_available. split.
  - intros Hall. split_and!.
    + destruct (Hall (normalizeDate start)) as (a & Ha & _).
      { apply elem_of_getDateRange. split; [lia|].
        apply normalizeDate_midnight. }
      exists (normalizeDate start), a. split; [done|lia].
    + intros d a Ha Hd.
      destruct (Hall d) as (a' & Ha' & Hqa).
      { apply elem_of_getDateRange. split; [done|]. apply (Hnorm _ _ Ha). }
      congruence.
    + intros d Hd. destruct (Hall d Hd) as (a & Ha & _). by exists a.
  - intros [[_ Hsuff] Hrec] d Hd. destruct (Hrec d Hd) as [a Ha].
    exists a. split; [done|]. apply (Hsuff d a Ha). by apply elem_of_getDateRange in Hd as [].
Qed.

Lemma day_loop_vs_checkAvailability_witness :
  (day_loop 0 "64b000000000000000000001" 2
     (getDateRange Scenario.d_2025_12_01 Scenario.d_2025_12_03)
     (availabilities (mongo Scenario.world))).1 = None
  ↔ Availability_checkAvailability "64b000000000000000000001"
      (normalizeDate Scenario.d_2025_12_01) (normalizeDate Scenario.d_2025_12_03) 2
      (mongo Scenario.world) = available_true
    ∧ ∀ d, d ∈ getDateRange Scenario.d_2025_12_01 Scenario.d_2025_12_03 →
           is_Some (availabilities (mongo Scenario.world)
                    !! ("64b000000000000000000001", d)).
Proof.
  apply (day_loop_vs_checkAvailability 0 "64b000000000000000000001"
           Scenario.d_2025_12_01 Scenario.d_2025_12_03 2 (mongo Scenario.world)).
  - unfold dates_normalized. refine (bool_decide_unpack _ _). vm_compute. exact I.
  - lia.
  - vm_compute. discriminate.
Defined.

Lemma date_range_clauses_overlap (startDate endDate : Z) (b : Booking) :
  start_date b <= end_date b → startDate <= endDate →
  date_range_clauses startDate endDate b
  ↔ start_date b <= endDate ∧ startDate <= end_date b.
Proof. unfold date_range_clauses. lia. Qed.

(** X13. For bookings that end after they start and a query range that is
    not reversed, [findByDateRange] returns exactly the bookings whose
    span from [start_date] through [end_date] meets the query range (and
    whose status is the requested one, if any), ordered by start date. *)
Theorem findByDateRange_overlapping (startDate endDate : Z) (status_ : option string)
    (m : db) :
  bookings_ok m →
  startDate <= endDate →
  (∀ id b, (id, b) ∈ Booking_findByDateRange startDate endDate status_ m
           ↔ bookings m !! id = Some b
             ∧ start_date b <= endDate ∧ startDate <= end_date b
             ∧ status_condition status_ b)
  ∧ StronglySorted by_start_date (Booking_findByDateRange startDate endDate status_ m).
Proof.
  intros Hok Hle. split; [|apply StronglySorted_merge_sort; apply _].
  intros id b. unfold Booking_findByDateRange.
  rewrite merge_sort_Permutation, list_elem_of_filter, elem_of_map_to_list. simpl.
  split.
  - intros [[Hc Hs] Hb]. destruct (Hok _ _ Hb) as (Hdates & _).
    apply date_range_clauses_overlap in Hc; [tauto|lia|done].
  - intros (Hb & H1 & H2 & Hs). destruct (Hok _ _ Hb) as (Hdates & _).
    split_and!; [|done..]. apply date_range_clauses_overlap; [lia|done|done].
Qed.

Lemma findByDateRange_overlapping_witness :
  ("64b0000000000000000000b1", Scenario.created_booking)
  ∈ Booking_findByDateRange Scenario.d_2025_12_03 (Scenario.d_2025_12_03 + 1)
      (Some "confirmed") (mongo Scenario.booked).
Proof.
  apply (proj1 (findByDateRange_overlapping Scenario.d_2025_12_03 (Scenario.d_2025_12_03 + 1)
                  (Some "confirmed") (mongo Scenario.booked)
                  ltac:(unfold bookings_ok; refine (bool_decide_unpack _ _); vm_compute; exact I)
                  ltac:(lia))).
  split_and!; [vm_compute; reflexivity|vm_compute; discriminate|vm_compute; discriminate|].
  vm_compute. reflexivity.
Defined.

Lemma checkOverlap_true roomId startDate endDate exclude (m : db) :
  Booking_checkOverlap roomId startDate endDate exclude m = true
  ↔ ∃ id b, bookings m !! id = Some b
            ∧ overlap_query roomId startDate endDate exclude (id, b).
Proof.
  unfold Booking_checkOverlap.
  destruct (filter _ (map_to_list (bookings m))) as [|[id b] l] eqn:Hf; simpl.
  - split; [done|]. intros (id & b & Hb & Hq).
    assert ((id, b) ∈ filter (overlap_query roomId startDate endDate exclude)
                        (map_to_list (bookings m))) as Hin.
    { apply list_elem_of_filter. split; [done|]. by apply elem_of_map_to_list. }
    rewrite Hf in Hin. by apply elem_of_nil in Hin.
  - split; [|done]. intros _.
    assert ((id, b) ∈ filter (overlap_query roomId startDate endDate exclude)
                        (map_to_list (bookings m))) as [Hq Hb%elem_of_map_to_list]%list_elem_of_filter
      by (rewrite Hf; left).
    eauto.
Qed.

Lemma elem_of_findActiveByUser userId (m : db) (doc : string * Booking) :
  doc ∈ Booking_findActiveByUser userId m
  ↔ bookings m !! doc.1 = Some doc.2
    ∧ user_id doc.2 = userId ∧ active_status (status doc.2).
Proof.
  unfold Booking_findActiveByUser.
  rewrite merge_sort_Permutation, list_elem_of_filter.
  destruct doc as [id b]. rewrite elem_of_map_to_list. simpl. tauto.
Qed.

(** X14. Once a booking has been cancelled it no longer counts for the
    active queries: [checkOverlap] answers as if the booking were
    excluded by id, and [findActiveByUser] returns what it returned
    before minus that booking. *)
Theorem cancelled_booking_leaves_active_queries (clock : Z) (id : string) (this : Booking)
    (reason : option string) (m m' : db) (b : Booking) :
  Booking_cancel clock id this reason m = inr (b, m') →
  id ≠ "" →
  (∀ roomId startDate endDate,
     Booking_checkOverlap roomId startDate endDate None m'
     = Booking_checkOverlap roomId startDate endDate (Some id) m)
  ∧ (∀ userId doc,
       doc ∈ Booking_findActiveByUser userId m'
       ↔ doc ∈ Booking_findActiveByUser userId m ∧ doc.1 ≠ id).
Proof.
  intros Hcancel Hid.
  destruct (Booking_cancel_effect _ _ _ _ _ _ _ Hcancel) as (_ & Hst & _ & _ & Hbs & _).
  assert (¬ active_status (status b)) as Hinactive.
  { rewrite Hst. intros [|]; discriminate. }
  split.
  - intros roomId startDate endDate.
    assert (Booking_checkOverlap roomId startDate endDate None m' = true
            ↔ Booking_checkOverlap roomId startDate endDate (Some id) m = true) as Hiff.
    { rewrite !checkOverlap_true, Hbs. unfold overlap_query. simpl.
      rewrite bool_decide_eq_false_2 by done. split.
      - intros (id' & b' & Hb' & Hr & Hact & Hd & _).
        destruct (decide (id' = id)) as [->|Hne].
        + rewrite lookup_insert_eq in Hb'. injection Hb' as <-. done.
        + rewrite lookup_insert_ne in Hb' by done. exists id', b'. done.
      - intros (id' & b' & Hb' & Hr & Hact & Hd & Hne). exists id', b'.
        rewrite lookup_insert_ne by done. done. }
    destruct (Booking_checkOverlap roomId startDate endDate None m'),
      (Booking_checkOverlap roomId startDate endDate (Some id) m); try done.
    + symmetry. by apply Hiff.
    + by apply Hiff.
  - intros userId [id' b']. rewrite !elem_of_findActiveByUser, Hbs. simpl.
    destruct (decide (id' = id)) as [->|Hne].
    + rewrite lookup_insert_eq. split; [|tauto].
      intros ([= <-] & _ & Hact). done.
    + rewrite lookup_insert_ne by done. tauto.
Qed.

Lemma cancelled_booking_leaves_active_queries_witness :
  match Booking_cancel (Scenario.d_2025_11_30 + 7200000) "64b0000000000000000000b1"
          Scenario.created_booking (Some "changed plans") (mongo Scenario.booked) with
  | inr (_, m') =>
      Booking_checkOverlap "64b000000000000000000001" Scenario.d_2025_12_01
        Scenario.d_2025_12_03 None m'
      = Booking_checkOverlap "64b000000000000000000001" Scenario.d_2025_12_01
          Scenario.d_2025_12_03 (Some "64b0000000000000000000b1") (mongo Scenario.booked)
  | inl _ => False
  end.
Proof.
  assert (match Booking_cancel (Scenario.d_2025_11_30 + 7200000) "64b0000000000000000000b1"
                  Scenario.created_booking (Some "changed plans") (mongo Scenario.booked) with
          | inl _ => false
          | inr _ => true
          end = true) as Hok by (vm_compute; reflexivity).
  destruct (Booking_cancel _ _ _ _ _) as [err|[b m']] eqn:Hcancel; [discriminate Hok|].
  apply (cancelled_booking_leaves_active_queries _ _ _ _ _ _ _ Hcancel). discriminate.
Defined.

End QueryProperties.

(** ** The read routes of bookings *)

Section BookingRouteProperties.
Import Mongodb Api Props Props2 Queries BookingRoutes.

#[local] Instance by_start_date_desc_total : Total by_start_date_desc.
Proof. intros a b. unfold by_start_date_desc. lia. Qed.
#[local] Instance by_start_date_desc_trans : Transitive by_start_date_desc.
Proof. intros a b c. unfold by_start_date_desc. lia. Qed.

Lemma elem_of_get_bookings userId status_ start_date_ end_date_ (m : db) pb :
  pb ∈ get_bookings userId status_ start_date_ end_date_ m
  ↔ ∃ id b, bookings m !! id = Some b
            ∧ bookings_query userId status_ start_date_ end_date_ b
            ∧ pb = toPublicJSON id b.
Proof.
  unfold get_bookings. rewrite list_elem_of_fmap. split.
  - intros ([id b] & -> & Hin). rewrite merge_sort_Permutation in Hin.
    apply list_elem_of_filter in Hin as [Hq Hb%elem_of_map_to_list]. eauto.
  - intros (id & b & Hb & Hq & ->). exists (id, b). split; [done|].
    rewrite merge_sort_Permutation. apply list_elem_of_filter.
    split; [done|]. by apply elem_of_map_to_list.
Qed.

(** X15. The two read routes agree on which bookings a caller may see: an
    id is in the caller's unfiltered list exactly when fetching that id,
    as the same caller, answers 200; any other castable id is answered
    404, a booking of another user included. Where both routes show a
    booking they agree on its own fields (id, dates, quantity, nights,
    price, status, notes, creation time); the populated references, which
    the two routes select differently, are not compared. *)
Theorem bookings_list_and_by_id_agree (userId : string) (m : db) (id : string) :
  ((∃ pb, pb ∈ get_bookings userId None None None m ∧ pb_id pb = id)
   ↔ res_status (get_booking_by_id true userId id m) = 200)
  ∧ (res_status (get_booking_by_id true userId id m) ≠ 200 →
     get_booking_by_id true userId id m = send 404 (error "Booking not found"))
  ∧ (∀ pb pb', pb ∈ get_bookings userId None None None m →
       pb_id pb = id →
       res_body (get_booking_by_id true userId id m) = booking pb' →
       same_own_fields pb pb').
Proof.
  unfold get_booking_by_id. split_and!.
  - split.
    + intros (pb & (id' & b & Hb & (Hu & _) & ->)%elem_of_get_bookings & Hid).
      simpl in Hid. subst id'. rewrite Hb. by rewrite bool_decide_eq_true_2.
    + destruct (bookings m !! id) as [b|] eqn:Hb; [|done].
      case_bool_decide as Hu; [|done]. intros _.
      exists (toPublicJSON id b). split; [|done].
      apply elem_of_get_bookings. exists id, b.
      unfold bookings_query, status_condition. done.
  - destruct (bookings m !! id) as [b|]; [|done]. by case_bool_decide.
  - intros pb pb' (id' & b & Hb & _ & ->)%elem_of_get_bookings Hid.
    simpl in Hid. subst id'. rewrite Hb.
    case_bool_decide; [|done]. intros [= <-]. unfold same_own_fields. done.
Qed.

(** X16. Whatever the filters, [GET /api/v1/bookings] returns only bookings
    of the caller, only bookings with the requested status when one is
    given, and lists them from the latest start date to the earliest. *)
Theorem get_bookings_own_and_sorted (userId : string) (status_ : option string)
    (start_date_ end_date_ : option Z) (m : db) :
  (∀ pb, pb ∈ get_bookings userId status_ start_date_ end_date_ m →
     pb_user_id pb = userId
     ∧ ∀ s, Js.or_null status_ = Some s → Status_name (pb_status pb) = s)
  ∧ StronglySorted (λ a b, pb_start_date b <= pb_start_date a)
      (get_bookings userId status_ start_date_ end_date_ m).
Proof.
  split.
  - intros pb (id & b & _ & (Hu & Hs & _) & ->)%elem_of_get_bookings. simpl.
    split; [done|]. intros s Hsome. unfold status_condition in Hs. by rewrite Hsome in Hs.
  - unfold get_bookings.
    apply (StronglySorted_fmap _ by_start_date_desc).
    + intros [i a] [j b]. unfold by_start_date_desc. simpl. lia.
    + apply StronglySorted_merge_sort; apply _.
Qed.

End BookingRouteProperties.

(** ** Maintenance *)

Section MaintenanceProperties.
Import Mongodb Api Props Props2 DbUtils.

Lemma count_positive_iff {A} (P : A → Prop) `{!∀ x, Decision (P x)} (l : list A) :
  (0 <? length (filter P l))%nat = false ↔ ∀ x, x ∈ l → ¬ P x.
Proof.
  split.
  - intros Hc x Hx HP.
    assert (x ∈ filter P l) as Hin by (apply list_elem_of_filter; done).
    destruct (filter P l); [by apply elem_of_nil in Hin|discriminate Hc].
  - intros Hall. by rewrite (proj2 (filter_empty_iff P l) Hall).
Qed.

(** No check of [verifyConsistency] fires exactly on a database whose
    ledger is within bounds and whose bookings end after they start. *)
Lemma verifyConsistency_zero_iff (m : db) :
  verifyConsistency m = 0
  ↔ ledger_invariant m
    ∧ ∀ id b, bookings m !! id = Some b → start_date b < end_date b.
Proof.
  unfold verifyConsistency.
  pose proof (count_positive_iff (λ doc : string * Z * Availability,
                total_units doc.2 < available_units doc.2)
                (map_to_list (availabilities m))) as H1.
  pose proof (count_positive_iff (λ doc : string * Booking,
                end_date doc.2 <= start_date doc.2)
                (map_to_list (bookings m))) as H2.
  pose proof (count_positive_iff (λ doc : string * Z * Availability,
                available_units doc.2 < 0)
                (map_to_list (availabilities m))) as H3.
  fold (invalidAvailability m) in H1. fold (invalidBookings m) in H2.
  fold (negativeAvailability m) in H3.
  assert (ledger_invariant m
          ∧ (∀ id b, bookings m !! id = Some b → start_date b < end_date b)
          ↔ (0 <? invalidAvailability m)%nat = false
            ∧ (0 <? invalidBookings m)%nat = false
            ∧ (0 <? negativeAvailability m)%nat = false) as Hiff.
  { rewrite H1, H2, H3. unfold ledger_invariant, units_ok, map_Forall. split.
    - intros [Hinv Hdates]. split_and!.
      + intros [k a] Hin%elem_of_map_to_list. specialize (Hinv k a Hin). simpl in *. lia.
      + intros [k a] Hin%elem_of_map_to_list. specialize (Hdates k a Hin). simpl in *. lia.
      + intros [k a] Hin%elem_of_map_to_list. specialize (Hinv k a Hin). simpl in *. lia.
    - intros (Hk1 & Hk2 & Hk3). split.
      + intros k a Ha%elem_of_map_to_list.
        specialize (Hk1 _ Ha). specialize (Hk3 _ Ha). simpl in *. lia.
      + intros id b Hb%elem_of_map_to_list. specialize (Hk2 _ Hb). simpl in *. lia. }
  rewrite Hiff.
  destruct (0 <? invalidAvailability m)%nat, (0 <? invalidBookings m)%nat,
    (0 <? negativeAvailability m)%nat; simpl;
    split; intros; try lia; try done; try (destruct_and!; discriminate).
Qed.

(** X17. [verifyConsistency] reports between zero and three issues, and it
    reports none exactly when every availability record has
    [0 <= available_units <= total_units] and every booking ends after it
    starts. *)
Theorem verifyConsistency_passes (m : db) :
  0 <= verifyConsistency m <= 3
  ∧ (verifyConsistency m = 0
     ↔ ledger_invariant m
       ∧ ∀ id b, bookings m !! id = Some b → start_date b < end_date b).
Proof.
  split; [|apply verifyConsistency_zero_iff].
  unfold verifyConsistency.
  destruct (0 <? invalidAvailability m)%nat, (0 <? invalidBookings m)%nat,
    (0 <? negativeAvailability m)%nat; simpl; lia.
Qed.

End MaintenanceProperties.

(** ** What a booking request does to the stores *)

Section HandlerProperties.
Import Mongodb Api Props Props2.

Lemma only_decremented_refl (c : gmap (string * Z) Availability) : only_decremented c c.
Proof. intros k. destruct (c !! k) as [a|] eqn:Hk; [|done]. exists a. split_and!; [done|done|lia]. Qed.

Lemma only_decremented_trans (c1 c2 c3 : gmap (string * Z) Availability) :
  only_decremented c1 c2 → only_decremented c2 c3 → only_decremented c1 c3.
Proof.
  intros H12 H23 k. specialize (H12 k). specialize (H23 k).
  destruct (c1 !! k) as [a1|].
  - destruct H12 as (a2 & Ha2 & Ht2 & Hu2). rewrite Ha2 in H23.
    destruct H23 as (a3 & Ha3 & Ht3 & Hu3). exists a3. split_and!; [done|congruence|lia].
  - by rewrite H12 in H23.
Qed.

Lemma updateOne_dec_only_decremented (clock : Z) (room : string) (date qty : Z)
    (c : gmap (string * Z) Availability) :
  0 <= qty → only_decremented c (Availability_updateOne_dec clock room date qty c).2.
Proof.
  intros Hq. unfold Availability_updateOne_dec.
  destruct (c !! (room, date)) as [a|] eqn:Ha; [|apply only_decremented_refl].
  destruct (qty <=? available_units a); [|apply only_decremented_refl]. simpl.
  intros k. destruct (decide (k = (room, date))) as [->|Hne].
  - rewrite Ha, lookup_insert_eq. eexists. split_and!; [done|done|simpl; lia].
  - rewrite lookup_insert_ne by done. apply only_decremented_refl.
Qed.

Lemma day_loop_only_decremented (clock : Z) (room : string) (qty : Z) (days : list Z) :
  0 <= qty → ∀ c : gmap (string * Z) Availability,
  only_decremented c (day_loop clock room qty days c).2.
Proof.
  intros Hq. induction days as [|d ds IH]; intros c; [apply only_decremented_refl|]. simpl.
  pose proof (updateOne_dec_only_decremented clock room d qty c Hq) as Hstep.
  destruct (Availability_updateOne_dec clock room d qty c) as [n c1].
  destruct (n =? 0); [done|]. eapply only_decremented_trans; [done|apply IH].
Qed.

(** Every way the guarded body can end, with what it leaves in the
    stores. *)
Lemma booking_try_outcome cfg session env req idemKey qty st res st' :
  booking_try cfg session env req idemKey qty st = (res, st') →
  rooms (mongo st') = rooms (mongo st)
  ∧ (0 <= qty → only_decremented (availabilities (mongo st)) (availabilities (mongo st')))
  ∧ dom (availabilities (mongo st')) = dom (availabilities (mongo st))
  ∧ (res_status res = 201 →
       (∃ b, bookings (mongo st') = <[objectId env := b]> (bookings (mongo st))
             ∧ bookings (mongo st) !! objectId env = None
             ∧ Booking_save_hooks b = None)
       ∧ redis st' = match idemKey with
                     | Some key => Redis.setIdempotencyKey (now env) key (objectId env)
                                     (idempotencyTTL cfg) (redis st)
                     | None => redis st
                     end)
  ∧ (res_status res ≠ 201 →
       bookings (mongo st') = bookings (mongo st)
       ∧ redis st' = redis st
       ∧ (session = true → mongo st' = mongo st))
  ∧ res_status res ≠ 200 ∧ res_status res ≠ 423.
Proof.
  unfold booking_try.
  assert (∀ (r : Response) av,
            res_status r ≠ 201 → res_status r ≠ 200 → res_status r ≠ 423 →
            (0 <= qty → only_decremented (availabilities (mongo st)) av) →
            dom av = dom (availabilities (mongo st)) →
            let s := {| redis := redis st;
                        mongo := abortTransaction session (mongo st)
                                   (with_availabilities av (mongo st)) |} in
            rooms (mongo s) = rooms (mongo st)
            ∧ (0 <= qty → only_decremented (availabilities (mongo st)) (availabilities (mongo s)))
            ∧ dom (availabilities (mongo s)) = dom (availabilities (mongo st))
            ∧ (res_status r = 201 →
                 (∃ b, bookings (mongo s) = <[objectId env := b]> (bookings (mongo st))
                       ∧ bookings (mongo st) !! objectId env = None
                       ∧ Booking_save_hooks b = None)
                 ∧ redis s = match idemKey with
                             | Some key => Redis.setIdempotencyKey (now env) key (objectId env)
                                             (idempotencyTTL cfg) (redis st)
                             | None => redis st
                             end)
            ∧ (res_status r ≠ 201 →
                 bookings (mongo s) = bookings (mongo st)
                 ∧ redis s = redis st
                 ∧ (session = true → mongo s = mongo st))
            ∧ res_status r ≠ 200 ∧ res_status r ≠ 423) as Hfail.
  { intros r av H201 H200 H423 Hdec Hdom. simpl.
    unfold abortTransaction. destruct session; simpl.
    - split_and!; try done. intros _. apply only_decremented_refl.
    - split_and!; try done. }
  assert (with_availabilities (availabilities (mongo st)) (mongo st) = mongo st) as Hsame
    by (by destruct (mongo st)).
  pose proof (λ r, Hfail r (availabilities (mongo st))) as Hfail0.
  rewrite Hsame in Hfail0.
  assert (∀ m, abortTransaction session (mongo st) (mongo st) = m → m = mongo st) as Hab
    by (intros m <-; unfold abortTransaction; by destruct session).
  assert (abortTransaction session (mongo st) (mongo st) = mongo st) as Hab'
    by (unfold abortTransaction; by destruct session).
  case_bool_decide.
  { intros [= <- <-]. apply Hfail0; [done..|intros _; apply only_decremented_refl|done]. }
  destruct (rooms (mongo st) !! req_room_id req) as [room|];
    [|intros [= <- <-]; apply Hfail0; [done..|intros _; apply only_decremented_refl|done]].
  destruct (is_active room);
    [|intros [= <- <-]; apply Hfail0; [done..|intros _; apply only_decremented_refl|done]].
  set (days := getDateRange _ _).
  pose proof (λ Hq, day_loop_only_decremented (now env) (req_room_id req) qty days Hq
                      (availabilities (mongo st))) as Hdec.
  assert (dom (day_loop (now env) (req_room_id req) qty days (availabilities (mongo st))).2
          = dom (availabilities (mongo st))) as Hdom.
  { clear. generalize (availabilities (mongo st)). induction days as [|d ds IH]; intros c; [done|].
    simpl. unfold Availability_updateOne_dec.
    destruct (c !! (req_room_id req, d)) as [a|] eqn:Ha; [|simpl; done].
    destruct (qty <=? available_units a); [|simpl; done].
    assert (dom (<[(req_room_id req, d) := inc_available_units (now env) (- qty) a]> c) = dom c)
      as Hins.
    { apply dom_insert_lookup_L. by eexists. }
    destruct (_ =? 0); simpl; [done|]. by rewrite IH. }
  destruct (day_loop _ _ _ _ _) as [[date|] av] eqn:Hloop; simpl in Hdec, Hdom.
  { intros [= <- <-]. by apply Hfail. }
  destruct (Booking_create _ _ _ _) as [err|m2] eqn:Hcreate.
  { intros [= <- <-]. destruct (catch_response_status err) as [Hs|Hs];
      apply Hfail; rewrite ?Hs; done. }
  destruct (Booking_create_findById _ _ _ _ _ Hcreate)
    as (b & Hfind & Hbs & Hfresh & Hav & Hrooms & _ & _ & _ & _ & _ & Hhooks).
  rewrite Hfind. intros [= <- <-]. simpl in *.
  rewrite Hav, Hrooms. split_and!; try done.
  intros _. split; [|done]. by exists b.
Qed.

(** The three ways the handler can end, with both stores. *)
Lemma booking_handler_cases cfg si env req st res st' :
  booking_handler cfg si env req st = (res, st') →
  (∃ prev, res = send 200 (idempotent prev) ∧ st' = st)
  ∨ (res = send 423 (error "Resource busy") ∧ st' = st)
  ∨ (∃ st2,
       Redis.GET (now env) (lock_key req) (redis st) = None
       ∧ booking_try cfg (transactionsSupported si) env req
           (Js.or_null (req_idempotency_key req)) (qty_of req)
           {| redis := <[lock_key req := Redis.Entry (uuid env)
                                           (Some (now env + lockTimeout cfg))]> (redis st);
              mongo := mongo st |} = (res, st2)
       ∧ st' = {| redis := Redis.releaseLock (now env) (lock_key req) (uuid env) (redis st2);
                  mongo := mongo st2 |}).
Proof.
  unfold booking_handler, lock_key.
  destruct (_ ≫= _) as [prev|]; [intros [= <- <-]; eauto|].
  unfold Redis.acquireLock, Redis.SET_PX_NX.
  destruct (Redis.GET _ _ _) eqn:Hget; simpl.
  - intros [= <- <-]. right. left. by destruct st.
  - destruct (booking_try _ _ _ _ _ _ _) as [res2 st2] eqn:Htry.
    intros [= <- <-]. right. right. eauto.
Qed.

(** X18. The room lock does not outlive the request: whenever the handler
    got past the lock (any answer but the idempotent 200 and the 423), the
    room's lock key is free when it returns. The configured lock timeout
    is positive, as Redis requires of [PX]. *)
Theorem lock_is_released cfg si env req st res st' :
  0 < lockTimeout cfg →
  booking_handler cfg si env req st = (res, st') →
  res_status res ≠ 200 →
  res_status res ≠ 423 →
  Redis.GET (now env) (lock_key req) (redis st') = None.
Proof.
  intros _ Hh H200 H423.
  destruct (booking_handler_cases _ _ _ _ _ _ _ Hh)
    as [(prev & -> & _)|[[-> _]|(st2 & _ & Htry & ->)]]; [done..|].
  simpl.
  assert (redis st2 !! lock_key req
          = Some (Redis.Entry (uuid env) (Some (now env + lockTimeout cfg)))) as Hlock.
  { destruct (booking_try_outcome _ _ _ _ _ _ _ _ _ Htry) as (_ & _ & _ & H201 & Hn201 & _).
    destruct (decide (res_status res = 201)) as [Hs|Hs].
    - destruct (H201 Hs) as [_ ->]. simpl.
      destruct (Js.or_null (req_idempotency_key req)) as [key|]; simpl.
      + unfold Redis.setIdempotencyKey, Redis.SET_EX.
        rewrite lookup_insert_ne by (symmetry; apply lock_key_not_idem).
        by rewrite lookup_insert_eq.
      + by rewrite lookup_insert_eq.
    - destruct (Hn201 Hs) as (_ & -> & _). simpl. by rewrite lookup_insert_eq. }
  unfold Redis.releaseLock, Redis.DEL, Redis.GET. rewrite Hlock. simpl.
  destruct (Redis.live (now env) _) eqn:Hlive.
  - rewrite bool_decide_eq_true_2 by done. by rewrite lookup_delete_eq.
  - rewrite bool_decide_eq_false_2 by done. by rewrite Hlock, Hlive.
Qed.

Lemma lock_is_released_witness :
  Redis.GET (now Scenario.env)
    (lock_key (Scenario.request Scenario.d_2025_12_01 Scenario.d_2025_12_03))
    (redis Scenario.booked) = None.
Proof.
  apply (lock_is_released Scenario.cfg Scenario.standalone Scenario.env
           (Scenario.request Scenario.d_2025_12_01 Scenario.d_2025_12_03) Scenario.world
           (booking_handler Scenario.cfg Scenario.standalone Scenario.env
              (Scenario.request Scenario.d_2025_12_01 Scenario.d_2025_12_03)
              Scenario.world).1).
  - reflexivity.
  - vm_compute. reflexivity.
  - vm_compute. discriminate.
  - vm_compute. discriminate.
Defined.

(** X19. Whatever its answer, the booking route leaves the rooms alone,
    neither adds nor removes an availability record, never changes
    [total_units] and never raises [available_units]; it changes no
    booking that exists and adds at most the one with the new id. *)
Theorem post_booking_frame cfg si env req st :
  let st' := (post_booking cfg si env req st).2 in
  rooms (mongo st') = rooms (mongo st)
  ∧ dom (availabilities (mongo st')) = dom (availabilities (mongo st))
  ∧ only_decremented (availabilities (mongo st)) (availabilities (mongo st'))
  ∧ (∀ id b, bookings (mongo st) !! id = Some b → bookings (mongo st') !! id = Some b)
  ∧ (∀ id, id ≠ objectId env → bookings (mongo st') !! id = bookings (mongo st) !! id).
Proof.
  destruct (post_booking cfg si env req st) as [res st'] eqn:Hpost. simpl.
  assert (rooms (mongo st) = rooms (mongo st)
          ∧ dom (availabilities (mongo st)) = dom (availabilities (mongo st))
          ∧ only_decremented (availabilities (mongo st)) (availabilities (mongo st))
          ∧ (∀ id b, bookings (mongo st) !! id = Some b → bookings (mongo st) !! id = Some b)
          ∧ (∀ id, id ≠ objectId env → bookings (mongo st) !! id = bookings (mongo st) !! id))
    as Hsame by (split_and!; try done; apply only_decremented_refl).
  destruct (post_booking_inv _ _ _ _ _ _ _ Hpost) as [[_ ->]|(_ & Hqty & Hh)]; [done|].
  destruct (booking_handler_cases _ _ _ _ _ _ _ Hh)
    as [(prev & _ & ->)|[[_ ->]|(st2 & _ & Htry & ->)]]; [done..|].
  destruct (booking_try_outcome _ _ _ _ _ _ _ _ _ Htry)
    as (Hrooms & Hdec & Hdom & H201 & Hn201 & _).
  simpl in *. split_and!; [done|done|apply Hdec; lia| |].
  - intros id b Hb. destruct (decide (res_status res = 201)) as [Hs|Hs].
    + destruct (H201 Hs) as [(b' & -> & Hfresh & _) _].
      rewrite lookup_insert_ne; [done|]. intros <-. congruence.
    + destruct (Hn201 Hs) as (-> & _). done.
  - intros id Hid. destruct (decide (res_status res = 201)) as [Hs|Hs].
    + destruct (H201 Hs) as [(b' & -> & _) _]. by rewrite lookup_insert_ne.
    + destruct (Hn201 Hs) as (-> & _). done.
Qed.

(** X20. With transactions the handler is all or nothing: unless it answers
    201, the database is exactly as it was before the request. *)
Theorem transactional_failure_changes_nothing cfg si env req st res st' :
  booking_handler cfg si env req st = (res, st') →
  transactionsSupported si = true →
  res_status res ≠ 201 →
  mongo st' = mongo st.
Proof.
  intros Hh Hsession Hs.
  destruct (booking_handler_cases _ _ _ _ _ _ _ Hh)
    as [(prev & _ & ->)|[[_ ->]|(st2 & _ & Htry & ->)]]; [done..|].
  destruct (booking_try_outcome _ _ _ _ _ _ _ _ _ Htry) as (_ & _ & _ & _ & Hn201 & _).
  destruct (Hn201 Hs) as (_ & _ & Hm). simpl. by apply Hm.
Qed.

Lemma transactional_failure_changes_nothing_witness :
  mongo (booking_handler Scenario.cfg Scenario.replica_set Scenario.env
           (Scenario.request Scenario.d_2025_12_01 Scenario.d_2025_12_01)
           Scenario.world).2
  = mongo Scenario.world.
Proof.
  apply (transactional_failure_changes_nothing Scenario.cfg Scenario.replica_set Scenario.env
           (Scenario.request Scenario.d_2025_12_01 Scenario.d_2025_12_01) Scenario.world
           (booking_handler Scenario.cfg Scenario.replica_set Scenario.env
              (Scenario.request Scenario.d_2025_12_01 Scenario.d_2025_12_01)
              Scenario.world).1).
  - apply surjective_pairing.
  - reflexivity.
  - vm_compute. discriminate.
Defined.

(** X21. An idempotency record is written only by a request that is
    answered 201 and carries a token: after any other request every
    token reads as it did before. *)
Theorem idempotency_written_only_on_success cfg si env req st res st' :
  booking_handler cfg si env req st = (res, st') →
  res_status res ≠ 201 ∨ Js.or_null (req_idempotency_key req) = None →
  ∀ clock key,
    Redis.getIdempotencyKey clock key (redis st')
    = Redis.getIdempotencyKey clock key (redis st).
Proof.
  intros Hh Hcase clock key.
  destruct (booking_handler_cases _ _ _ _ _ _ _ Hh)
    as [(prev & _ & ->)|[[_ ->]|(st2 & _ & Htry & ->)]]; [done..|].
  simpl.
  destruct (booking_try_outcome _ _ _ _ _ _ _ _ _ Htry) as (_ & _ & _ & H201 & Hn201 & _).
  assert (redis st2 = <[lock_key req := Redis.Entry (uuid env)
                                          (Some (now env + lockTimeout cfg))]> (redis st))
    as ->.
  { destruct (decide (res_status res = 201)) as [Hs|Hs].
    - destruct (H201 Hs) as [_ ->]. destruct Hcase as [?| ->]; done.
    - by destruct (Hn201 Hs) as (_ & -> & _). }
  pose proof (lock_key_not_idem (req_room_id req) key) as Hne. fold (lock_key req) in Hne.
  unfold Redis.getIdempotencyKey, Redis.releaseLock, Redis.DEL.
  case_bool_decide.
  - unfold Redis.GET. by rewrite lookup_delete_ne, lookup_insert_ne.
  - unfold Redis.GET. by rewrite lookup_insert_ne.
Qed.

Lemma idempotency_written_only_on_success_witness :
  Redis.getIdempotencyKey (now Scenario.env) "key-1"
    (redis (booking_handler Scenario.cfg Scenario.standalone Scenario.env
              (Scenario.request Scenario.d_2025_12_01 Scenario.d_2025_12_03)
              Scenario.world_sold_out).2)
  = Redis.getIdempotencyKey (now Scenario.env) "key-1" (redis Scenario.world_sold_out).
Proof.
  apply (λ Hh Hcase,
           idempotency_written_only_on_success Scenario.cfg Scenario.standalone Scenario.env
             (Scenario.request Scenario.d_2025_12_01 Scenario.d_2025_12_03)
             Scenario.world_sold_out
             (booking_handler Scenario.cfg Scenario.standalone Scenario.env
                (Scenario.request Scenario.d_2025_12_01 Scenario.d_2025_12_03)
                Scenario.world_sold_out).1
             (booking_handler Scenario.cfg Scenario.standalone Scenario.env
                (Scenario.request Scenario.d_2025_12_01 Scenario.d_2025_12_03)
                Scenario.world_sold_out).2
             Hh Hcase (now Scenario.env) "key-1").
  - apply surjective_pairing.
  - left. vm_compute. discriminate.
Defined.

End HandlerProperties.

(** ** What every run of operations keeps true *)

Section RunProperties.
Import Mongodb Api Props Props2 DbUtils.

Lemma hooks_booking_ok (b : Booking) : Booking_save_hooks b = None → booking_ok b.
Proof.
  unfold Booking_save_hooks, Booking_validate, Booking_pre_save, booking_ok.
  destruct (quantity b <? 1) eqn:H1; [done|].
  destruct (100 <? quantity b) eqn:H2; [done|].
  destruct (total_price_cents b <? 0) eqn:H3; [done|].
  repeat case_bool_decide; try done.
  destruct (end_date b <=? start_date b) eqn:H4; [done|]. lia.
Qed.

Lemma Booking_save_hooks_ok clock id this m b m' :
  Booking_save clock id this m = inr (b, m') → Booking_save_hooks b = None.
Proof.
  unfold Booking_save. destruct (Booking_save_hooks this) eqn:Hh; [done|].
  destruct (bookings m !! id); [|done]. intros [= <- <-]. exact Hh.
Qed.

(** A step stores no booking that the save hooks would refuse. *)
Lemma step_bookings op st id b :
  bookings (mongo (step op st)) !! id = Some b →
  bookings (mongo st) !! id = Some b ∨ Booking_save_hooks b = None.
Proof.
  destruct op as [cfg si env req|clock id' this reason|clock roomId totalUnits s e|s e];
    simpl; [| | by left..].
  - destruct (post_booking cfg si env req st) as [res st'] eqn:Hpost. simpl.
    destruct (post_booking_inv _ _ _ _ _ _ _ Hpost) as [[_ ->]|(_ & Hqty & Hh)]; [by left|].
    destruct (booking_handler_cases _ _ _ _ _ _ _ Hh)
      as [(prev & _ & ->)|[[_ ->]|(st2 & _ & Htry & ->)]]; [by left..|].
    destruct (booking_try_outcome _ _ _ _ _ _ _ _ _ Htry) as (_ & _ & _ & H201 & Hn201 & _).
    simpl in *. destruct (decide (res_status res = 201)) as [Hs|Hs].
    + destruct (H201 Hs) as [(b' & -> & _ & Hhooks) _].
      destruct (decide (id = objectId env)) as [->|Hne].
      * rewrite lookup_insert_eq. intros [= <-]. by right.
      * rewrite lookup_insert_ne by done. by left.
    + destruct (Hn201 Hs) as (-> & _). by left.
  - destruct (Booking_cancel clock id' this reason (mongo st)) as [err|[b' m']] eqn:Hc;
      [by left|]. simpl.
    pose proof Hc as (_ & _ & _ & _ & -> & _)%Booking_cancel_effect.
    unfold Booking_cancel in Hc. case_bool_decide; [done|].
    apply Booking_save_hooks_ok in Hc.
    destruct (decide (id = id')) as [->|Hne].
    + rewrite lookup_insert_eq. intros [= <-]. by right.
    + rewrite lookup_insert_ne by done. by left.
Qed.

Lemma step_dom_availabilities op st k :
  k ∈ dom (availabilities (mongo (step op st))) →
  k ∈ dom (availabilities (mongo st)) ∨ k.2 `mod` MS_PER_DAY = 0.
Proof.
  destruct op as [cfg si env req|clock id' this reason|clock roomId totalUnits s e|s e];
    cbn [step mongo]; [| | |by left].
  - destruct (post_booking cfg si env req st) as [res st'] eqn:Hpost. simpl.
    destruct (post_booking_inv _ _ _ _ _ _ _ Hpost) as [[_ ->]|(_ & Hqty & Hh)]; [by left|].
    destruct (booking_handler_cases _ _ _ _ _ _ _ Hh)
      as [(prev & _ & ->)|[[_ ->]|(st2 & _ & Htry & ->)]]; [by left..|].
    destruct (booking_try_outcome _ _ _ _ _ _ _ _ _ Htry) as (_ & _ & Hdom & _).
    simpl in *. rewrite Hdom. by left.
  - destruct (Booking_cancel clock id' this reason (mongo st)) as [err|[b' m']] eqn:Hc;
      [by left|]. simpl.
    apply Booking_cancel_effect in Hc as (_ & _ & _ & _ & _ & -> & _). by left.
  - intros [a Ha]%elem_of_dom. rewrite initializeAvailability_get in Ha.
    destruct (availabilities (mongo st) !! k) as [a0|] eqn:Hk.
    + left. apply elem_of_dom. by exists a0.
    + right. case_decide as Hd; [|done]. destruct Hd as (_ & Hin & _).
      by apply elem_of_getDateRange in Hin as [_ ?].
Qed.

(** X22. Every booking in the collection satisfies what the save hooks
    check, whatever sequence of booking requests, cancellations,
    availability initialisations and searches has run: it ends after it
    starts, its quantity is between 1 and 100 and its price is not
    negative. *)
Theorem run_keeps_bookings_ok (ops : list Op) (st : State) :
  bookings_ok (mongo st) → bookings_ok (mongo (run ops st)).
Proof.
  revert st. induction ops as [|op ops IH]; intros st Hok; [done|].
  simpl. apply IH. intros id b Hb.
  destruct (step_bookings _ _ _ _ Hb) as [Hold|Hhooks].
  - by apply (Hok id b).
  - by apply hooks_booking_ok.
Qed.

Lemma run_keeps_bookings_ok_witness :
  bookings_ok (mongo (run Scenario.operations Scenario.world)).
Proof.
  apply (run_keeps_bookings_ok Scenario.operations Scenario.world).
  unfold bookings_ok, Scenario.world. simpl. apply map_Forall_empty.
Defined.

(** X23. A database on which [verifyConsistency] reports no issue still
    passes it after any sequence of booking requests, cancellations,
    availability initialisations and searches. *)
Theorem run_keeps_consistency (ops : list Op) (st : State) :
  verifyConsistency (mongo st) = 0 → verifyConsistency (mongo (run ops st)) = 0.
Proof.
  revert st. induction ops as [|op ops IH]; intros st Hok; [done|].
  simpl. apply IH. apply verifyConsistency_zero_iff.
  apply verifyConsistency_zero_iff in Hok as [Hinv Hdates]. split.
  - by apply step_ledger_invariant.
  - intros id b Hb. destruct (step_bookings _ _ _ _ Hb) as [Hold|Hhooks].
    + by apply (Hdates id b).
    + by apply hooks_booking_ok in Hhooks as [? _].
Qed.

Lemma run_keeps_consistency_witness :
  verifyConsistency (mongo (run Scenario.operations Scenario.world)) = 0.
Proof.
  apply (run_keeps_consistency Scenario.operations Scenario.world).
  vm_compute. reflexivity.
Defined.

(** X24. The availability records stay dated at midnight UTC under any
    sequence of operations: none of them stores a record at another time
    of day. *)
Theorem run_keeps_dates_normalized (ops : list Op) (st : State) :
  dates_normalized (availabilities (mongo st)) →
  dates_normalized (availabilities (mongo (run ops st))).
Proof.
  revert st. induction ops as [|op ops IH]; intros st Hok; [done|].
  simpl. apply IH. intros k a Ha.
  destruct (step_dom_availabilities op st k) as [[a0 Hold]%elem_of_dom|Hmid]; [|by eapply Hok|done].
  apply elem_of_dom. by exists a.
Qed.

Lemma run_keeps_dates_normalized_witness :
  dates_normalized (availabilities (mongo (run Scenario.operations Scenario.world))).
Proof.
  apply (run_keeps_dates_normalized Scenario.operations Scenario.world).
  refine (bool_decide_unpack _ _). vm_compute. exact I.
Defined.

End RunProperties.

(** ** The 201 answer *)

Section CreatedBooking.
Import Mongodb Api Props Props2 Queries BookingRoutes.

Lemma normalizeDate_mono (a b : Z) : a <= b → normalizeDate a <= normalizeDate b.
Proof.
  intros Hab. pose proof MS_PER_DAY_pos. rewrite !normalizeDate_multiple.
  assert (a `div` MS_PER_DAY <= b `div` MS_PER_DAY) by (apply Z.div_le_mono; lia). nia.
Qed.

Lemma normalizeDate_of_midnight (d : Z) : d `mod` MS_PER_DAY = 0 → normalizeDate d = d.
Proof. unfold normalizeDate. lia. Qed.

Lemma normalizeDate_add_days (d n : Z) :
  normalizeDate (d + n * MS_PER_DAY) = normalizeDate d + n * MS_PER_DAY.
Proof.
  pose proof MS_PER_DAY_pos. unfold normalizeDate. rewrite Z.mod_add by lia. lia.
Qed.

(** The document a 201 answer was made from. *)
Lemma booking_try_created_doc cfg session env req idemKey qty st res st' :
  booking_try cfg session env req idemKey qty st = (res, st') →
  res_status res = 201 →
  ∃ room b,
    rooms (mongo st) !! req_room_id req = Some room
    ∧ res = send 201 (booking (toPublicJSON (objectId env) b))
    ∧ bookings (mongo st') !! objectId env = Some b
    ∧ Booking_save_hooks b = None
    ∧ user_id b = req_user_id req
    ∧ room_id b = req_room_id req
    ∧ start_date b = normalizeDate (req_start_date req)
    ∧ end_date b = normalizeDate (req_end_date req)
    ∧ quantity b = qty
    ∧ total_price_cents b = price_cents room * Z.of_nat (length (days_of req)) * qty
    ∧ status b = confirmed
    ∧ created_at b = now env.
Proof.
  unfold booking_try. case_bool_decide; [intros [= <- <-]; done|].
  destruct (rooms (mongo st) !! req_room_id req) as [room|] eqn:Hroom;
    [|intros [= <- <-]; done].
  destruct (is_active room) eqn:Hact; [|intros [= <- <-]; done].
  fold (days_of req).
  destruct (day_loop _ _ _ _ _) as [[date|] av] eqn:Hloop; [intros [= <- <-]; done|].
  unfold Booking_create, Booking_findById.
  match goal with |- context [Booking_save_hooks ?d] => set (b := d) end.
  destruct (Booking_save_hooks b) as [err|] eqn:Hhooks.
  { intros [= <- <-] Hst. destruct (catch_response_status err); simpl in *; lia. }
  cbn [bookings with_availabilities].
  destruct (bookings (mongo st) !! objectId env) eqn:Hfresh.
  { intros [= <- <-] Hst. simpl in Hst. lia. }
  cbn [bookings with_bookings]. rewrite lookup_insert_eq.
  intros [= <- <-] _. exists room, b. cbn [mongo bookings with_bookings].
  rewrite lookup_insert_eq. split_and!; done.
Qed.

(** X25. What a 201 answer says. The body is the stored booking of the
    caller, confirmed, for the requested room and quantity (1 to 100),
    starting today or later, over at least one and at most 365 nights;
    the price is the room's price times the quantity times one more than
    the nights it shows, since the day loop charges the checkout day too.
    Fetching the new id as the same user then answers 200 with a booking
    that has the same own fields (the populated references, which the two
    routes select differently, are not compared). *)
Theorem created_booking_response cfg si env req st res st' :
  post_booking cfg si env req st = (res, st') →
  res_status res = 201 →
  ∃ room pb,
    rooms (mongo st) !! req_room_id req = Some room
    ∧ res_body res = booking pb
    ∧ pb_id pb = objectId env
    ∧ pb_user_id pb = req_user_id req
    ∧ pb_room_id pb = req_room_id req
    ∧ pb_status pb = confirmed
    ∧ pb_quantity pb = qty_of req ∧ 1 <= pb_quantity pb <= 100
    ∧ pb_start_date pb = normalizeDate (req_start_date req)
    ∧ normalizeDate (now env) <= pb_start_date pb
    ∧ pb_end_date pb = pb_start_date pb + pb_nights pb * MS_PER_DAY
    ∧ 1 <= pb_nights pb <= 365
    ∧ pb_total_price_cents pb = price_cents room * (pb_nights pb + 1) * pb_quantity pb
    ∧ ∃ pb', get_booking_by_id true (req_user_id req) (objectId env) (mongo st')
             = send 200 (booking pb')
             ∧ same_own_fields pb pb'.
Proof.
  intros Hpost Hst.
  destruct (post_booking_inv _ _ _ _ _ _ _ Hpost) as [[H400 _]|(Hv & Hqty & Hh)]; [lia|].
  destruct (booking_handler_cases _ _ _ _ _ _ _ Hh)
    as [(prev & -> & _)|[[-> _]|(st2 & _ & Htry & ->)]]; [done..|].
  destruct (booking_try_created_doc _ _ _ _ _ _ _ _ _ Htry Hst)
    as (room & b & Hroom & -> & Hb & Hhooks & Hu & Hr & Hs & He & Hq & Hprice & Hstat & _).
  apply hooks_booking_ok in Hhooks as (Horder & _ & _).
  pose proof MS_PER_DAY_pos as Hpos.
  unfold validateDateRange in Hv.
  destruct (req_start_date req <? normalizeDate (now env)) eqn:Hpast; [done|].
  destruct (req_end_date req <? req_start_date req) eqn:Hrev; [done|].
  destruct (365 * MS_PER_DAY <? req_end_date req - req_start_date req) eqn:Hlong; [done|].
  assert (normalizeDate (now env) <= normalizeDate (req_start_date req)) as Htoday.
  { rewrite <- (normalizeDate_idem (now env)). apply normalizeDate_mono. lia. }
  assert (normalizeDate (req_end_date req)
          <= normalizeDate (req_start_date req) + 365 * MS_PER_DAY) as Hyear.
  { rewrite <- normalizeDate_add_days. apply normalizeDate_mono. lia. }
  assert (∃ n, end_date b = start_date b + n * MS_PER_DAY ∧ nights b = n) as (n & Hn & Hnights).
  { exists (req_end_date req `div` MS_PER_DAY - req_start_date req `div` MS_PER_DAY).
    unfold nights. rewrite Hs, He, !normalizeDate_multiple. split; [lia|].
    replace (MS_PER_DAY * (req_start_date req `div` MS_PER_DAY)
             - MS_PER_DAY * (req_end_date req `div` MS_PER_DAY))
      with ((req_start_date req `div` MS_PER_DAY - req_end_date req `div` MS_PER_DAY)
            * MS_PER_DAY) by lia.
    rewrite Z.div_mul by lia. lia. }
  assert (Z.of_nat (length (days_of req)) = n + 1) as Hlen.
  { unfold days_of. rewrite length_getDateRange, !normalizeDate_idem, <- Hs, <- He, Hn.
    replace (start_date b + n * MS_PER_DAY - start_date b) with (n * MS_PER_DAY) by lia.
    rewrite Z.div_mul by lia. nia. }
  exists room, (toPublicJSON (objectId env) b). simpl.
  rewrite Hnights. split_and!; try done; try lia.
  - rewrite Hs, He in *. nia.
  - exists (toPublicJSON (objectId env) b). unfold get_booking_by_id, same_own_fields.
    simpl in Hb. rewrite Hb. by rewrite bool_decide_eq_true_2.
Qed.

Lemma created_booking_response_witness :
  ∃ room pb,
    rooms (mongo Scenario.world) !! "64b000000000000000000001" = Some room
    ∧ res_body (post_booking Scenario.cfg Scenario.standalone Scenario.env
                  (Scenario.request Scenario.d_2025_12_01 Scenario.d_2025_12_03)
                  Scenario.world).1 = booking pb
    ∧ pb_id pb = "64b0000000000000000000b1"
    ∧ pb_user_id pb = "64b0000000000000000000a1"
    ∧ pb_room_id pb = "64b000000000000000000001"
    ∧ pb_status pb = confirmed
    ∧ pb_quantity pb = 1 ∧ 1 <= pb_quantity pb <= 100
    ∧ pb_start_date pb = normalizeDate Scenario.d_2025_12_01
    ∧ normalizeDate (now Scenario.env) <= pb_start_date pb
    ∧ pb_end_date pb = pb_start_date pb + pb_nights pb * MS_PER_DAY
    ∧ 1 <= pb_nights pb <= 365
    ∧ pb_total_price_cents pb = price_cents room * (pb_nights pb + 1) * pb_quantity pb
    ∧ ∃ pb', get_booking_by_id true "64b0000000000000000000a1" "64b0000000000000000000b1"
               (mongo Scenario.booked)
             = send 200 (booking pb')
             ∧ same_own_fields pb pb'.
Proof.
  apply (created_booking_response Scenario.cfg Scenario.standalone Scenario.env
           (Scenario.request Scenario.d_2025_12_01 Scenario.d_2025_12_03) Scenario.world
           (post_booking Scenario.cfg Scenario.standalone Scenario.env
              (Scenario.request Scenario.d_2025_12_01 Scenario.d_2025_12_03)
              Scenario.world).1 Scenario.booked).
  - apply surjective_pairing.
  - vm_compute. reflexivity.
Defined.

End CreatedBooking.

(** ** Maintenance and the booking route *)

Section CleanupProperties.
Import Mongodb Api Props Props2 DbUtils.

Lemma thirtyDaysAgo_eq (now : Z) : thirtyDaysAgo now = normalizeDate now - 30 * MS_PER_DAY.
Proof.
  unfold thirtyDaysAgo.
  replace (now - 30 * MS_PER_DAY) with (now + (-30) * MS_PER_DAY) by lia.
  rewrite normalizeDate_add_days. lia.
Qed.

Lemma cleanup_get (dryRun : bool) (now : Z) (m : db) (k : string * Z) :
  availabilities (cleanup dryRun now m) !! k
  = if dryRun then availabilities m !! k
    else if decide (k.2 < thirtyDaysAgo now) then None else availabilities m !! k.
Proof.
  unfold cleanup. destruct dryRun; simpl; [done|].
  destruct (0 <? length _)%nat eqn:Hcount; simpl.
  - case_decide as Hold.
    + apply map_lookup_filter_None. right. intros a _. simpl. tauto.
    + destruct (availabilities m !! k) as [a|] eqn:Hk.
      * apply map_lookup_filter_Some. done.
      * apply map_lookup_filter_None. by left.
  - case_decide as Hold; [|done].
    destruct (availabilities m !! k) as [a|] eqn:Hk; [|done]. exfalso.
    apply (proj1 (count_positive_iff _ _) Hcount (k, a)); [|done].
    by apply elem_of_map_to_list.
Qed.

(** X26. [cleanup] writes nothing in a dry run. In live mode it deletes
    exactly the availability records dated before midnight thirty days
    ago; records of the last thirty days, of today and of the future stay
    as they are, and so do rooms and bookings. *)
Theorem cleanup_removes_only_old_records (dryRun : bool) (now : Z) (m : db) :
  let m' := cleanup dryRun now m in
  rooms m' = rooms m
  ∧ bookings m' = bookings m
  ∧ (dryRun = true → m' = m)
  ∧ (∀ r d, normalizeDate now - 30 * MS_PER_DAY <= d →
       availabilities m' !! (r, d) = availabilities m !! (r, d))
  ∧ (dryRun = false →
     ∀ r d, d < normalizeDate now - 30 * MS_PER_DAY → availabilities m' !! (r, d) = None).
Proof.
  simpl. split_and!.
  - unfold cleanup. by destruct (_ && _).
  - unfold cleanup. by destruct (_ && _).
  - intros ->. done.
  - intros r d Hd. rewrite cleanup_get, thirtyDaysAgo_eq. simpl.
    destruct dryRun; [done|]. case_decide; [lia|done].
  - intros -> r d Hd. rewrite cleanup_get, thirtyDaysAgo_eq. simpl.
    case_decide; [done|lia].
Qed.

Lemma day_loop_agree (clock : Z) (room : string) (qty : Z) (days : list Z) :
  ∀ c1 c2 : gmap (string * Z) Availability,
  (∀ d, d ∈ days → c1 !! (room, d) = c2 !! (room, d)) →
  (day_loop clock room qty days c1).1 = (day_loop clock room qty days c2).1.
Proof.
  induction days as [|d ds IH]; intros c1 c2 Hag; [done|]. simpl.
  unfold Availability_updateOne_dec. rewrite <- (Hag d) by left.
  destruct (c1 !! (room, d)) as [a|]; [|done].
  destruct (qty <=? available_units a); [|done].
  destruct (decide (_ = a)); simpl; [done|]. apply IH. intros d' Hd'.
  destruct (decide (d' = d)) as [->|Hne].
  - by rewrite !lookup_insert_eq.
  - rewrite !lookup_insert_ne by congruence. apply Hag. by right.
Qed.

(** The answer of the guarded body depends on the rooms, the bookings and
    the availability records of the requested room and days only. *)
Lemma booking_try_response_agree cfg session env req idemKey qty st1 st2 :
  rooms (mongo st1) = rooms (mongo st2) →
  bookings (mongo st1) = bookings (mongo st2) →
  (∀ d, d ∈ days_of req →
     availabilities (mongo st1) !! (req_room_id req, d)
     = availabilities (mongo st2) !! (req_room_id req, d)) →
  (booking_try cfg session env req idemKey qty st1).1
  = (booking_try cfg session env req idemKey qty st2).1.
Proof.
  intros Hrooms Hbs Hav. unfold booking_try. rewrite Hrooms.
  case_bool_decide; [done|].
  destruct (rooms (mongo st2) !! req_room_id req) as [room|]; [|done].
  destruct (is_active room); [|done]. fold (days_of req).
  pose proof (day_loop_agree (now env) (req_room_id req) qty (days_of req) _ _ Hav) as Hag.
  destruct (day_loop _ _ _ _ (availabilities (mongo st1))) as [o1 av1].
  destruct (day_loop _ _ _ _ (availabilities (mongo st2))) as [o2 av2].
  simpl in Hag. subst o2. destruct o1 as [d|]; [done|].
  unfold Booking_create, Booking_findById. cbn [bookings with_availabilities]. rewrite Hbs.
  destruct (Booking_save_hooks _); [done|].
  destruct (bookings (mongo st2) !! objectId env); [done|].
  cbn [bookings with_bookings]. by rewrite !lookup_insert_eq.
Qed.

(** X27. A live [cleanup] never changes the answer to a booking request
    made at the same time or later: the route refuses past dates, so the
    days it reads are never among the deleted ones. *)
Theorem cleanup_keeps_booking_answers cfg si env req st (dryRun : bool) (clock : Z) :
  clock <= now env →
  (post_booking cfg si env req
     {| redis := redis st; mongo := cleanup dryRun clock (mongo st) |}).1
  = (post_booking cfg si env req st).1.
Proof.
  intros Hclock. unfold post_booking.
  destruct (validateDateRange (now env) req) eqn:Hv; [done|].
  destruct (validateQuantity req); [done|].
  unfold booking_handler. cbn [redis mongo].
  destruct (_ ≫= _); [done|].
  destruct (Redis.acquireLock _ _ _ _ _) as [[|] r1]; [|done].
  pose proof (booking_try_response_agree cfg (transactionsSupported si) env req
                (Js.or_null (req_idempotency_key req)) (parse_quantity (req_quantity req))
                {| redis := r1; mongo := cleanup dryRun clock (mongo st) |}
                {| redis := r1; mongo := mongo st |}) as Hag.
  destruct (booking_try _ _ _ _ _ _ {| redis := r1; mongo := cleanup _ _ _ |}) as [res1 s1].
  destruct (booking_try _ _ _ _ _ _ {| redis := r1; mongo := mongo st |}) as [res2 s2].
  simpl in *. apply Hag.
  - unfold cleanup. by destruct (_ && _).
  - unfold cleanup. by destruct (_ && _).
  - intros d Hd. rewrite cleanup_get. destruct dryRun; [done|].
    rewrite decide_False; [done|]. simpl. rewrite thirtyDaysAgo_eq.
    unfold days_of in Hd. apply elem_of_getDateRange in Hd as [[Hd _] _].
    rewrite normalizeDate_idem in Hd.
    unfold validateDateRange in Hv.
    destruct (req_start_date req <? normalizeDate (now env)) eqn:Hpast; [done|].
    assert (normalizeDate (now env) <= normalizeDate (req_start_date req)).
    { rewrite <- (normalizeDate_idem (now env)). apply normalizeDate_mono. lia. }
    pose proof (normalizeDate_mono _ _ Hclock). pose proof MS_PER_DAY_pos. lia.
Qed.

Lemma cleanup_keeps_booking_answers_witness :
  (post_booking Scenario.cfg Scenario.standalone Scenario.env
     (Scenario.request Scenario.d_2025_12_01 Scenario.d_2025_12_03)
     {| redis := redis Scenario.world;
        mongo := cleanup false (now Scenario.env) (mongo Scenario.world) |}).1
  = (post_booking Scenario.cfg Scenario.standalone Scenario.env
       (Scenario.request Scenario.d_2025_12_01 Scenario.d_2025_12_03) Scenario.world).1.
Proof.
  apply (cleanup_keeps_booking_answers Scenario.cfg Scenario.standalone Scenario.env
           (Scenario.request Scenario.d_2025_12_01 Scenario.d_2025_12_03) Scenario.world
           false (now Scenario.env)).
  lia.
Defined.

Lemma ensure_fold (now s e : Z) (l : list (string * Room)) :
  ∀ (acc : db) (k : string * Z),
  availabilities (foldl (λ acc room, initializeAvailability now room.1 1 s e acc) acc l) !! k
  = match availabilities acc !! k with
    | Some a => Some a
    | None =>
        if decide (k.1 ∈ l.*1 ∧ k.2 ∈ getDateRange s e)
        then Some {| total_units := 1; available_units := 1; updated_at := now |}
        else None
    end.
Proof.
  induction l as [|[r room] l IH]; intros acc k.
  { cbn [foldl]. destruct (availabilities acc !! k); [done|].
    destruct (decide _) as [[Hnil _]|]; [by apply elem_of_nil in Hnil|done]. }
  cbn [foldl]. rewrite IH, initializeAvailability_get. cbn [fst fmap list_fmap].
  destruct (availabilities acc !! k); [done|].
  destruct (decide (k.1 = r ∧ k.2 ∈ getDateRange s e ∧ 0 <= 1)) as [(Hr & Hin & _)|Hno].
  - rewrite decide_True; [done|]. split; [|done]. apply elem_of_cons. left. exact Hr.
  - destruct (decide (k.1 ∈ l.*1 ∧ k.2 ∈ getDateRange s e)) as [[Hl Hin]|Hno'].
    + rewrite decide_True; [done|]. split; [|done]. apply elem_of_cons. right. exact Hl.
    + rewrite decide_False; [done|]. intros [[Hr|Hl]%elem_of_cons Hin].
      * apply Hno. split_and!; [exact Hr|done|lia].
      * by apply Hno'.
Qed.

Lemma ensure_fold_frame (now s e : Z) (l : list (string * Room)) :
  ∀ acc : db,
  rooms (foldl (λ acc room, initializeAvailability now room.1 1 s e acc) acc l) = rooms acc
  ∧ bookings (foldl (λ acc room, initializeAvailability now room.1 1 s e acc) acc l)
    = bookings acc.
Proof.
  induction l as [|[r room] l IH]; intros acc; [done|]. cbn [foldl].
  destruct (IH (initializeAvailability now (r, room).1 1 s e acc)) as [-> ->]. done.
Qed.

(** X28. [ensureAvailability days] gives every active room a one-unit
    record on each midnight from today through [days] days ahead that had
    none; records that exist keep their counts, inactive rooms and days
    outside the window get nothing, and rooms and bookings are left
    alone. *)
Theorem ensureAvailability_lookup (days now : Z) (m : db) :
  let m' := ensureAvailability days now m in
  rooms m' = rooms m
  ∧ bookings m' = bookings m
  ∧ ∀ r d,
      availabilities m' !! (r, d)
      = match availabilities m !! (r, d) with
        | Some a => Some a
        | None =>
            match rooms m !! r with
            | Some room =>
                if is_active room
                   && bool_decide (normalizeDate now <= d <= normalizeDate now + days * MS_PER_DAY
                                   ∧ d `mod` MS_PER_DAY = 0)
                then Some {| total_units := 1; available_units := 1; updated_at := now |}
                else None
            | None => None
            end
        end.
Proof.
  simpl. unfold ensureAvailability.
  split_and!; [apply ensure_fold_frame..|]. intros r d. rewrite ensure_fold. simpl.
  destruct (availabilities m !! (r, d)); [done|].
  assert (r ∈ (filter (λ x : string * Room, is_active x.2 = true) (map_to_list (rooms m))).*1
          ↔ ∃ room, rooms m !! r = Some room ∧ is_active room = true) as Hactive.
  { rewrite list_elem_of_fmap. split.
    - intros ([r' room] & -> & [Hact Hin%elem_of_map_to_list]%list_elem_of_filter). eauto.
    - intros (room & Hroom & Hact). exists (r, room). split; [done|].
      apply list_elem_of_filter. split; [done|]. by apply elem_of_map_to_list. }
  assert (d ∈ getDateRange (normalizeDate now) (normalizeDate now + days * MS_PER_DAY)
          ↔ normalizeDate now <= d <= normalizeDate now + days * MS_PER_DAY
            ∧ d `mod` MS_PER_DAY = 0) as Hwindow.
  { rewrite elem_of_getDateRange, normalizeDate_add_days, !normalizeDate_idem. done. }
  case_decide as Hd.
  - destruct Hd as [(room & -> & ->)%Hactive Hin%Hwindow]. simpl.
    by rewrite bool_decide_eq_true_2.
  - destruct (rooms m !! r) as [room|] eqn:Hroom; [|done].
    destruct (is_active room) eqn:Hact; [|done]. simpl.
    case_bool_decide as Hin; [|done]. exfalso. apply Hd. split.
    + apply Hactive. eauto.
    + by apply Hwindow.
Qed.

End CleanupProperties.

(** ** Room search *)

Section SearchProperties.
Import Mongodb Api Props Props2.

#[local] Instance by_location_name_total : Total by_location_name.
Proof.
  intros a b. unfold by_location_name.
  assert (∀ x : string, String.leb x x = true) as Hrefl
    by (intros x; by destruct (String.leb_total x x)).
  destruct (decide (sr_location a = sr_location b)) as [Heq|Hne].
  - rewrite Heq, Hrefl.
    destruct (String.leb_total (sr_name a) (sr_name b)) as [Hn|Hn]; [left|right]; done.
  - destruct (String.leb_total (sr_location a) (sr_location b)) as [Hl|Hl]; [left|right];
      (split; [done|]); intros Heq; by rewrite Heq in Hne.
Qed.

Lemma search_rooms_elim (start end_ : Z) (m : db) (r : SearchResult) :
  r ∈ search_rooms start end_ m →
  ∃ g, group_of (filter (λ doc, match_available (normalizeDate start) (normalizeDate end_) doc
                                = true)
                   (map_to_list (availabilities m))) (_id g) = Some g
       ∧ 0 < minAvailable g
       ∧ lookup_project m g = Some r.
Proof.
  unfold search_rooms. rewrite merge_sort_Permutation, list_elem_of_omap.
  intros (g & [Hpos Hg]%list_elem_of_filter & Hproj).
  unfold group_by_room in Hg. apply list_elem_of_omap in Hg as (room & _ & Hgroup).
  exists g. split_and!; [|done..].
  pose proof (proj1 (group_of_spec _ _ _ _ _) Hgroup) as [<- _]. done.
Qed.

Lemma search_rooms_intro (start end_ : Z) (m : db) (room : string) (g : Group)
    (r : SearchResult) :
  group_of (filter (λ doc, match_available (normalizeDate start) (normalizeDate end_) doc
                           = true)
              (map_to_list (availabilities m))) room = Some g →
  0 < minAvailable g →
  lookup_project m g = Some r →
  r ∈ search_rooms start end_ m.
Proof.
  intros Hgroup Hpos Hproj.
  unfold search_rooms. rewrite merge_sort_Permutation, list_elem_of_omap.
  exists g. split; [|done]. apply list_elem_of_filter. split; [done|].
  unfold group_by_room. apply list_elem_of_omap. exists room. split; [|done].
  pose proof (proj1 (group_of_spec _ _ _ _ _) Hgroup) as (_ & (d & a & Ha & Hfree & _) & _).
  apply elem_of_remove_dups, list_elem_of_fmap. exists ((room, d), a). split; [done|].
  pose proof (proj2 (elem_of_matched_room (normalizeDate start) (normalizeDate end_) m
                       room ((room, d), a)) (conj Ha Hfree)) as Hin.
  by apply list_elem_of_filter in Hin as [_ Hin].
Qed.

(** The days a search bucket counts, as a duplicate-free list. *)
Lemma free_days_list (s e : Z) (room : string) (c : gmap (string * Z) Availability) :
  ∃ ds : list Z,
    NoDup ds
    ∧ length ds = size (filter (free_day s e room) c)
    ∧ ∀ d, d ∈ ds ↔ ∃ a, c !! (room, d) = Some a ∧ s <= d <= e ∧ 0 < available_units a.
Proof.
  exists ((λ doc : string * Z * Availability, doc.1.2)
            <$> map_to_list (filter (free_day s e room) c)).
  split_and!.
  - apply NoDup_fmap_2_strong; [|apply NoDup_map_to_list].
    intros [[r1 d1] a1] [[r2 d2] a2] H1%elem_of_map_to_list H2%elem_of_map_to_list Heq.
    simpl in Heq. subst d2.
    apply map_lookup_filter_Some in H1 as [H1 [Hr1 _]].
    apply map_lookup_filter_Some in H2 as [H2 [Hr2 _]].
    simpl in *. subst r1 r2. congruence.
  - by rewrite length_fmap, length_map_to_list.
  - intros d. rewrite list_elem_of_fmap. split.
    + intros ([[r d'] a] & -> & Hin%elem_of_map_to_list).
      apply map_lookup_filter_Some in Hin as [Hin (Hr & Hd & Ha)]. simpl in *. subst r.
      eauto.
    + intros (a & Ha & Hd & Hpos). exists ((room, d), a). split; [done|].
      apply elem_of_map_to_list, map_lookup_filter_Some. done.
Qed.

Lemma NoDup_fmap_omap {A B C} `{!EqDecision C} (f : B → C) (h : A → C) (g : A → option B)
    (l : list A) :
  (∀ x y, g x = Some y → f y = h x) → NoDup (h <$> l) → NoDup (f <$> omap g l).
Proof.
  intros Hfg. induction l as [|x l IH]; [done|].
  intros [Hx Hl]%NoDup_cons. simpl. destruct (g x) as [y|] eqn:Hgx; [|by apply IH].
  simpl. apply NoDup_cons. split; [|by apply IH].
  intros (y' & Heq & (x' & Hx' & Hgx')%list_elem_of_omap)%list_elem_of_fmap.
  apply Hx. apply list_elem_of_fmap. exists x'. split; [|done].
  rewrite <- (Hfg _ _ Hgx), <- (Hfg _ _ Hgx'). done.
Qed.

Lemma NoDup_fmap_filter {A C} (h : A → C) (P : A → Prop) `{!∀ x, Decision (P x)}
    (l : list A) :
  NoDup (h <$> l) → NoDup (h <$> filter P l).
Proof.
  induction l as [|x l IH]; [done|].
  intros [Hx Hl]%NoDup_cons. rewrite filter_cons. destruct (decide (P x)); [|by apply IH].
  simpl. apply NoDup_cons. split; [|by apply IH].
  intros (x' & Heq & [_ Hx']%list_elem_of_filter)%list_elem_of_fmap.
  apply Hx. apply list_elem_of_fmap. eauto.
Qed.

(** X29. The search never hides a room that can be booked: when the day
    loop of a booking for [qty >= 1] units of an active room gets through
    a non-empty range, a search over the same range returns the room,
    with at least [qty] available units and with every day of the range
    counted in [available_days]. *)
Theorem bookable_room_is_found (clock : Z) (room : string) (rm : Room)
    (start end_ qty : Z) (m : db) :
  dates_normalized (availabilities m) →
  rooms m !! room = Some rm →
  is_active rm = true →
  1 <= qty →
  normalizeDate start <= normalizeDate end_ →
  (day_loop clock room qty (getDateRange start end_) (availabilities m)).1 = None →
  ∃ r, r ∈ search_rooms start end_ m
       ∧ sr_id r = room
       ∧ sr_name r = name rm
       ∧ qty <= sr_available_units r
       ∧ sr_available_days r = Z.of_nat (length (getDateRange start end_)).
Proof.
  intros Hnorm Hroom Hact Hq Hle Hloop0.
  pose proof (proj1 (day_loop_succeeds_iff clock room qty _ _ (NoDup_getDateRange _ _) Hq)
                Hloop0) as Hloop.
  set (matched := filter (λ doc, match_available (normalizeDate start) (normalizeDate end_) doc
                                 = true) (map_to_list (availabilities m))).
  assert (normalizeDate start ∈ getDateRange start end_) as Hfirst.
  { apply elem_of_getDateRange. split; [lia|apply normalizeDate_midnight]. }
  destruct (Hloop _ Hfirst) as (a0 & Ha0 & Hqa0).
  assert (∀ d a, availabilities m !! (room, d) = Some a →
                 free_day (normalizeDate start) (normalizeDate end_) room ((room, d), a) →
                 qty <= available_units a) as Hall.
  { intros d a Ha (_ & Hd & _). simpl in Hd.
    destruct (Hloop d) as (a' & Ha' & Hqa').
    - apply elem_of_getDateRange. split; [done|]. apply (Hnorm _ _ Ha).
    - congruence. }
  destruct (group_of matched room) as [g|] eqn:Hgroup.
  2:{ exfalso. unfold group_of in Hgroup.
      assert (((room, normalizeDate start), a0) ∈ filter (λ doc, doc.1.1 = room) matched) as Hin.
      { apply elem_of_matched_room. split; [done|]. split_and!; simpl; [done|lia|lia|lia]. }
      destruct (filter _ matched); [by apply elem_of_nil in Hin|done]. }
  pose proof (proj1 (group_of_spec _ _ _ _ _) Hgroup)
    as (Hid & (d1 & a1 & Ha1 & Hfree1 & Hmin) & _ & Hdays).
  assert (qty <= minAvailable g) as Hqg by (rewrite <- Hmin; by eapply Hall).
  destruct (lookup_project m g) as [r|] eqn:Hproj.
  2:{ unfold lookup_project in Hproj. by rewrite Hid, Hroom, Hact in Hproj. }
  exists r. split; [by apply (search_rooms_intro _ _ _ room g); [|lia|]|].
  destruct (lookup_project_inv _ _ _ Hproj) as (Hrid & Hunits & Hcount & _).
  split_and!; [congruence| |lia|].
  - unfold lookup_project in Hproj. rewrite Hid, Hroom, Hact in Hproj.
    by injection Hproj as <-.
  - rewrite Hcount, Hdays. f_equal.
    destruct (free_days_list (normalizeDate start) (normalizeDate end_) room
                (availabilities m)) as (ds & Hnd & <- & Hds).
    apply Permutation_length, NoDup_Permutation; [done|apply NoDup_getDateRange|].
    intros d. rewrite Hds. split.
    + intros (a & Ha & Hd & _). apply elem_of_getDateRange. split; [done|].
      apply (Hnorm _ _ Ha).
    + intros Hd. destruct (Hloop d Hd) as (a & Ha & Hqa).
      pose proof (proj1 (elem_of_getDateRange _ _ _) Hd) as [Hd' _].
      exists a. split_and!; [done|lia..].
Qed.

Lemma bookable_room_is_found_witness :
  ∃ r, r ∈ search_rooms Scenario.d_2025_12_01 Scenario.d_2025_12_03 (mongo Scenario.world)
       ∧ sr_id r = "64b000000000000000000001"
       ∧ sr_name r = name Scenario.room_a
       ∧ 2 <= sr_available_units r
       ∧ sr_available_days r
         = Z.of_nat (length (getDateRange Scenario.d_2025_12_01 Scenario.d_2025_12_03)).
Proof.
  apply (bookable_room_is_found 0 "64b000000000000000000001" Scenario.room_a
           Scenario.d_2025_12_01 Scenario.d_2025_12_03 2 (mongo Scenario.world)).
  - refine (bool_decide_unpack _ _). vm_compute. exact I.
  - vm_compute. reflexivity.
  - reflexivity.
  - lia.
  - vm_compute. discriminate.
  - vm_compute. reflexivity.
Defined.

(** X30. The search lists each room at most once, in ascending order of
    location and then name; every room listed is active and is shown with
    its own data, at least one available unit and at least one available
    day; on a ledger dated at midnight, [available_days] is at most the
    number of days of the range. *)
Theorem search_results_distinct_sorted (start end_ : Z) (m : db) :
  NoDup (sr_id <$> search_rooms start end_ m)
  ∧ Sorted by_location_name (search_rooms start end_ m)
  ∧ ∀ r, r ∈ search_rooms start end_ m →
      (∃ rm, rooms m !! sr_id r = Some rm ∧ is_active rm = true
             ∧ sr_name r = name rm ∧ sr_location r = location rm
             ∧ sr_capacity r = capacity rm ∧ sr_price_cents r = price_cents rm)
      ∧ 1 <= sr_available_units r
      ∧ sr_free_units r = sr_available_units r
      ∧ 1 <= sr_available_days r
      ∧ (dates_normalized (availabilities m) →
         sr_available_days r <= Z.of_nat (length (getDateRange start end_))).
Proof.
  split_and!.
  - unfold search_rooms. rewrite merge_sort_Permutation.
    apply (NoDup_fmap_omap sr_id _id).
    { intros g r Hproj. by destruct (lookup_project_inv _ _ _ Hproj) as [? _]. }
    apply NoDup_fmap_filter. unfold group_by_room.
    apply (NoDup_fmap_omap _id id).
    { intros room g Hg. unfold group_of in Hg. destruct (filter _ _); [done|].
      by injection Hg as <-. }
    rewrite list_fmap_id. apply NoDup_remove_dups.
  - unfold search_rooms. apply Sorted_merge_sort. apply _.
  - intros r (g & Hgroup & Hpos & Hproj)%search_rooms_elim.
    pose proof (proj1 (group_of_spec _ _ _ _ _) Hgroup)
      as (_ & (d1 & a1 & Ha1 & Hfree1 & Hmin) & _ & Hdays).
    destruct (free_days_list (normalizeDate start) (normalizeDate end_) (_id g)
                (availabilities m)) as (ds & Hnd & Hlen & Hds).
    rewrite <- Hlen in Hdays.
    unfold lookup_project in Hproj.
    destruct (rooms m !! _id g) as [rm|] eqn:Hroom; [|done].
    destruct (is_active rm) eqn:Hact; [|done]. injection Hproj as <-. simpl.
    split_and!; [by exists rm|lia|done| |].
    + assert (d1 ∈ ds) as Hin.
      { apply Hds. exists a1. split; [done|]. destruct Hfree1 as (_ & ? & ?). done. }
      destruct ds; [by apply elem_of_nil in Hin|]. rewrite Hdays. simpl. lia.
    + intros Hnorm. rewrite Hdays. apply inj_le, submseteq_length, NoDup_submseteq; [done|].
      intros d (a & Ha & Hd & _)%Hds. apply elem_of_getDateRange. split; [done|].
      apply (Hnorm _ _ Ha).
Qed.

End SearchProperties.
